(** * deepbuffer: the batch summarization and ingestion pipeline

    A shallow embedding of [api/services/aiService.ts],
    [api/services/slackService.ts], [api/services/cronService.ts] and of the
    [/cron/retention] and [/webhook/slack] routes of [api/index.ts], followed
    by the properties of the specification that concern them.

    Conventions.
    - The relational store is a record of tables; a table is the list of its
      rows in the order an unordered scan returns them.
    - Everything outside the process (the store's failures, the Slack and
      OpenAI servers, the clock, the time zone, the id generator) is a field
      of [Env].
    - Console output, timers and HTTP requests are recorded in a trace, most
      recent event first.
    - [while (true)] is run on fuel; [None] means that the fuel ran out. *)

From Stdlib Require Import List String Ascii ZArith NArith Bool Lia Arith.
From Stdlib Require Import DecimalString Sorted.
Import ListNotations.
Local Open Scope string_scope.
Set Warnings "-register-all".

(* ================================================================== *)
(** * The JavaScript runtime: values, [JSON.parse], [parseInt]          *)
(* ================================================================== *)

Module Js.

(** A number is kept as the exact decimal [mantissa * 10 ^ exponent] of its
    literal. *)
Inductive value : Type :=
| JUndefined
| JNull
| JBool (b : bool)
| JNumber (mantissa exponent : Z)
| JString (s : string)
| JArray (elems : list value)
| JObject (props : list (string * value)).

Definition of_nat (n : nat) : value := JNumber (Z.of_nat n) 0.

(** [!!v] *)
Definition truthy (v : value) : bool :=
  match v with
  | JUndefined | JNull => false
  | JBool b => b
  | JNumber m _ => negb (m =? 0)%Z
  | JString s => negb (s =? "")
  | JArray _ | JObject _ => true
  end.

(** [!!s] for a value that is a string or [undefined]/[null]. *)
Definition truthy_str (s : option string) : bool :=
  match s with
  | Some t => negb (t =? "")
  | None => false
  end.

(** [a || b] on such values. *)
Definition or_str (a : option string) (b : option string) : option string :=
  if truthy_str a then a else b.

Fixpoint lookup_last (k : string) (ps : list (string * value)) (found : value) : value :=
  match ps with
  | [] => found
  | (k', v) :: ps' => lookup_last k ps' (if k' =? k then v else found)
  end.

(** [v.k] on a value that is neither [null] nor [undefined]; in an object
    built by [JSON.parse] the last of several equal keys wins. *)
Definition get (v : value) (k : string) : value :=
  match v with
  | JObject ps => lookup_last k ps JUndefined
  | _ => JUndefined
  end.

(** What [JSON.stringify] keeps of an object literal: a property whose value
    is [undefined] is left out. *)
Definition stringify_props (ps : list (string * value)) : list (string * value) :=
  filter (fun p => match snd p with JUndefined => false | _ => true end) ps.

(** ** Characters *)

Definition code (c : ascii) : Z := Z.of_N (N_of_ascii c).
Definition chr (n : Z) : ascii := ascii_of_N (Z.to_N n).

Definition quote : ascii := chr 34.
Definition backslash : ascii := chr 92.

Definition at_code (c : ascii) (n : Z) : bool := (code c =? n)%Z.

Definition digit_val (c : ascii) : option Z :=
  let n := code c in
  if (48 <=? n)%Z && (n <=? 57)%Z then Some (n - 48)%Z
  else if (97 <=? n)%Z && (n <=? 122)%Z then Some (n - 87)%Z
  else if (65 <=? n)%Z && (n <=? 90)%Z then Some (n - 55)%Z
  else None.

Definition digit_in (radix : Z) (c : ascii) : option Z :=
  match digit_val c with
  | Some d => if (d <? radix)%Z then Some d else None
  | None => None
  end.

(** ** [JSON.parse] *)

Definition is_json_ws (c : ascii) : bool :=
  at_code c 32 || at_code c 9 || at_code c 10 || at_code c 13.

Fixpoint skip_ws (s : string) : string :=
  match s with
  | String c r => if is_json_ws c then skip_ws r else s
  | EmptyString => s
  end.

(** The bytes that stand for the code unit of a [\uXXXX] escape. *)
Definition encode_unit (u : Z) : string :=
  if (u <? 128)%Z then String (chr u) ""
  else if (u <? 2048)%Z then
    String (chr (192 + u / 64)) (String (chr (128 + u mod 64)) "")
  else
    String (chr (224 + u / 4096))
      (String (chr (128 + (u / 64) mod 64)) (String (chr (128 + u mod 64)) "")).

Definition simple_escape (e : ascii) : option ascii :=
  if at_code e 34 then Some quote
  else if at_code e 92 then Some backslash
  else if at_code e 47 then Some (chr 47)
  else if at_code e 98 then Some (chr 8)
  else if at_code e 102 then Some (chr 12)
  else if at_code e 110 then Some (chr 10)
  else if at_code e 114 then Some (chr 13)
  else if at_code e 116 then Some (chr 9)
  else None.

Definition hex4 (a b c d : ascii) : option Z :=
  match digit_in 16 a, digit_in 16 b, digit_in 16 c, digit_in 16 d with
  | Some x, Some y, Some z, Some w => Some (((x * 16 + y) * 16 + z) * 16 + w)%Z
  | _, _, _, _ => None
  end.

Definition prepend (p : string) (r : option (string * string)) : option (string * string) :=
  match r with
  | Some (t, rest) => Some (p ++ t, rest)
  | None => None
  end.

(** The characters of a string literal, after its opening quote. *)
Fixpoint parse_chars (s : string) : option (string * string) :=
  match s with
  | EmptyString => None
  | String c r =>
      if at_code c 34 then Some ("", r)
      else if at_code c 92 then
        match r with
        | EmptyString => None
        | String e r1 =>
            match simple_escape e with
            | Some d => prepend (String d "") (parse_chars r1)
            | None =>
                if at_code e 117 then
                  match r1 with
                  | String h1 (String h2 (String h3 (String h4 r2))) =>
                      match hex4 h1 h2 h3 h4 with
                      | Some u => prepend (encode_unit u) (parse_chars r2)
                      | None => None
                      end
                  | _ => None
                  end
                else None
            end
        end
      else if (code c <? 32)%Z then None
      else prepend (String c "") (parse_chars r)
  end.

(** The longest run of decimal digits: the number read after [acc], how many
    digits there were, and the rest. *)
Fixpoint take_digits (s : string) (acc : Z) (n : Z) : Z * Z * string :=
  match s with
  | String c r =>
      match digit_in 10 c with
      | Some d => take_digits r (acc * 10 + d)%Z (n + 1)%Z
      | None => (acc, n, s)
      end
  | EmptyString => (acc, n, s)
  end.

Definition parse_int_part (s : string) : option (Z * string) :=
  match s with
  | String c r =>
      match digit_in 10 c with
      | Some d => if (d =? 0)%Z then Some (0%Z, r)
                  else let '(m, _, r') := take_digits r d 1 in Some (m, r')
      | None => None
      end
  | EmptyString => None
  end.

Definition parse_frac (m : Z) (s : string) : option (Z * Z * string) :=
  match s with
  | String c r =>
      if at_code c 46 then
        let '(m', k, r') := take_digits r m 0 in
        if (k =? 0)%Z then None else Some (m', (- k)%Z, r')
      else Some (m, 0%Z, s)
  | EmptyString => Some (m, 0%Z, s)
  end.

Definition parse_exp (s : string) : option (Z * string) :=
  match s with
  | String c r =>
      if at_code c 101 || at_code c 69 then
        let '(sg, r1) :=
          match r with
          | String d r' => if at_code d 43 then (1%Z, r')
                           else if at_code d 45 then ((-1)%Z, r') else (1%Z, r)
          | EmptyString => (1%Z, r)
          end in
        let '(e, k, r2) := take_digits r1 0 0 in
        if (k =? 0)%Z then None else Some ((sg * e)%Z, r2)
      else Some (0%Z, s)
  | EmptyString => Some (0%Z, s)
  end.

Definition parse_number (s : string) : option (value * string) :=
  let '(neg, s1) :=
    match s with
    | String c r => if at_code c 45 then (true, r) else (false, s)
    | EmptyString => (false, s)
    end in
  match parse_int_part s1 with
  | None => None
  | Some (ip, r1) =>
      match parse_frac ip r1 with
      | None => None
      | Some (m, sh, r2) =>
          match parse_exp r2 with
          | None => None
          | Some (e, r3) => Some (JNumber (if neg then - m else m) (sh + e), r3)
          end
      end
  end.

Fixpoint strip_prefix (p s : string) : option string :=
  match p, s with
  | EmptyString, _ => Some s
  | String a p', String b s' => if Ascii.eqb a b then strip_prefix p' s' else None
  | String _ _, EmptyString => None
  end.

Definition parse_literal (s : string) : option (value * string) :=
  match strip_prefix "true" s with
  | Some r => Some (JBool true, r)
  | None =>
      match strip_prefix "false" s with
      | Some r => Some (JBool false, r)
      | None =>
          match strip_prefix "null" s with
          | Some r => Some (JNull, r)
          | None => parse_number s
          end
      end
  end.

Fixpoint parse_value (fuel : nat) (s : string) {struct fuel} : option (value * string) :=
  match fuel with
  | O => None
  | S fuel' =>
      match skip_ws s with
      | EmptyString => None
      | String c r =>
          if at_code c 123 then
            match skip_ws r with
            | String d r' =>
                if at_code d 125 then Some (JObject [], r')
                else parse_members fuel' (String d r') []
            | EmptyString => None
            end
          else if at_code c 91 then
            match skip_ws r with
            | String d r' =>
                if at_code d 93 then Some (JArray [], r')
                else parse_elements fuel' (String d r') []
            | EmptyString => None
            end
          else if at_code c 34 then
            match parse_chars r with
            | Some (t, r') => Some (JString t, r')
            | None => None
            end
          else parse_literal (String c r)
      end
  end

with parse_elements (fuel : nat) (s : string) (acc : list value) {struct fuel}
  : option (value * string) :=
  match fuel with
  | O => None
  | S fuel' =>
      match parse_value fuel' s with
      | None => None
      | Some (v, r) =>
          match skip_ws r with
          | String c r' =>
              if at_code c 44 then parse_elements fuel' r' (acc ++ [v])
              else if at_code c 93 then Some (JArray (acc ++ [v]), r')
              else None
          | EmptyString => None
          end
      end
  end

with parse_members (fuel : nat) (s : string) (acc : list (string * value)) {struct fuel}
  : option (value * string) :=
  match fuel with
  | O => None
  | S fuel' =>
      match skip_ws s with
      | String q r =>
          if at_code q 34 then
            match parse_chars r with
            | None => None
            | Some (k, r1) =>
                match skip_ws r1 with
                | String c r2 =>
                    if at_code c 58 then
                      match parse_value fuel' r2 with
                      | None => None
                      | Some (v, r3) =>
                          match skip_ws r3 with
                          | String e r4 =>
                              if at_code e 44 then parse_members fuel' r4 (acc ++ [(k, v)])
                              else if at_code e 125 then Some (JObject (acc ++ [(k, v)]), r4)
                              else None
                          | EmptyString => None
                          end
                      end
                    else None
                | EmptyString => None
                end
            end
          else None
      | EmptyString => None
      end
  end.

(** [JSON.parse(text)]; [None] stands for the [SyntaxError] it throws.  Of
    two steps of the recursion in a row at least one uses up a character of
    the text, so twice its length is fuel enough. *)
Definition JSON_parse (text : string) : option value :=
  match parse_value (2 * String.length text + 2) text with
  | Some (v, r) =>
      match skip_ws r with
      | EmptyString => Some v
      | String _ _ => None
      end
  | None => None
  end.

(** ** [parseInt] without a radix; [None] stands for [NaN] *)

Definition is_js_space (c : ascii) : bool :=
  at_code c 32 || at_code c 9 || at_code c 10 || at_code c 11 || at_code c 12 || at_code c 13.

Fixpoint skip_space (s : string) : string :=
  match s with
  | String c r => if is_js_space c then skip_space r else s
  | EmptyString => s
  end.

Fixpoint digits_radix (radix : Z) (s : string) (acc : option Z) : option Z :=
  match s with
  | String c r =>
      match digit_in radix c with
      | Some d =>
          digits_radix radix r
            (Some (match acc with Some a => a * radix + d | None => d end)%Z)
      | None => acc
      end
  | EmptyString => acc
  end.

Definition parseInt (s : string) : option Z :=
  let s0 := skip_space s in
  let '(sign, s1) :=
    match s0 with
    | String c r => if at_code c 45 then ((-1)%Z, r) else if at_code c 43 then (1%Z, r) else (1%Z, s0)
    | EmptyString => (1%Z, s0)
    end in
  let '(radix, s2) :=
    match s1 with
    | String a (String b r) =>
        if at_code a 48 && (at_code b 120 || at_code b 88) then (16%Z, r) else (10%Z, s1)
    | _ => (10%Z, s1)
    end in
  option_map (Z.mul sign) (digits_radix radix s2 None).

(** [`${n}`] for a count. *)
Definition show_nat (n : nat) : string := NilZero.string_of_uint (Nat.to_uint n).

End Js.

(* ================================================================== *)
(** * The relational store                                              *)
(* ================================================================== *)

Module Db.

Inductive Status := pending | summarized | done | archived.
Inductive SourceType := slack | web.

Definition status_eqb (a b : Status) : bool :=
  match a, b with
  | pending, pending | summarized, summarized | done, done | archived, archived => true
  | _, _ => false
  end.

Definition source_type_eqb (a b : SourceType) : bool :=
  match a, b with
  | slack, slack | web, web => true
  | _, _ => false
  end.

(** [.in('status', l)] *)
Definition status_in (l : list Status) (s : Status) : bool :=
  existsb (status_eqb s) l.

(** [.in('id', l)] *)
Definition id_in (l : list string) (i : string) : bool :=
  existsb (String.eqb i) l.

(** [items]: timestamps are milliseconds since the epoch; [meta_data] is the
    JSON object of the column, as its list of properties. *)
Module Item.
Record t := mk {
  id : string;
  source_type : SourceType;
  content : string;
  meta_data : list (string * string);
  status : Status;
  created_at : Z;
  user_id : string
}.

Definition set_status (s : Status) (i : t) : t :=
  mk (id i) (source_type i) (content i) (meta_data i) s (created_at i) (user_id i).
End Item.

(** [summaries]: [summary_text] holds whatever value the caller passed. *)
Module Summary.
Record t := mk {
  id : string;
  summary_text : Js.value;
  target_items : list string;
  created_at : Z;
  user_id : string
}.
End Summary.

Module UserSettings.
Record t := mk {
  user_id : string;
  report_custom_instructions : option string
}.
End UserSettings.

Module Workspace.
Record t := mk {
  team_id : string;
  access_token : string;
  user_id : string
}.
End Workspace.

(** [generated] counts the rows inserted so far; it indexes the id the
    store gives to the next one. *)
Record Store := mkStore {
  items : list Item.t;
  summaries : list Summary.t;
  user_settings : list UserSettings.t;
  workspaces : list Workspace.t;
  generated : nat
}.

Definition with_items (l : list Item.t) (s : Store) : Store :=
  mkStore l (summaries s) (user_settings s) (workspaces s) (generated s).

(** [meta_data->>k] *)
Fixpoint arrow (m : list (string * string)) (k : string) : option string :=
  match m with
  | [] => None
  | (k', v) :: m' => if k' =? k then Some v else arrow m' k
  end.

(** [.eq('meta_data->>k', v)]: a missing key is SQL NULL and equals nothing. *)
Definition arrow_eq (k v : string) (i : Item.t) : bool :=
  match arrow (Item.meta_data i) k with
  | Some x => x =? v
  | None => false
  end.

(** [.single()]: the row when the query has exactly one, otherwise no data
    (and an error). *)
Definition single {A : Type} (rows : list A) : option A :=
  match rows with
  | [r] => Some r
  | _ => None
  end.

(** [.limit(n)] *)
Definition limit {A : Type} (n : nat) (rows : list A) : list A := firstn n rows.
Arguments limit : simpl never.

(** [.update({ status: s }).in('id', ids)] *)
Definition update_status_in (ids : list string) (s : Status) (rows : list Item.t) : list Item.t :=
  map (fun i => if id_in ids (Item.id i) then Item.set_status s i else i) rows.

(** The outcome of a [delete] request. *)
Inductive DeleteOutcome := DeleteOk | DeleteError | DeleteThrows.

End Db.

(* ================================================================== *)
(** * What the Slack and OpenAI servers answer                          *)
(* ================================================================== *)

Module Slack.

(** A member of [users.list], with the fields of its [profile] that the
    poller reads. *)
Module Member.
Record t := mk {
  id : string;
  name : string;
  real_name : option string;
  image_48 : string;
  is_bot : bool
}.
End Member.

Module Channel.
Record t := mk {
  id : string;
  name : option string;
  is_archived : bool
}.
End Channel.

(** [SlackMessage], with the [bot_id] the code reads through a cast. *)
Module Message.
Record t := mk {
  user : option string;
  text : string;
  ts : string;
  subtype : option string;
  bot_id : option string
}.
End Message.

Record UsersData := mkUsers {
  users_ok : bool;
  members : option (list Member.t)
}.

Record ChannelsData := mkChannels {
  channels_ok : bool;
  channels : option (list Channel.t);
  next_cursor : option string
}.

Record HistoryData := mkHistory {
  history_ok : bool;
  messages : option (list Message.t)
}.

(** The result of [await fetch(url)] followed by [await res.json()]:
    [fetch] rejects, or there is a response with its status, its
    [Retry-After] header and its body, [None] when the body is not JSON. *)
Inductive Fetched (A : Type) :=
| NetworkError
| Response (status : Z) (retry_after : option string) (json : option A).
Arguments NetworkError {A}.
Arguments Response {A} status retry_after json.

(** The requests the poller sends; [oldest_ms] is the lower bound of the
    history in milliseconds (the request carries it in seconds). *)
Inductive Request :=
| UsersList (token : string)
| ConversationsList (token cursor : string)
| ConversationsHistory (token channel : string) (oldest_ms : Z).

End Slack.

Module OpenAI.

(** The prompts are fixed texts around these interpolated parts. *)
Inductive Prompt :=
| SummaryPrompt (rule6 contentList : string)
| ReplyPrompt (originalMessage tone : string)
| AskPrompt (summaryContext question : string).

Record ChatRequest := mkRequest {
  model : string;
  system : string;
  user : Prompt;
  json_object : bool
}.

Record Message := mkMessage { content : option string }.
Record Choice := mkChoice { message : option Message }.

(** [openai.chat.completions.create] rejects or resolves to its choices. *)
Inductive Completion :=
| Rejected
| Resolved (choices : list Choice).

End OpenAI.

(* ================================================================== *)
(** * The environment and the world                                     *)
(* ================================================================== *)

(** The number given to the Slack and poller-side store oracles is the
    number of HTTP requests sent so far, so a repeated request may be
    answered differently each time. *)
Record Env := mkEnv {
  SUPABASE_URL : option string;
  SUPABASE_KEY : option string;
  SUPABASE_SERVICE_ROLE_KEY : option string;
  OPENAI_API_KEY : option string;
  CRON_SECRET : option string;
  Date_now : nat -> Z;
  (* the time zone of the process, as ECMAScript's LocalTZA(t, isUTC): the
     offset of local time from UTC in ms, at the UTC time t when isUTC and
     at the local time t otherwise *)
  LocalTZA : Z -> bool -> Z;
  uuid_generate_v4 : nat -> string;
  store_now : nat -> Z;
  (* cronService: which requests the store rejects *)
  userError : bool;
  fetchError : string -> bool;
  settingsError : string -> bool;
  saveError : string -> bool;
  updateError : string -> bool;
  retention_delete : Db.DeleteOutcome;
  (* slackService: which requests the store rejects *)
  wsError : bool;
  lookupError : nat -> bool;
  insertError : nat -> bool;
  (* the servers *)
  users_list : nat -> string -> Slack.Fetched Slack.UsersData;
  conversations_list : nat -> string -> string -> Slack.Fetched Slack.ChannelsData;
  conversations_history : nat -> string -> string -> Z -> Slack.Fetched Slack.HistoryData;
  chat_completions_create : OpenAI.ChatRequest -> OpenAI.Completion
}.

Inductive Event :=
| ConsoleLog (msg : string)
| ConsoleWarn (msg : string)
| ConsoleError (msg : string)
| Sleep (ms : option Z)
| SlackFetch (req : Slack.Request)
| OpenAIFetch (req : OpenAI.ChatRequest).

Record World := mkWorld {
  store : Db.Store;
  trace : list Event;
  requests : nat
}.

Definition emit (e : Event) (w : World) : World :=
  mkWorld (store w) (e :: trace w) (requests w).

Definition console_log (m : string) : World -> World := emit (ConsoleLog m).
Definition console_warn (m : string) : World -> World := emit (ConsoleWarn m).
Definition console_error (m : string) : World -> World := emit (ConsoleError m).
Definition sleep (ms : option Z) : World -> World := emit (Sleep ms).

Definition with_store (s : Db.Store) (w : World) : World :=
  mkWorld s (trace w) (requests w).

Definition is_network (e : Event) : bool :=
  match e with
  | SlackFetch _ | OpenAIFetch _ => true
  | _ => false
  end.

Definition tick (w : World) : World :=
  mkWorld (store w) (trace w) (S (requests w)).

(** [await fetch(...)] of a Slack method: the request is recorded and
    counted. *)
Definition slack_fetch (r : Slack.Request) (w : World) : World :=
  tick (emit (SlackFetch r) w).

(* ================================================================== *)
(** * api/services/aiService.ts                                         *)
(* ================================================================== *)

Module AiService.
Import Js OpenAI.

(** [const openai = apiKey ? new OpenAI({ apiKey }) : null] *)
Definition openai (env : Env) : bool := truthy_str (OPENAI_API_KEY env).

Definition newline : string := String (chr 10) "".

(** [messages.map(m => `- ${m}`).join('\n')] *)
Definition contentList (messages : list string) : string :=
  String.concat newline (map (fun m => "- " ++ m) messages).

Definition summaryRequest (messages : list string) (customInstructions : option string)
  : ChatRequest :=
  mkRequest "gpt-4o-mini" "You are a helpful assistant that outputs JSON."
    (SummaryPrompt
       (if truthy_str customInstructions
        then match customInstructions with Some c => "6. " ++ c | None => "" end
        else "")
       (contentList messages))
    true.

Definition api_error : World -> World := console_error "OpenAI API Error:".

(** [response.choices[0].message.content]; [None] when reading it throws a
    [TypeError]. *)
Definition first_content (choices : list Choice) : option (option string) :=
  match choices with
  | [] => None
  | c :: _ =>
      match message c with
      | None => None
      | Some m => Some (content m)
      end
  end.

Definition generateSummary (env : Env) (messages : list string)
    (customInstructions : option string) (w : World) : value * World :=
  if negb (openai env) then (JNull, console_error "OpenAI API Key is missing." w)
  else
    let req := summaryRequest messages customInstructions in
    let w1 := emit (OpenAIFetch req) w in
    match chat_completions_create env req with
    | Rejected => (JNull, api_error w1)
    | Resolved choices =>
        match first_content choices with
        | None => (JNull, api_error w1)
        | Some text =>
            if negb (truthy_str text) then (JNull, w1)
            else
              match text with
              | None => (JNull, w1)
              | Some t =>
                  match JSON_parse t with
                  | Some v => (v, w1)
                  | None => (JNull, api_error w1)
                  end
              end
        end
    end.

(** The common body of [generateReplyDraft] and [askAboutSummary]. *)
Definition plain_completion (env : Env) (req : ChatRequest) (w : World) : value * World :=
  if negb (openai env) then (JNull, console_error "OpenAI API Key is missing." w)
  else
    let w1 := emit (OpenAIFetch req) w in
    match chat_completions_create env req with
    | Rejected => (JNull, api_error w1)
    | Resolved choices =>
        match first_content choices with
        | None => (JNull, api_error w1)
        | Some text =>
            match text with
            | Some t => if truthy_str text then (JString t, w1) else (JNull, w1)
            | None => (JNull, w1)
            end
        end
    end.

Definition generateReplyDraft (env : Env) (originalMessage tone : string) (w : World)
  : value * World :=
  plain_completion env
    (mkRequest "gpt-4o-mini" "You are a helpful assistant."
       (ReplyPrompt originalMessage tone) false) w.

Definition askAboutSummary (env : Env) (summaryContext question : string) (w : World)
  : value * World :=
  plain_completion env
    (mkRequest "gpt-4o-mini" "You are a helpful assistant."
       (AskPrompt summaryContext question) false) w.

End AiService.

(* ================================================================== *)
(** * api/services/slackService.ts                                      *)
(* ================================================================== *)

Module SlackService.
Import Js Db Slack.

(** [process.env.SUPABASE_SERVICE_ROLE_KEY || process.env.SUPABASE_KEY] *)
Definition supabaseKey (env : Env) : option string :=
  or_str (SUPABASE_SERVICE_ROLE_KEY env) (SUPABASE_KEY env).

Definition supabase (env : Env) : bool :=
  truthy_str (SUPABASE_URL env) && truthy_str (supabaseKey env).

Record UserInfo := mkInfo {
  name : string;
  avatar : string;
  is_bot : bool
}.

(** A [Map]: the binding set last is found first. *)
Definition UserMap := list (string * UserInfo).

Fixpoint userMap_get (m : UserMap) (k : string) : option UserInfo :=
  match m with
  | [] => None
  | (k', v) :: m' => if k' =? k then Some v else userMap_get m' k
  end.

Definition userMap_set (m : UserMap) (u : Member.t) : UserMap :=
  (Member.id u,
   mkInfo (match or_str (Member.real_name u) (Some (Member.name u)) with
           | Some n => n
           | None => Member.name u
           end)
          (Member.image_48 u) (Member.is_bot u)) :: m.

Definition buildUserMap (usersData : UsersData) : UserMap :=
  if users_ok usersData then
    match members usersData with
    | Some ms => fold_left userMap_set ms []
    | None => []
    end
  else [].

(** [retryAfter ? parseInt(retryAfter) * 1000 : 2000] *)
Definition waitTime (retryAfter : option string) : option Z :=
  if truthy_str retryAfter then
    match retryAfter with
    | Some r => option_map (fun n => n * 1000)%Z (parseInt r)
    | None => Some 2000%Z
    end
  else Some 2000%Z.

(** The [while (true)] that pages through [conversations.list]; an exception
    inside its [try] is caught and leaves the loop. *)
Fixpoint fetchChannels (fuel : nat) (env : Env) (token teamId cursor : string)
    (allChannels : list Channel.t) (w : World) : option (list Channel.t * World) :=
  match fuel with
  | O => None
  | S fuel' =>
      let w1 := slack_fetch (ConversationsList token cursor) w in
      match conversations_list env (requests w) token cursor with
      | NetworkError => Some (allChannels, console_error "Fetch channels error:" w1)
      | Response status retryAfter json =>
          if (status =? 429)%Z then
            let w2 := console_warn "Rate limited. Waiting..." w1 in
            fetchChannels fuel' env token teamId cursor allChannels
              (sleep (waitTime retryAfter) w2)
          else
            match json with
            | None => Some (allChannels, console_error "Fetch channels error:" w1)
            | Some channelsData =>
                if negb (channels_ok channelsData) then
                  Some (allChannels,
                        console_error ("Failed to fetch channels for " ++ teamId ++ ":") w1)
                else
                  let allChannels' :=
                    match channels channelsData with
                    | Some cs => (allChannels ++ cs)%list
                    | None => allChannels
                    end in
                  if truthy_str (next_cursor channelsData) then
                    match next_cursor channelsData with
                    | Some c =>
                        fetchChannels fuel' env token teamId c allChannels'
                          (sleep (Some 100%Z) w1)
                    | None => Some (allChannels', w1)
                    end
                  else Some (allChannels', w1)
            end
      end
  end.

(** The state of a poll: the world and [totalSaved]. *)
Definition Poll : Type := World * nat.

(** How a block ends: at its end, or by an exception that the enclosing
    [try] of the workspace catches. *)
Inductive Ending :=
| Normal (p : Poll)
| Thrown (p : Poll).

(** The rows that the duplication check selects. *)
Definition same_message (ts channel : string) (i : Item.t) : bool :=
  arrow_eq "ts" ts i && arrow_eq "channel" channel i.

Definition insert_item (env : Env) (content : string) (meta : list (string * string))
    (userId : string) (w : World) : World :=
  let s := store w in
  if insertError env (requests w) then tick w
  else
    tick (with_store
            (mkStore
               (items s ++ [Item.mk (uuid_generate_v4 env (generated s)) slack content meta
                                     pending (store_now env (requests w)) userId])%list
               (summaries s) (user_settings s) (workspaces s) (S (generated s)))
            w).

(** The body of [for (const msg of messages)]. *)
Definition ingestMessage (env : Env) (teamId userId : string) (userMap : UserMap)
    (channel : Channel.t) (p : Poll) (msg : Message.t) : Poll :=
  let '(w, totalSaved) := p in
  if truthy_str (Message.subtype msg) || negb (truthy_str (Message.user msg))
     || truthy_str (Message.bot_id msg)
  then p
  else
    let user := match Message.user msg with Some u => u | None => "" end in
    let userInfo := userMap_get userMap user in
    if match userInfo with Some i => is_bot i | None => false end then p
    else
      let userName := match userInfo with Some i => name i | None => user end in
      let userAvatar := match userInfo with Some i => avatar i | None => "" end in
      let existing :=
        if lookupError env (requests w) then None
        else single (filter (same_message (Message.ts msg) (Channel.id channel))
                            (items (store w))) in
      let w1 := tick w in
      match existing with
      | Some _ => (w1, totalSaved)
      | None =>
          (insert_item env (Message.text msg)
             [("user", user); ("user_name", userName); ("user_avatar", userAvatar);
              ("channel", Channel.id channel);
              ("channel_name",
               match or_str (Channel.name channel) (Some "DM") with
               | Some n => n
               | None => "DM"
               end);
              ("ts", Message.ts msg); ("team", teamId)]
             userId w1,
           S totalSaved)
      end.

(** The body of [for (const channel of allChannels)]. *)
Definition pollChannel (env : Env) (token teamId userId : string) (userMap : UserMap)
    (fourHoursAgo : Z) (p : Poll) (channel : Channel.t) : Ending :=
  let '(w, totalSaved) := p in
  if Channel.is_archived channel then Normal p
  else
    let w1 := sleep (Some 50%Z) w in
    let w2 := slack_fetch (ConversationsHistory token (Channel.id channel) fourHoursAgo) w1 in
    match conversations_history env (requests w1) token (Channel.id channel) fourHoursAgo with
    | NetworkError => Thrown (w2, totalSaved)
    | Response status _ json =>
        if (status =? 429)%Z then
          Normal (sleep (Some 2000%Z)
                    (console_warn "Rate limited on history fetch. Sleeping 2s..." w2),
                  totalSaved)
        else
          match json with
          | None => Thrown (w2, totalSaved)
          | Some historyData =>
              if negb (history_ok historyData) then Normal (w2, totalSaved)
              else
                match messages historyData with
                | None | Some [] => Normal (w2, totalSaved)
                | Some msgs =>
                    Normal (fold_left (ingestMessage env teamId userId userMap channel)
                                      msgs (w2, totalSaved))
                end
          end
    end.

Fixpoint pollChannels (env : Env) (token teamId userId : string) (userMap : UserMap)
    (fourHoursAgo : Z) (allChannels : list Channel.t) (p : Poll) : Ending :=
  match allChannels with
  | [] => Normal p
  | channel :: rest =>
      match pollChannel env token teamId userId userMap fourHoursAgo p channel with
      | Normal p' => pollChannels env token teamId userId userMap fourHoursAgo rest p'
      | Thrown p' => Thrown p'
      end
  end.

Definition workspace_error (teamId : string) (p : Poll) : Poll :=
  (console_error ("Error polling workspace " ++ teamId ++ ":") (fst p), snd p).

(** The body of [for (const ws of workspaces)]. *)
Definition pollWorkspace (fuel : nat) (env : Env) (p : Poll) (ws : Workspace.t)
  : option Poll :=
  let '(w, totalSaved) := p in
  let token := Workspace.access_token ws in
  let teamId := Workspace.team_id ws in
  let userId := Workspace.user_id ws in
  if negb (truthy_str (Some token)) then Some p
  else
    let w1 := console_log ("Fetching for team " ++ teamId ++ "...") w in
    let w2 := slack_fetch (UsersList token) w1 in
    match users_list env (requests w1) token with
    | NetworkError | Response _ _ None => Some (workspace_error teamId (w2, totalSaved))
    | Response _ _ (Some usersData) =>
        let userMap := buildUserMap usersData in
        match fetchChannels fuel env token teamId "" [] w2 with
        | None => None
        | Some (allChannels, w3) =>
            let w4 :=
              console_log ("Found " ++ show_nat (List.length allChannels)
                           ++ " channels for team " ++ teamId ++ ".") w3 in
            let fourHoursAgo := (Date_now env (requests w4) - 4 * 60 * 60 * 1000)%Z in
            match pollChannels env token teamId userId userMap fourHoursAgo
                    allChannels (w4, totalSaved) with
            | Normal p' => Some p'
            | Thrown p' => Some (workspace_error teamId p')
            end
        end
    end.

Fixpoint pollWorkspaces (fuel : nat) (env : Env) (wss : list Workspace.t) (p : Poll)
  : option Poll :=
  match wss with
  | [] => Some p
  | ws :: rest =>
      match pollWorkspace fuel env p ws with
      | Some p' => pollWorkspaces fuel env rest p'
      | None => None
      end
  end.

Definition fetchSlackMessages (fuel : nat) (env : Env) (w : World) : option World :=
  if negb (supabase env) then Some (console_error "Supabase client missing" w)
  else
    let wss := workspaces (store w) in
    if wsError env || (List.length wss =? 0)%nat then
      Some (console_warn "No workspaces found or DB error:" w)
    else
      let w1 := console_log ("Polling " ++ show_nat (List.length wss) ++ " workspaces...") w in
      match pollWorkspaces fuel env wss (w1, 0%nat) with
      | None => None
      | Some (w2, totalSaved) =>
          Some (console_log ("Fetched and saved " ++ show_nat totalSaved
                             ++ " new messages from all workspaces.") w2)
      end.

End SlackService.

(* ================================================================== *)
(** * api/services/cronService.ts                                       *)
(* ================================================================== *)

Module CronService.
Import Js Db.

Definition supabase (env : Env) : bool :=
  truthy_str (SUPABASE_URL env) && truthy_str (SUPABASE_KEY env).

(** ** [runBatchSummarization] *)

(** [.order('user_id')] *)
Fixpoint insert_ordered (x : string) (l : list string) : list string :=
  match l with
  | [] => [x]
  | y :: l' => if String.leb x y then x :: l else y :: insert_ordered x l'
  end.

Definition order (l : list string) : list string := fold_right insert_ordered [] l.

(** [[...new Set(l)]]: the first occurrence of each element, in order. *)
Fixpoint uniq (seen l : list string) : list string :=
  match l with
  | [] => []
  | x :: l' => if id_in seen x then uniq seen l' else x :: uniq (x :: seen) l'
  end.

Definition Set_spread (l : list string) : list string := uniq [] l.

Definition is_pending (i : Item.t) : bool := status_eqb (Item.status i) pending.

(** [.eq('status', 'pending').eq('user_id', userId)] *)
Definition pending_of (userId : string) (i : Item.t) : bool :=
  is_pending i && (Item.user_id i =? userId).

(** An element of [summaryResults]. *)
Record Detail := mkDetail {
  userId : string;
  processed : nat;
  summary : value
}.

(** The three shapes of what [runBatchSummarization] returns. *)
Inductive BatchResult :=
| ReturnNull
| ReturnCount0
| ReturnReport (success : bool) (totalUsersProcessed : nat) (details : list Detail).

(** The rows of the per-user query, [None] when it has an error. *)
Definition fetch_items (env : Env) (userId : string) (w : World) : option (list Item.t) :=
  if fetchError env userId then None
  else Some (limit 50 (filter (pending_of userId) (items (store w)))).

(** [settings?.report_custom_instructions || undefined] *)
Definition customInstructions (env : Env) (userId : string) (w : World) : option string :=
  let settings :=
    if settingsError env userId then None
    else single (filter (fun s => UserSettings.user_id s =? userId)
                        (user_settings (store w))) in
  match settings with
  | Some s => or_str (UserSettings.report_custom_instructions s) None
  | None => None
  end.

Definition insert_summary (env : Env) (summary_text : value) (target_items : list string)
    (userId : string) (w : World) : World :=
  let s := store w in
  with_store
    (mkStore (items s)
       (summaries s ++ [Summary.mk (uuid_generate_v4 env (generated s)) summary_text
                                   target_items (store_now env (requests w)) userId])%list
       (user_settings s) (workspaces s) (S (generated s)))
    w.

Definition mark_summarized (itemIds : list string) (w : World) : World :=
  with_store (with_items (update_status_in itemIds summarized (items (store w))) (store w)) w.

(** The body of [for (const userId of userIds)]. *)
Definition summarizeUser (env : Env) (acc : World * list Detail) (userId : string)
  : World * list Detail :=
  let '(w, summaryResults) := acc in
  let w1 := console_log ("[Scheduler] Processing summary for user " ++ userId ++ "...") w in
  match fetch_items env userId w1 with
  | None | Some [] =>
      (console_warn ("[Scheduler] No items or error for user " ++ userId ++ ":") w1,
       summaryResults)
  | Some fetched =>
      let messages := map Item.content fetched in
      let '(result, w2) :=
        AiService.generateSummary env messages (customInstructions env userId w1) w1 in
      if negb (truthy result) then
        (console_error ("[Scheduler] AI Summarization failed for user " ++ userId) w2,
         summaryResults)
      else
        let itemIds := map Item.id fetched in
        if saveError env userId then
          (console_error ("[Scheduler] Save Summary Error for user " ++ userId ++ ":") w2,
           summaryResults)
        else
          let w3 := insert_summary env (get result "summaryText") itemIds userId w2 in
          let w4 :=
            if updateError env userId then
              console_error ("[Scheduler] Update Status Error for user " ++ userId ++ ":") w3
            else mark_summarized itemIds w3 in
          (w4, (summaryResults
                ++ [mkDetail userId (List.length fetched) (get result "summaryText")])%list)
  end.

Arguments summarizeUser : simpl never.

(** The distinct users of the pending items, as the first query and the
    [Set] give them. *)
Definition userIds (w : World) : list string :=
  Set_spread (order (map Item.user_id (filter is_pending (items (store w))))).

(** [runBatchSummarization] from its step 1 on, once the poll has returned. *)
Definition summarizePending (env : Env) (w : World) : BatchResult * World :=
  if userError env then (ReturnNull, console_error "[Scheduler] Fetch Users Error:" w)
  else
    match order (map Item.user_id (filter is_pending (items (store w)))) with
    | [] => (ReturnCount0,
             console_log "[Scheduler] No pending items to summarize for any user" w)
    | usersWithPendingItems =>
        let ids := Set_spread usersWithPendingItems in
        let w1 := console_log ("[Scheduler] Found " ++ show_nat (List.length ids)
                               ++ " users with pending items.") w in
        let '(w2, summaryResults) := fold_left (summarizeUser env) ids (w1, []) in
        (ReturnReport true (List.length summaryResults) summaryResults, w2)
    end.

(** [None]: the poll has not returned within the fuel. *)
Definition runBatchSummarization (fuel : nat) (env : Env) (w : World)
  : option (BatchResult * World) :=
  if negb (supabase env) then
    Some (ReturnNull, console_error "DB not configured for summarization" w)
  else
    let w0 := console_log "[Scheduler] Starting Slack Polling..." w in
    match SlackService.fetchSlackMessages fuel env w0 with
    | None => None
    | Some w1 => Some (summarizePending env w1)
    end.

(** ** [runRetentionPolicy] *)

Definition msPerDay : Z := 86400000.

(** ECMAScript's [LocalTime(t)] and [UTC(t)]. *)
Definition LocalTime (env : Env) (t : Z) : Z := (t + LocalTZA env t true)%Z.
Definition UTC (env : Env) (t : Z) : Z := (t - LocalTZA env t false)%Z.

(** [dateThreshold.setDate(dateThreshold.getDate() - 7)] on [new Date()]:
    [setDate] keeps the local time of day and moves the local date, here to
    seven days earlier ([MakeDay] takes a date below 1 into the months
    before), and the result is read back as a UTC time. *)
Definition dateThreshold (env : Env) (now : Z) : Z :=
  UTC env (LocalTime env now - 7 * msPerDay)%Z.

(** [.lt('created_at', t).in('status', [...]).neq('source_type', 'web')] *)
Definition retention_filter (t : Z) (i : Item.t) : bool :=
  (Item.created_at i <? t)%Z
  && status_in [archived; done; summarized] (Item.status i)
  && negb (source_type_eqb (Item.source_type i) web).

(** The function has no [return] with a value: it resolves to [undefined]
    on every path. *)
Definition runRetentionPolicy (env : Env) (w : World) : value * World :=
  if negb (supabase env) then (JUndefined, w)
  else
    let w1 := console_log "[Scheduler] Running retention policy..." w in
    let t := dateThreshold env (Date_now env (requests w)) in
    match retention_delete env with
    | DeleteThrows => (JUndefined, console_error "[Scheduler] Retention Exception:" w1)
    | DeleteError => (JUndefined, console_error "[Scheduler] Retention Error:" w1)
    | DeleteOk =>
        let rows := items (store w1) in
        let count := List.length (filter (retention_filter t) rows) in
        let w2 :=
          with_store (with_items (filter (fun i => negb (retention_filter t i)) rows)
                                 (store w1)) w1 in
        (JUndefined,
         console_log ("[Scheduler] Deleted " ++ show_nat count ++ " old items.") w2)
    end.

End CronService.

(* ================================================================== *)
(** * api/index.ts: the [/cron/retention] and [/webhook/slack] routes   *)
(* ================================================================== *)

Module Api.
Import Js.

Record Response := mkResponse {
  status : Z;
  body : list (string * value)
}.

(** [`Bearer ${process.env.CRON_SECRET}`] *)
Definition bearer (env : Env) : string :=
  "Bearer " ++ match CRON_SECRET env with Some s => s | None => "undefined" end.

Definition cron_retention (env : Env) (authHeader : option string) (w : World)
  : Response * World :=
  if match authHeader with Some h => negb (h =? bearer env) | None => true end then
    (mkResponse 401 (stringify_props [("error", JString "Unauthorized")]), w)
  else
    let '(result, w') := CronService.runRetentionPolicy env w in
    (mkResponse 200 (stringify_props [("success", JBool true); ("count", result)]), w').

(** The client of [api/index.ts]. *)
Definition supabase (env : Env) : bool :=
  truthy_str (SUPABASE_URL env)
  && truthy_str (or_str (SUPABASE_SERVICE_ROLE_KEY env) (SUPABASE_KEY env)).

(** [body.event] of a Slack event callback. *)
Module SlackEvent.
Record t := mk {
  type : string;
  text : string;
  user : string;
  bot_id : option string;
  subtype : option string;
  ts : string;
  channel : string
}.
End SlackEvent.

(** The event handling of [/webhook/slack], for a body that was parsed and
    whose signature was accepted; [userInfo] is what [getUserInfo(user)]
    resolved to, a name and an avatar or [null].  The message is inserted
    without looking for a row with its channel and timestamp. *)
Definition webhook_slack_event (env : Env) (team_id : string) (event : SlackEvent.t)
    (userInfo : option (string * string)) (w : World) : World :=
  if truthy_str (SlackEvent.bot_id event)
     || match SlackEvent.subtype event with Some s => s =? "bot_message" | None => false end
  then w
  else if (SlackEvent.type event =? "message") && negb (truthy_str (SlackEvent.subtype event))
  then
    let userName := match userInfo with Some (n, _) => n | None => SlackEvent.user event end in
    let userAvatar := match userInfo with Some (_, a) => a | None => "" end in
    if supabase env then
      match Db.single (filter (fun ws => Db.Workspace.team_id ws =? team_id)
                              (Db.workspaces (store w))) with
      | Some workspace =>
          let rejected := insertError env (requests w) in
          let w' :=
            SlackService.insert_item env (SlackEvent.text event)
              [("user", SlackEvent.user event); ("user_name", userName);
               ("user_avatar", userAvatar); ("channel", SlackEvent.channel event);
               ("ts", SlackEvent.ts event); ("team", team_id)]
              (Db.Workspace.user_id workspace) w in
          if rejected then console_error "[Webhook] DB Insert Error:" w' else w'
      | None => w
      end
    else w
  else w.

End Api.

(* ================================================================== *)
(** * Sample data                                                       *)
(* ================================================================== *)

Module Sample.
Import Js Db.

Definition day : Z := 24 * 60 * 60 * 1000.

(** A configured process in the zone UTC whose store accepts every request,
    with no Slack workspace answering and no completion. *)
Definition env : Env :=
  mkEnv (Some "https://db.example") (Some "anon-key") None (Some "sk-test") (Some "s3cret")
    (fun _ => 20 * day)%Z (fun _ _ => 0%Z) (fun n => "row-" ++ show_nat n)
    (fun _ => 20 * day)%Z
    false (fun _ => false) (fun _ => false) (fun _ => false) (fun _ => false) DeleteOk
    false (fun _ => false) (fun _ => false)
    (fun _ _ => Slack.NetworkError) (fun _ _ _ => Slack.NetworkError)
    (fun _ _ _ _ => Slack.NetworkError)
    (fun _ => OpenAI.Rejected).

Definition with_retention_delete (o : DeleteOutcome) (e : Env) : Env :=
  mkEnv (SUPABASE_URL e) (SUPABASE_KEY e) (SUPABASE_SERVICE_ROLE_KEY e) (OPENAI_API_KEY e)
    (CRON_SECRET e) (Date_now e) (LocalTZA e) (uuid_generate_v4 e) (store_now e)
    (userError e) (fetchError e) (settingsError e) (saveError e) (updateError e) o
    (wsError e) (lookupError e) (insertError e)
    (users_list e) (conversations_list e) (conversations_history e)
    (chat_completions_create e).

Definition with_LocalTZA (z : Z -> bool -> Z) (e : Env) : Env :=
  mkEnv (SUPABASE_URL e) (SUPABASE_KEY e) (SUPABASE_SERVICE_ROLE_KEY e) (OPENAI_API_KEY e)
    (CRON_SECRET e) (Date_now e) z (uuid_generate_v4 e) (store_now e)
    (userError e) (fetchError e) (settingsError e) (saveError e) (updateError e)
    (retention_delete e)
    (wsError e) (lookupError e) (insertError e)
    (users_list e) (conversations_list e) (conversations_history e)
    (chat_completions_create e).

(** A zone whose offset changes from [before] to [after] at the UTC time
    [at_]; a local time that the change skips or repeats is read with the
    offset before the change. *)
Definition clock_change (at_ before after : Z) : Z -> bool -> Z :=
  fun t isUTC =>
    if (t <? (if isUTC then at_ else at_ + Z.max before after))%Z then before else after.

Definition hour : Z := 60 * 60 * 1000.

Definition with_saveError (f : string -> bool) (e : Env) : Env :=
  mkEnv (SUPABASE_URL e) (SUPABASE_KEY e) (SUPABASE_SERVICE_ROLE_KEY e) (OPENAI_API_KEY e)
    (CRON_SECRET e) (Date_now e) (LocalTZA e) (uuid_generate_v4 e) (store_now e)
    (userError e) (fetchError e) (settingsError e) f (updateError e) (retention_delete e)
    (wsError e) (lookupError e) (insertError e)
    (users_list e) (conversations_list e) (conversations_history e)
    (chat_completions_create e).

Definition with_updateError (f : string -> bool) (e : Env) : Env :=
  mkEnv (SUPABASE_URL e) (SUPABASE_KEY e) (SUPABASE_SERVICE_ROLE_KEY e) (OPENAI_API_KEY e)
    (CRON_SECRET e) (Date_now e) (LocalTZA e) (uuid_generate_v4 e) (store_now e)
    (userError e) (fetchError e) (settingsError e) (saveError e) f (retention_delete e)
    (wsError e) (lookupError e) (insertError e)
    (users_list e) (conversations_list e) (conversations_history e)
    (chat_completions_create e).

Definition with_api_key (k : option string) (e : Env) : Env :=
  mkEnv (SUPABASE_URL e) (SUPABASE_KEY e) (SUPABASE_SERVICE_ROLE_KEY e) k
    (CRON_SECRET e) (Date_now e) (LocalTZA e) (uuid_generate_v4 e) (store_now e)
    (userError e) (fetchError e) (settingsError e) (saveError e) (updateError e)
    (retention_delete e)
    (wsError e) (lookupError e) (insertError e)
    (users_list e) (conversations_list e) (conversations_history e)
    (chat_completions_create e).

Definition with_chat (f : OpenAI.ChatRequest -> OpenAI.Completion) (e : Env) : Env :=
  mkEnv (SUPABASE_URL e) (SUPABASE_KEY e) (SUPABASE_SERVICE_ROLE_KEY e) (OPENAI_API_KEY e)
    (CRON_SECRET e) (Date_now e) (LocalTZA e) (uuid_generate_v4 e) (store_now e)
    (userError e) (fetchError e) (settingsError e) (saveError e) (updateError e)
    (retention_delete e)
    (wsError e) (lookupError e) (insertError e)
    (users_list e) (conversations_list e) (conversations_history e) f.

Definition with_slack
    (u : nat -> string -> Slack.Fetched Slack.UsersData)
    (c : nat -> string -> string -> Slack.Fetched Slack.ChannelsData)
    (h : nat -> string -> string -> Z -> Slack.Fetched Slack.HistoryData)
    (e : Env) : Env :=
  mkEnv (SUPABASE_URL e) (SUPABASE_KEY e) (SUPABASE_SERVICE_ROLE_KEY e) (OPENAI_API_KEY e)
    (CRON_SECRET e) (Date_now e) (LocalTZA e) (uuid_generate_v4 e) (store_now e)
    (userError e) (fetchError e) (settingsError e) (saveError e) (updateError e)
    (retention_delete e)
    (wsError e) (lookupError e) (insertError e) u c h
    (chat_completions_create e).

(** A completion whose only choice carries [text]. *)
Definition answering (text : string) : OpenAI.ChatRequest -> OpenAI.Completion :=
  fun _ => OpenAI.Resolved [OpenAI.mkChoice (Some (OpenAI.mkMessage (Some text)))].

Definition q : string := String quote "".

(** [{"summaryText":"ok","keyTopics":[]}] *)
Definition good_answer : string :=
  "{" ++ q ++ "summaryText" ++ q ++ ":" ++ q ++ "ok" ++ q ++ ","
      ++ q ++ "keyTopics" ++ q ++ ":[]}".

Definition world_of (rows : list Item.t) : World :=
  mkWorld (mkStore rows [] [] [] 0) [] 0.

Definition item (id : string) (k : SourceType) (s : Status) (age_days : Z) (u : string)
  : Item.t :=
  Item.mk id k ("message " ++ id) [] s ((20 - age_days) * day)%Z u.

(** The three messages of user U1 in the batch scenario. *)
Definition u1_backlog : list Item.t :=
  [ Item.mk "a1" slack "deploy failed" [] pending (19 * day)%Z "U1";
    Item.mk "a2" slack "lunch plans" [] pending (19 * day + 1)%Z "U1";
    Item.mk "a3" slack "contract signed" [] pending (19 * day + 2)%Z "U1" ].

End Sample.

(* ================================================================== *)
(** * Views of the store and of a run                                   *)
(* ================================================================== *)

Module View.
Import Js Db Slack AiService SlackService CronService.

(** The rows left in [items] once the sweep has run. *)
Definition swept (env : Env) (w : World) : list Item.t :=
  items (store (snd (runRetentionPolicy env w))).

(** The condition of the sweep as the specification words it, for a row
    and a threshold [t] in ms. *)
Definition due (t : Z) (i : Item.t) : Prop :=
  (Item.created_at i < t)%Z
  /\ In (Item.status i) [archived; done; summarized]
  /\ Item.source_type i <> web.

(** By how much the offset of the zone at the time [now] differs from its
    offset at the local time seven days of 24 hours earlier; 0 in a zone
    whose offset did not change in between. *)
Definition clock_shift (env : Env) (now : Z) : Z :=
  (LocalTZA env now true - LocalTZA env (now + LocalTZA env now true - 604800000) false)%Z.

(** What belongs to a user. *)
Definition items_of (u : string) (w : World) : list Item.t :=
  filter (fun i => Item.user_id i =? u) (items (store w)).

Definition summaries_of (u : string) (w : World) : list Summary.t :=
  filter (fun s => Summary.user_id s =? u) (summaries (store w)).

Definition details_of (u : string) (ds : list Detail) : list Detail :=
  filter (fun d => userId d =? u) ds.

(** The rows a user has pending, in the order of the table. *)
Definition backlog (u : string) (w : World) : list Item.t :=
  filter (pending_of u) (items (store w)).

(** [b] is the row [a] with the status summarized and every other column
    as it was. *)
Definition summarized_copy (a b : Item.t) : Prop :=
  Item.status b = summarized
  /\ Item.id b = Item.id a /\ Item.source_type b = Item.source_type a
  /\ Item.content b = Item.content a /\ Item.meta_data b = Item.meta_data a
  /\ Item.created_at b = Item.created_at a /\ Item.user_id b = Item.user_id a.

(** What a turn that summarizes all the pending rows of a user does to a
    row of that user: a pending row becomes summarized, any other row stays
    as it is. *)
Definition pending_summarized (a b : Item.t) : Prop :=
  (Item.status a = pending -> summarized_copy a b)
  /\ (Item.status a <> pending -> b = a).

(** [id] is the primary key of [items]. *)
Definition ids_unique (w : World) : Prop := NoDup (map Item.id (items (store w))).

(** What [generateSummary] answers for the batch of a user. *)
Definition answer (env : Env) (u : string) (w : World) : value :=
  fst (AiService.generateSummary env (map Item.content (limit 50 (backlog u w)))
         (customInstructions env u w) w).

(** How the turn of a user ends. *)
Inductive Verdict :=
| NothingFetched
| AiFailed (fetched : list Item.t)
| SaveFailed (fetched : list Item.t) (result : value)
| Saved (fetched : list Item.t) (result : value) (updated : bool).

Definition verdict (env : Env) (u : string) (w : World) : Verdict :=
  match fetch_items env u w with
  | None | Some [] => NothingFetched
  | Some fetched =>
      if negb (truthy (answer env u w)) then AiFailed fetched
      else if saveError env u then SaveFailed fetched (answer env u w)
      else Saved fetched (answer env u w) (negb (updateError env u))
  end.

Definition ai_failed (u : string) : Event :=
  ConsoleError ("[Scheduler] AI Summarization failed for user " ++ u).
Definition save_failed (u : string) : Event :=
  ConsoleError ("[Scheduler] Save Summary Error for user " ++ u ++ ":").
Definition update_failed (u : string) : Event :=
  ConsoleError ("[Scheduler] Update Status Error for user " ++ u ++ ":").

(** [extends w w']: the trace of [w'] is that of [w] with more events. *)
Definition extends (w w' : World) : Prop :=
  exists es, trace w' = (es ++ trace w)%list.

(** [polled fuel env w w1]: the poll that opens the run returns, and leaves
    the world [w1]. *)
Definition polled (fuel : nat) (env : Env) (w w1 : World) : Prop :=
  SlackService.fetchSlackMessages fuel env
    (console_log "[Scheduler] Starting Slack Polling..." w) = Some w1.



Definition is_string (v : value) : bool :=
  match v with
  | JString _ => true
  | _ => false
  end.

(** The interface [SummaryResult]: [summaryText: string] and
    [keyTopics: string[]]. *)
Definition is_SummaryResult (v : value) : bool :=
  is_string (get v "summaryText")
  && match get v "keyTopics" with
     | JArray topics => forallb is_string topics
     | _ => false
     end.

(** The contract as the specification has it: [generateSummary] gives a
    failure or a result of the declared shape, nothing in between. *)
Definition fail_closed (env : Env) : Prop :=
  forall messages custom w,
    fst (generateSummary env messages custom w) = JNull
    \/ is_SummaryResult (fst (generateSummary env messages custom w)) = true.

(** What one rate-limited round of the loop leaves behind. *)
Definition rate_limited_round (token cursor : string) (retryAfter : option string)
    (w : World) : World :=
  sleep (waitTime retryAfter)
    (console_warn "Rate limited. Waiting..." (slack_fetch (ConversationsList token cursor) w)).

Fixpoint rounds (k : nat) (token cursor : string) (retryAfter : option string) (w : World)
  : World :=
  match k with
  | O => w
  | S k' => rounds k' token cursor retryAfter (rate_limited_round token cursor retryAfter w)
  end.

(** A message is ingested when it has no subtype, an author and no bot
    marker, and its author is not a bot of the directory. *)
Definition human (userMap : UserMap) (msg : Message.t) : Prop :=
  truthy_str (Message.subtype msg) = false
  /\ truthy_str (Message.user msg) = true
  /\ truthy_str (Message.bot_id msg) = false
  /\ match userMap_get userMap (match Message.user msg with Some u => u | None => "" end) with
     | Some i => is_bot i = false
     | None => True
     end.

(** The rows with the channel and timestamp of the message. *)
Definition matching (channel : Channel.t) (msg : Message.t) (w : World) : list Item.t :=
  filter (same_message (Message.ts msg) (Channel.id channel)) (items (store w)).

End View.

(* ================================================================== *)
(** * Scenarios                                                         *)
(* ================================================================== *)

Module Scenario.
Import Js Db Slack OpenAI SlackService CronService View.

(** The retention scenario: three rows that are ten days old. *)
Definition old_slack : Item.t := Sample.item "r1" slack done 10 "U1".
Definition old_web : Item.t := Sample.item "r2" web done 10 "U1".
Definition old_pending : Item.t := Sample.item "r3" slack pending 10 "U1".

Definition aged : World := Sample.world_of [old_slack; old_web; old_pending].

(** Two zones that are at UTC-4 and at UTC-5 at the time of the sweep, day
    20, and changed their clocks three days before: one from UTC-5 (clocks
    forward), one from UTC-4 (clocks back). *)
Definition env_clocks_forward : Env :=
  Sample.with_LocalTZA
    (Sample.clock_change (17 * Sample.day) (- 5 * Sample.hour) (- 4 * Sample.hour)) Sample.env.

Definition env_clocks_back : Env :=
  Sample.with_LocalTZA
    (Sample.clock_change (17 * Sample.day) (- 4 * Sample.hour) (- 5 * Sample.hour)) Sample.env.

(** A done Slack row created half an hour less than seven days before the
    sweep, and one created half an hour more than seven days before it. *)
Definition just_younger : Item.t :=
  Item.mk "y1" slack "message y1" [] done (13 * Sample.day + 1800000) "U1".

Definition just_older : Item.t :=
  Item.mk "o1" slack "message o1" [] done (13 * Sample.day - 1800000) "U1".

Definition u2_row : Item.t := Sample.item "b1" slack summarized 1 "U2".

Definition scenario : World := Sample.world_of (Sample.u1_backlog ++ [u2_row])%list.

Definition polled_scenario : World :=
  console_warn "No workspaces found or DB error:"
    (console_log "[Scheduler] Starting Slack Polling..." scenario).

Definition env_ok : Env := Sample.with_chat (Sample.answering Sample.good_answer) Sample.env.

Definition only (u : string) : string -> bool := fun v => v =? u.

Definition env_update_fails : Env := Sample.with_updateError (only "U1") env_ok.

Definition env_save_fails : Env := Sample.with_saveError (only "U1") env_ok.

(** Two users with a pending row each. *)
Definition row_a : Item.t := Item.mk "a1" slack "deploy failed" [] pending 5 "A".
Definition row_b : Item.t := Item.mk "b1" slack "lunch plans" [] pending 6 "B".
Definition two_users : World := Sample.world_of [row_a; row_b].

(** Fifty-one pending rows of U1, stored newest first: row [k] is [k] days
    old. *)
Definition row (k : nat) : Item.t :=
  Sample.item (show_nat k) slack pending (Z.of_nat k) "U1".

Definition crowded : World := Sample.world_of (map row (seq 0 51)).

(** A provider that answers with the empty object. *)
Definition env_empty_object : Env := Sample.with_chat (Sample.answering "{}") Sample.env.

(** A provider that answers [{"summaryText":"ok"}], without [keyTopics]. *)
Definition env_partial : Env :=
  Sample.with_chat
    (Sample.answering ("{" ++ Sample.q ++ "summaryText" ++ Sample.q ++ ":"
                           ++ Sample.q ++ "ok" ++ Sample.q ++ "}"))
    Sample.env.

(** U1's summarization is refused; U2 has one pending row and a good
    answer. *)
Definition refusing_u1 (r : ChatRequest) : Completion :=
  match user r with
  | SummaryPrompt _ list => if list =? "- late invoice" then Sample.answering Sample.good_answer r
                            else Rejected
  | _ => Rejected
  end.

Definition env_refusing_u1 : Env := Sample.with_chat refusing_u1 Sample.env.

Definition both_pending : World :=
  Sample.world_of
    (Sample.u1_backlog ++ [Item.mk "b1" slack "late invoice" [] pending 7 "U2"])%list.

Definition polled_both : World :=
  console_warn "No workspaces found or DB error:"
    (console_log "[Scheduler] Starting Slack Polling..." both_pending).

(** One workspace; the directory is served; [conversations.list] answers
    429 with [Retry-After: 1] every time. *)
Definition limited : Env :=
  Sample.with_slack
    (fun _ _ => Response 200 None (Some (mkUsers true (Some []))))
    (fun _ _ _ => Response 429 (Some "1") None)
    (fun _ _ _ _ => NetworkError)
    Sample.env.

Definition one_workspace : World :=
  mkWorld (mkStore [] [] [] [Workspace.mk "T1" "xoxp-1" "U1"] 0) [] 0.

(** A server that answers 429 twice and then serves the list lets the loop
    finish after two waits. *)
Definition limited_twice : Env :=
  Sample.with_slack
    (fun _ _ => Response 200 None (Some (mkUsers true (Some []))))
    (fun n _ _ => if (n <? 3)%nat then Response 429 (Some "1") None
                  else Response 200 None (Some (mkChannels true (Some []) None)))
    (fun _ _ _ _ => NetworkError)
    Sample.env.

Definition the_channel : Channel.t := Channel.mk "C1" (Some "general") false.

Definition the_message : Message.t :=
  Message.mk (Some "UH") "deploy failed" "1700000000.000100" None None.

(** One workspace with one channel, whose history has one message. *)
Definition serving : Env :=
  Sample.with_slack
    (fun _ _ => Response 200 None (Some (mkUsers true (Some []))))
    (fun _ _ _ => Response 200 None (Some (mkChannels true (Some [the_channel]) None)))
    (fun _ _ _ _ => Response 200 None (Some (mkHistory true (Some [the_message]))))
    Sample.env.

Definition workspace : Workspace.t := Workspace.mk "T1" "xoxp-1" "U1".

Definition world_with (rows : list Item.t) : World :=
  mkWorld (mkStore rows [] [] [workspace] (List.length rows)) [] 0.

(** The event with which Slack delivers [the_message] to the webhook. *)
Definition the_event : Api.SlackEvent.t :=
  Api.SlackEvent.mk "message" "deploy failed" "UH" None None "1700000000.000100" "C1".

(** [the_message] as the poller stores it, and as the webhook stores it. *)
Definition polled_row (id : string) : Item.t :=
  Item.mk id slack "deploy failed"
    [("user", "UH"); ("user_name", "UH"); ("user_avatar", ""); ("channel", "C1");
     ("channel_name", "general"); ("ts", "1700000000.000100"); ("team", "T1")]
    pending (20 * Sample.day) "U1".

Definition webhook_row (id : string) : Item.t :=
  Item.mk id slack "deploy failed"
    [("user", "UH"); ("user_name", "UH"); ("user_avatar", ""); ("channel", "C1");
     ("ts", "1700000000.000100"); ("team", "T1")]
    pending (20 * Sample.day) "U1".

(** [polls] polls in a row. *)
Fixpoint poll_times (polls : nat) (w : World) : option World :=
  match polls with
  | O => Some w
  | S k =>
      match fetchSlackMessages 1 serving w with
      | Some w' => poll_times k w'
      | None => None
      end
  end.

Definition count_after (polls : nat) (rows : list Item.t) : option nat :=
  option_map (fun w => List.length (items (store w))) (poll_times polls (world_with rows)).

End Scenario.

(* ================================================================== *)
(** * The source poller, as a sequence of actions                       *)
(* ================================================================== *)

Module PollView.
Import Js Db Slack SlackService.

(** The credential a request carries. *)
Definition token_of (r : Request) : string :=
  match r with
  | UsersList token => token
  | ConversationsList token _ => token
  | ConversationsHistory token _ _ => token
  end.

(** [polls env wss w w']: [w'] comes from [w] by actions of the poller, each
    one done for a workspace of [wss] that has a token: an event that is
    not a request, a read of the store, a request with the token of the
    workspace, or the duplication check followed by the insert of a row,
    done when the check gave no row. *)
Inductive polls (env : Env) (wss : list Workspace.t) (w : World) : World -> Prop :=
| polls_refl : polls env wss w w
| polls_emit w' e :
    polls env wss w w' -> is_network e = false -> polls env wss w (emit e w')
| polls_tick w' :
    polls env wss w w' -> polls env wss w (tick w')
| polls_fetch w' ws r :
    polls env wss w w' -> In ws wss -> Workspace.access_token ws <> "" ->
    token_of r = Workspace.access_token ws ->
    polls env wss w (slack_fetch r w')
| polls_insert w' ws content meta ts channel :
    polls env wss w w' -> In ws wss -> Workspace.access_token ws <> "" ->
    arrow meta "ts" = Some ts -> arrow meta "channel" = Some channel ->
    arrow meta "team" = Some (Workspace.team_id ws) ->
    (lookupError env (requests w') = true
     \/ single (filter (same_message ts channel) (items (store w'))) = None) ->
    polls env wss w (insert_item env content meta (Workspace.user_id ws) (tick w')).

(** The world in which a block ends. *)
Definition ending_world (e : Ending) : World :=
  match e with
  | Normal p | Thrown p => fst p
  end.

(** A row that the poller may have stored for one of the workspaces. *)
Definition polled_for (wss : list Workspace.t) (i : Item.t) : Prop :=
  Item.status i = pending /\ Item.source_type i = slack
  /\ exists ws, In ws wss /\ Workspace.access_token ws <> ""
                /\ Item.user_id i = Workspace.user_id ws
                /\ arrow (Item.meta_data i) "team" = Some (Workspace.team_id ws).


(** An answer to [conversations.list] that ends the paging: anything but a
    429 and but a page that names a next cursor. *)
Definition ends_paging (r : Fetched ChannelsData) : bool :=
  match r with
  | NetworkError => true
  | Response status _ json =>
      negb (status =? 429)%Z
      && match json with
         | None => true
         | Some data => negb (channels_ok data) || negb (truthy_str (next_cursor data))
         end
  end.

(** From any request on, one of the next [fuel] answers to
    [conversations.list] ends the paging, whatever the cursor. *)
Definition paging_ends_within (fuel : nat) (env : Env) : Prop :=
  forall n token, exists k, k < fuel
    /\ forall cursor, ends_paging (conversations_list env (n + k) token cursor) = true.


(** The requests of a trace, oldest first. *)
Definition slack_requests (w : World) : list Request :=
  flat_map (fun e => match e with SlackFetch r => [r] | _ => [] end) (rev (trace w)).

Definition openai_requests (w : World) : list OpenAI.ChatRequest :=
  flat_map (fun e => match e with OpenAIFetch r => [r] | _ => [] end) (rev (trace w)).

(** The world after one poll of [Scenario.serving] on an empty table. *)
Definition polled_once : World :=
  match Scenario.poll_times 1 (Scenario.world_with []) with
  | Some w => w
  | None => Scenario.world_with []
  end.


End PollView.

(* ================================================================== *)
(** * The batch summarizer, described from the world after the poll     *)
(* ================================================================== *)

Module BatchView.
Import Js Db CronService View PollView.


(** What holds, at each turn of the loop, for the users still to come:
    their rows and the settings are those of the world [w1] left by the
    poll. *)
Definition untouched (w1 : World) (l : list string) (w : World) : Prop :=
  ids_unique w
  /\ user_settings (store w) = user_settings (store w1)
  /\ forall v, In v l -> items_of v w = items_of v w1.

(** The summary of a user is saved. *)
Definition saved (env : Env) (w : World) (u : string) : bool :=
  match verdict env u w with
  | Saved _ _ _ => true
  | _ => false
  end.

(** The report entry of a user. *)
Definition detail_of (env : Env) (w : World) (u : string) : Detail :=
  mkDetail u (List.length (limit 50 (backlog u w))) (get (answer env u w) "summaryText").

(** What a run returns on a world [w] left by the poll. *)
Definition expected_result (env : Env) (w : World) : BatchResult :=
  if userError env then ReturnNull
  else
    match userIds w with
    | [] => ReturnCount0
    | _ =>
        let details := map (detail_of env w) (filter (saved env w) (userIds w)) in
        ReturnReport true (List.length details) details
    end.

(** The columns of a summary row that the caller sets. *)
Definition summary_columns (s : Summary.t) : string * list string * value :=
  (Summary.user_id s, Summary.target_items s, Summary.summary_text s).

Definition expected_summary (env : Env) (w : World) (u : string)
  : string * list string * value :=
  (u, map Item.id (limit 50 (backlog u w)), get (answer env u w) "summaryText").

(** The request that summarizes the batch of a user. *)
Definition request_of (env : Env) (w : World) (u : string) : OpenAI.ChatRequest :=
  AiService.summaryRequest (map Item.content (limit 50 (backlog u w)))
    (customInstructions env u w).

Definition expected_requests (env : Env) (w : World) : list OpenAI.ChatRequest :=
  if userError env then []
  else if AiService.openai env then
    map (request_of env w) (filter (fun u => negb (fetchError env u)) (userIds w))
  else [].

(** Strictly ascending in the order of the bytes, which is the order of
    the store on [user_id]: each element is below every later one. *)
Definition ascending (l : list string) : Prop :=
  StronglySorted (fun a b => (a <=? b)%string = true /\ a <> b) l.

(** The user has a pending row. *)
Definition has_pending (w : World) (u : string) : Prop :=
  exists i, In i (items (store w)) /\ Item.user_id i = u /\ Item.status i = pending.

(** What a run returns, said of the world [w] left by the poll without the
    functions of the run. *)
Definition reported (env : Env) (w : World) (r : BatchResult) : Prop :=
  match r with
  | ReturnNull => userError env = true
  | ReturnCount0 => userError env = false /\ forall u, ~ has_pending w u
  | ReturnReport success total details =>
      userError env = false /\ success = true /\ total = List.length details
      /\ ascending (map userId details)
      /\ (forall u, In u (map userId details) <->
            has_pending w u /\ fetchError env u = false
            /\ truthy (answer env u w) = true /\ saveError env u = false)
      /\ (forall d, In d details ->
            processed d = Nat.min 50 (List.length (backlog (userId d) w))
            /\ summary d = get (answer env (userId d) w) "summaryText")
  end.

(** [ci] is what is passed as the custom instructions of the user [u]: a
    text of a settings row of [u] and of no other row, and the text of the
    row of [u] when the store answers with exactly one row and its text is
    not empty. *)
Definition instructions_of (env : Env) (w : World) (u : string) (ci : option string)
  : Prop :=
  (ci <> None ->
   ci <> Some ""
   /\ exists s, In s (user_settings (store w)) /\ UserSettings.user_id s = u
                /\ UserSettings.report_custom_instructions s = ci)
  /\ (forall s text,
        settingsError env u = false ->
        filter (fun x => UserSettings.user_id x =? u) (user_settings (store w)) = [s] ->
        UserSettings.report_custom_instructions s = Some text -> text <> "" ->
        ci = Some text).

(** [r] is the request for the user [u]: a request for a JSON object whose
    prompt lists the contents of the first 50 pending rows of [u], all of
    them rows of [u], one to a line, and whose rule 6 is made of the
    instructions of [u], when there are any. *)
Definition sent_for (env : Env) (w : World) (u : string) (r : OpenAI.ChatRequest) : Prop :=
  exists batch ci,
    r = OpenAI.mkRequest "gpt-4o-mini" "You are a helpful assistant that outputs JSON."
          (OpenAI.SummaryPrompt
             (match ci with Some c => "6. " ++ c | None => "" end)
             (String.concat AiService.newline
                (map (fun i => "- " ++ Item.content i) batch)))
          true
    /\ batch = limit 50 (backlog u w)
    /\ (forall i, In i batch ->
          In i (items (store w)) /\ Item.user_id i = u /\ Item.status i = pending)
    /\ instructions_of env w u ci.

(** Two users with pending rows, given in the table out of the order of
    their ids, each with instructions of their own. *)
Definition instructed : World :=
  mkWorld
    (mkStore
       [Item.mk "b1" slack "late invoice" [] pending 7 "U2";
        Item.mk "a1" slack "deploy failed" [] pending 5 "U1";
        Item.mk "b2" slack "renewal" [] pending 8 "U2"]
       []
       [UserSettings.mk "U2" (Some "answer in French");
        UserSettings.mk "U1" (Some "be brief")]
       [] 0)
    [] 0.

Definition polled_instructed : World :=
  console_warn "No workspaces found or DB error:"
    (console_log "[Scheduler] Starting Slack Polling..." instructed).

(** Seventy pending rows of U1, and a row of each other status. *)
Definition seventy : World :=
  Sample.world_of
    (map (fun k => Sample.item (show_nat k) slack pending (Z.of_nat k) "U1") (seq 0 70)
     ++ [Sample.item "x1" slack done 3 "U1"; Sample.item "x2" web archived 3 "U2"])%list.

Definition polled_seventy : World :=
  console_warn "No workspaces found or DB error:"
    (console_log "[Scheduler] Starting Slack Polling..." seventy).

End BatchView.

(* ================================================================== *)
(** * api/services/slackService.ts: [sendSlackMessage]                  *)
(* ================================================================== *)

Module SlackSend.
Import Js Db Slack.

(** The body of a [chat.postMessage] request and the token it is sent
    with. *)
Record PostMessage := mkPost {
  token : string;
  channel : string;
  text : string;
  thread_ts : option string
}.

(** The answer of [chat.postMessage]: [data.ok]. *)
Record PostData := mkPostData { post_ok : bool }.

(** What [sendSlackMessage] meets outside the process, besides [Env]:
    [SLACK_USER_TOKEN], whether the store rejects the lookup of a team, and
    the answer of Slack to a message. *)
Record Outside := mkOutside {
  SLACK_USER_TOKEN : option string;
  workspaceError : string -> bool;
  chat_postMessage : PostMessage -> Fetched PostData
}.

(** [sendSlackMessage(channelId, text, threadTs, teamId)]: the result, the
    request that was sent, if any, and the world. *)
Definition sendSlackMessage (env : Env) (out : Outside) (channelId text : string)
    (threadTs teamId : option string) (w : World) : bool * option PostMessage * World :=
  if negb (SlackService.supabase env) then (false, None, w)
  else
    let looked_up :=
      if truthy_str teamId then
        match teamId with
        | Some team =>
            let ws :=
              if workspaceError out team then None
              else single (filter (fun ws => Workspace.team_id ws =? team)
                                  (workspaces (store w))) in
            match ws with
            | Some ws =>
                if truthy_str (Some (Workspace.access_token ws))
                then (Some (Workspace.access_token ws), w)
                else (SLACK_USER_TOKEN out,
                      console_warn ("No token found for team " ++ team
                                    ++ ", trying default env token.") w)
            | None =>
                (SLACK_USER_TOKEN out,
                 console_warn ("No token found for team " ++ team
                               ++ ", trying default env token.") w)
            end
        | None => (SLACK_USER_TOKEN out, w)
        end
      else (SLACK_USER_TOKEN out, w) in
    let '(token, w1) := looked_up in
    if negb (truthy_str token) then
      (false, None, console_error "SLACK_USER_TOKEN or Team Token is missing" w1)
    else
      let req := mkPost (match token with Some t => t | None => "" end)
                        channelId text threadTs in
      match chat_postMessage out req with
      | NetworkError | Response _ _ None =>
          (false, Some req, console_error "Slack Send Exception:" w1)
      | Response _ _ (Some data) =>
          if negb (post_ok data) then (false, Some req, console_error "Slack Send Error:" w1)
          else (true, Some req, w1)
      end.

(** Slack accepts every message; the process has a token of its own. *)
Definition accepting : Outside :=
  mkOutside (Some "xoxp-env") (fun _ => false)
            (fun _ => Response 200 None (Some (mkPostData true))).

End SlackSend.

(* ================================================================== *)
(** * api/index.ts: the routes on items, the AI routes, [/cron/summarize] *)
(* ================================================================== *)

Module Routes.
Import Js Db.

(** What a route answers: the JSON of a success, or a status with an error
    message. *)
Inductive Answer (A : Type) :=
| Ok (data : A)
| Err (status : Z) (error : string).
Arguments Ok {A} data.
Arguments Err {A} status error.

(** The text of a status in the column. *)
Definition status_name (s : Status) : string :=
  match s with
  | pending => "pending"
  | summarized => "summarized"
  | done => "done"
  | archived => "archived"
  end.

(** [.order('created_at', { ascending: false })] *)
Fixpoint insert_desc (i : Item.t) (l : list Item.t) : list Item.t :=
  match l with
  | [] => [i]
  | j :: l' =>
      if (Item.created_at j <=? Item.created_at i)%Z then i :: l else j :: insert_desc i l'
  end.

Definition order_created_desc (l : list Item.t) : list Item.t :=
  fold_right insert_desc [] l.

(** The rows that [GET /items] selects for [user]: those of the status
    asked for, or those not archived when none is asked for. *)
Definition listed (user : string) (status : option string) (i : Item.t) : bool :=
  (Item.user_id i =? user)
  && (if truthy_str status
      then match status with
           | Some s => status_name (Item.status i) =? s
           | None => false
           end
      else negb (status_eqb (Item.status i) archived)).

(** [GET /items]; [error] is the message of the error of the store, if it
    has one. *)
Definition get_items (env : Env) (user : string) (status : option string)
    (error : option string) (w : World) : Answer (list Item.t) :=
  if negb (Api.supabase env) then Err 500 "DB not configured"
  else
    match error with
    | Some message => Err 500 message
    | None => Ok (limit 50 (order_created_desc (filter (listed user status)
                                                       (items (store w)))))
    end.

(** The rows that [POST /items/archive-all] updates. *)
Definition to_archive (user : string) (workspaceId : option string) (i : Item.t) : bool :=
  (Item.user_id i =? user)
  && negb (status_eqb (Item.status i) archived)
  && negb (source_type_eqb (Item.source_type i) web)
  && match workspaceId with
     | Some id => if truthy_str workspaceId && negb (id =? "all")
                  then arrow_eq "team" id i else true
     | None => true
     end.

(** [.update({ status: 'archived' })] on the rows selected. *)
Definition archive (user : string) (workspaceId : option string) (i : Item.t) : Item.t :=
  if to_archive user workspaceId i then Item.set_status archived i else i.

(** [POST /items/archive-all], for a [workspaceId] that is a string or is
    missing; the data of the answer is its [count].  The
    option [{ count: 'exact' }] is given to the [.select('id', ...)] that
    follows [.update(...)], which takes the columns only, so the request
    asks for no count and [count] is [null] whatever was updated. *)
Definition archive_all (env : Env) (user : string) (workspaceId : option string)
    (error : option string) (w : World) : Answer value * World :=
  if negb (Api.supabase env) then (Err 500 "DB not configured", w)
  else
    match error with
    | Some message => (Err 500 message, w)
    | None =>
        let rows := items (store w) in
        (Ok JNull,
         with_store
           (with_items (map (archive user workspaceId) rows) (store w)) w)
    end.

(** [DELETE /items/:id] *)
Definition delete_item (env : Env) (user id : string) (error : option string) (w : World)
  : Answer bool * World :=
  if negb (Api.supabase env) then (Err 500 "DB not configured", w)
  else if negb (truthy_str (Some id)) then (Err 400 "Missing ID", w)
  else
    match error with
    | Some message => (Err 500 message, w)
    | None =>
        (Ok true,
         with_store
           (with_items
              (filter (fun i => negb ((Item.id i =? id) && (Item.user_id i =? user)))
                      (items (store w)))
              (store w)) w)
    end.

(** [s.includes(sub)] *)
Fixpoint includes (sub s : string) : bool :=
  String.prefix sub s
  || match s with
     | EmptyString => false
     | String _ s' => includes sub s'
     end.

Fixpoint skip (n : nat) (s : string) : string :=
  match n, s with
  | S n', String _ s' => skip n' s'
  | _, _ => s
  end.

(** [s.replace(pat, '')] for a pattern that is a string: the first
    occurrence of [pat] is taken out. *)
Fixpoint remove_first (pat s : string) : string :=
  if String.prefix pat s then skip (String.length pat) s
  else match s with
       | EmptyString => EmptyString
       | String c s' => String c (remove_first pat s')
       end.

(** What [supabase.auth.getUser(token)] resolves to: a user, an error with
    its message, or neither. *)
Inductive GetUser :=
| Authenticated (id : string)
| AuthError (message : string)
| NoUser.

(** What a middleware decides: the request goes on, here with the user
    that was set, or it is answered. *)
Inductive Gate :=
| Next (user : option string)
| Stop (status : Z) (error : string).

(** The paths that the auth middleware lets through unchecked. *)
Definition public (path : string) : bool :=
  includes "/health" path || includes "/webhook/slack" path
  || includes "/auth/callback" path || includes "/cron/" path.

(** The auth middleware, [app.use('*', ...)]; [cors()], which runs before
    it, lets a request through. *)
Definition auth (env : Env) (getUser : string -> GetUser) (path : string)
    (authHeader : option string) (w : World) : Gate * World :=
  if public path then (Next None, w)
  else if negb (truthy_str authHeader) then
    (Stop 401 "Missing Authorization header",
     console_warn ("[Auth] Missing header for " ++ path) w)
  else
    let token := remove_first "Bearer " (match authHeader with Some h => h | None => "" end) in
    if negb (Api.supabase env) then (Stop 500 "DB not configured", w)
    else
      match getUser token with
      | Authenticated id => (Next (Some id), w)
      | AuthError message =>
          (Stop 401 "Invalid token",
           console_warn ("[Auth] Invalid token for " ++ path ++ ": " ++ message) w)
      | NoUser =>
          (Stop 401 "Invalid token",
           console_warn ("[Auth] Invalid token for " ++ path ++ ": undefined") w)
      end.

(** The handler of [POST /ai/reply], for a body that parsed; a field is a
    string or is missing. *)
Definition ai_reply_handler (env : Env) (originalMessage tone : option string) (w : World)
  : Answer value * World :=
  if negb (truthy_str originalMessage) || negb (truthy_str tone) then
    (Err 400 "Missing originalMessage or tone", w)
  else
    let '(draft, w') :=
      AiService.generateReplyDraft env
        (match originalMessage with Some s => s | None => "" end)
        (match tone with Some s => s | None => "" end) w in
    if negb (truthy draft) then (Err 500 "Failed to generate draft", w')
    else (Ok draft, w').

(** [POST /ai/reply]: the auth middleware, then the handler. *)
Definition ai_reply (env : Env) (getUser : string -> GetUser) (authHeader : option string)
    (originalMessage tone : option string) (w : World) : Answer value * World :=
  match auth env getUser "/api/ai/reply" authHeader w with
  | (Stop status error, w0) => (Err status error, w0)
  | (Next _, w0) => ai_reply_handler env originalMessage tone w0
  end.

(** The handler of [POST /ai/ask], for a body that parsed; a field is a
    string or is missing. *)
Definition ai_ask_handler (env : Env) (summaryContext question : option string) (w : World)
  : Answer value * World :=
  if negb (truthy_str summaryContext) || negb (truthy_str question) then
    (Err 400 "Missing summaryContext or question", w)
  else
    let '(answer, w') :=
      AiService.askAboutSummary env
        (match summaryContext with Some s => s | None => "" end)
        (match question with Some s => s | None => "" end) w in
    if negb (truthy answer) then (Err 500 "Failed to generate answer", w')
    else (Ok answer, w').

(** [POST /ai/ask]: the auth middleware, then the handler. *)
Definition ai_ask (env : Env) (getUser : string -> GetUser) (authHeader : option string)
    (summaryContext question : option string) (w : World) : Answer value * World :=
  match auth env getUser "/api/ai/ask" authHeader w with
  | (Stop status error, w0) => (Err status error, w0)
  | (Next _, w0) => ai_ask_handler env summaryContext question w0
  end.

(** [!result] for what [runBatchSummarization] returns. *)
Definition is_null (r : CronService.BatchResult) : bool :=
  match r with
  | CronService.ReturnNull => true
  | _ => false
  end.

(** [GET /cron/summarize]; [None] when the run does not return. *)
Definition cron_summarize (fuel : nat) (env : Env) (authHeader : option string) (w : World)
  : option (Answer CronService.BatchResult * World) :=
  if match authHeader with Some h => h =? Api.bearer env | None => false end then
    match CronService.runBatchSummarization fuel env w with
    | None => None
    | Some (result, w') =>
        if is_null result then Some (Err 500 "Summarization failed", w')
        else Some (Ok result, w')
    end
  else Some (Err 401 "Unauthorized", w).

(** The requests of the two AI routes. *)
Definition reply_request (originalMessage tone : string) : OpenAI.ChatRequest :=
  OpenAI.mkRequest "gpt-4o-mini" "You are a helpful assistant."
    (OpenAI.ReplyPrompt originalMessage tone) false.

Definition ask_request (summaryContext question : string) : OpenAI.ChatRequest :=
  OpenAI.mkRequest "gpt-4o-mini" "You are a helpful assistant."
    (OpenAI.AskPrompt summaryContext question) false.

(** The key is configured and the first choice of the completion of [req]
    has the non-empty content [d]. *)
Definition completes (env : Env) (req : OpenAI.ChatRequest) (d : string) : Prop :=
  AiService.openai env = true
  /\ d <> ""
  /\ exists choices, chat_completions_create env req = OpenAI.Resolved choices
                     /\ AiService.first_content choices = Some (Some d).

(** The request carries a header that is not empty, the store is
    configured, and the store knows a user for the header without its
    first "Bearer ". *)
Definition signed_in (env : Env) (getUser : string -> GetUser) (authHeader : option string)
  : bool :=
  match authHeader with
  | Some h =>
      negb (h =? "") && Api.supabase env
      && match getUser (remove_first "Bearer " h) with
         | Authenticated _ => true
         | _ => false
         end
  | None => false
  end.

(** A store that knows the user U1 by the token "jwt-1". *)
Definition knows_u1 (token : string) : GetUser :=
  if token =? "jwt-1" then Authenticated "U1" else NoUser.

(** Newest first: no row is older than a row after it. *)
Fixpoint newest_first (l : list Item.t) : Prop :=
  match l with
  | [] => True
  | a :: l' =>
      (forall b, In b l' -> (Item.created_at b <= Item.created_at a)%Z) /\ newest_first l'
  end.

(** The row is of the workspace asked for: any row when no workspace, an
    empty one or "all" is asked for, otherwise a row whose metadata names
    the team. *)
Definition in_workspace (workspaceId : option string) (a : Item.t) : Prop :=
  match workspaceId with
  | None => True
  | Some id => id = "" \/ id = "all" \/ arrow (Item.meta_data a) "team" = Some id
  end.

(** The rows that archive-all is to archive for [user]. *)
Definition selected (user : string) (workspaceId : option string) (a : Item.t) : Prop :=
  Item.user_id a = user /\ Item.status a <> archived /\ Item.source_type a <> web
  /\ in_workspace workspaceId a.

(** [b] is the row [a] with the status archived and every other column as
    it was. *)
Definition archived_copy (a b : Item.t) : Prop :=
  Item.status b = archived
  /\ Item.id b = Item.id a /\ Item.source_type b = Item.source_type a
  /\ Item.content b = Item.content a /\ Item.meta_data b = Item.meta_data a
  /\ Item.created_at b = Item.created_at a /\ Item.user_id b = Item.user_id a.

(** What archive-all does to a row: a selected row becomes archived, any
    other row stays as it is. *)
Definition archived_by (user : string) (workspaceId : option string) (a b : Item.t)
  : Prop :=
  (selected user workspaceId a -> archived_copy a b)
  /\ (~ selected user workspaceId a -> b = a).

(** Rows of two users, of both kinds and several statuses and ages. *)
Definition mixed : World :=
  Sample.world_of
    [ Sample.item "m1" slack pending 3 "U1"; Sample.item "m2" web pending 1 "U1";
      Sample.item "m3" slack archived 5 "U1"; Sample.item "m4" slack summarized 2 "U1";
      Sample.item "m5" slack pending 4 "U2"; Sample.item "m6" slack done 0 "U1" ].

(** An event that the webhook stores: a message without subtype and
    without bot marker. *)
Definition plain_message (event : Api.SlackEvent.t) : Prop :=
  Api.SlackEvent.type event = "message"
  /\ truthy_str (Api.SlackEvent.subtype event) = false
  /\ truthy_str (Api.SlackEvent.bot_id event) = false.

(** The rows with the channel and timestamp of an event. *)
Definition copies (event : Api.SlackEvent.t) (w : World) : list Item.t :=
  filter (SlackService.same_message (Api.SlackEvent.ts event) (Api.SlackEvent.channel event))
         (items (store w)).

(** The workspace row of a team, as the webhook looks it up. *)
Definition workspace_of (team_id : string) (w : World) : option Workspace.t :=
  single (filter (fun ws => Workspace.team_id ws =? team_id) (workspaces (store w))).

End Routes.

(* ================================================================== *)
(** * The runtime on examples                                           *)
(* ================================================================== *)

Module JsTests.
Import Js.

Example parse_empty_object : JSON_parse "{}" = Some (JObject []).
Proof. reflexivity. Qed.

Example parse_nested :
  JSON_parse (" { " ++ Sample.q ++ "a" ++ Sample.q ++ " : [1, -2.50e1, true, null, " ++ Sample.q ++ "x\n" ++ Sample.q ++ "] } ")
  = Some (JObject [("a", JArray [JNumber 1 0; JNumber (-250) (-1); JBool true; JNull;
                                 JString (String "x" (String (chr 10) ""))])]).
Proof. vm_compute. reflexivity. Qed.

Example parse_rejects_prose : JSON_parse "Sorry, I cannot help." = None.
Proof. reflexivity. Qed.

Example parse_rejects_truncated : JSON_parse ("{" ++ Sample.q ++ "summaryText" ++ Sample.q ++ ": ") = None.
Proof. reflexivity. Qed.

Example parse_rejects_trailing : JSON_parse "{} x" = None.
Proof. reflexivity. Qed.

Example parse_rejects_leading_zero : JSON_parse "01" = None.
Proof. reflexivity. Qed.

Example parseInt_seconds : parseInt "30" = Some 30%Z.
Proof. reflexivity. Qed.

Example parseInt_prefix : parseInt " 12abc" = Some 12%Z.
Proof. reflexivity. Qed.

Example parseInt_hex : parseInt "0x1f" = Some 31%Z.
Proof. reflexivity. Qed.

Example parseInt_nan : parseInt "soon" = None.
Proof. reflexivity. Qed.

End JsTests.

(* ================================================================== *)
(** * Lists and decisions                                               *)
(* ================================================================== *)

Module Facts.
Import Db.

Lemma status_eqb_eq a b : status_eqb a b = true <-> a = b.
Proof. destruct a, b; simpl; split; intro H; congruence. Qed.

Lemma source_type_eqb_eq a b : source_type_eqb a b = true <-> a = b.
Proof. destruct a, b; simpl; split; intro H; congruence. Qed.

Lemma status_in_In l s : status_in l s = true <-> In s l.
Proof.
  unfold status_in. rewrite existsb_exists. split.
  - intros [x [Hx He]]. apply status_eqb_eq in He. now subst.
  - intro H. exists s. split; [assumption | now apply status_eqb_eq].
Qed.

Lemma id_in_In l i : id_in l i = true <-> In i l.
Proof.
  unfold id_in. rewrite existsb_exists. split.
  - intros [x [Hx He]]. apply String.eqb_eq in He. now subst.
  - intro H. exists i. split; [assumption | apply String.eqb_refl].
Qed.

Lemma id_in_false l i : id_in l i = false <-> ~ In i l.
Proof.
  rewrite <- id_in_In. destruct (id_in l i); split; intro H; congruence.
Qed.

(** Two rows of a table with a key column that share the key are one row. *)
Lemma key_injective {A K : Type} (key : A -> K) (l : list A) (a b : A) :
  NoDup (map key l) -> In a l -> In b l -> key a = key b -> a = b.
Proof.
  induction l as [|x l IH]; simpl; intros Hnd Ha Hb Hk; [contradiction|].
  inversion Hnd as [|? ? Hnotin Hnd']; subst.
  destruct Ha as [Ha|Ha], Hb as [Hb|Hb]; subst.
  - reflexivity.
  - exfalso. apply Hnotin. rewrite Hk. now apply in_map.
  - exfalso. apply Hnotin. rewrite <- Hk. now apply in_map.
  - now apply IH.
Qed.

(** A filter sees through a map that keeps the test and fixes what passes. *)
Lemma filter_map_fixed {A : Type} (p : A -> bool) (f : A -> A) (l : list A) :
  (forall x, In x l -> p (f x) = p x) ->
  (forall x, In x l -> p x = true -> f x = x) ->
  filter p (map f l) = filter p l.
Proof.
  induction l as [|x l IH]; simpl; intros Hp Hf; [reflexivity|].
  rewrite Hp by now left.
  destruct (p x) eqn:E.
  - rewrite Hf by (auto; now left). f_equal. apply IH; auto.
  - apply IH; auto.
Qed.

Lemma filter_map_commute {A : Type} (p : A -> bool) (f : A -> A) (l : list A) :
  (forall x, p (f x) = p x) ->
  filter p (map f l) = map f (filter p l).
Proof.
  intro Hp. induction l as [|x l IH]; simpl; [reflexivity|].
  rewrite Hp. destruct (p x); simpl; now rewrite IH.
Qed.

Lemma filter_all {A : Type} (p : A -> bool) (l : list A) :
  (forall x, In x l -> p x = true) -> filter p l = l.
Proof.
  induction l as [|x l IH]; simpl; intro H; [reflexivity|].
  rewrite H by now left. f_equal. apply IH. auto.
Qed.

Lemma filter_none {A : Type} (p : A -> bool) (l : list A) :
  (forall x, In x l -> p x = false) -> filter p l = [].
Proof.
  induction l as [|x l IH]; simpl; intro H; [reflexivity|].
  rewrite H by now left. apply IH. auto.
Qed.

Lemma firstn_In {A : Type} (n : nat) (l : list A) (x : A) :
  In x (firstn n l) -> In x l.
Proof.
  revert n. induction l as [|y l IH]; intros [|n]; simpl; try tauto.
  intros [H|H]; [now left | right; eauto].
Qed.

Lemma firstn_whole {A : Type} (n : nat) (l : list A) :
  List.length l <= n -> firstn n l = l.
Proof. intro H. now apply firstn_all2. Qed.

End Facts.

(* ================================================================== *)
(** * The retention sweep                                               *)
(* ================================================================== *)

Module Retention.
Import Js Db CronService Facts View Scenario.

Lemma dateThreshold_shift env now :
  dateThreshold env now = (now - 604800000 + clock_shift env now)%Z.
Proof.
  unfold dateThreshold, UTC, LocalTime, clock_shift, msPerDay.
  replace (now + LocalTZA env now true - 7 * 86400000)%Z
    with (now + LocalTZA env now true - 604800000)%Z by lia.
  lia.
Qed.

Lemma retention_filter_due t i : retention_filter t i = true <-> due t i.
Proof.
  unfold retention_filter, due.
  rewrite !andb_true_iff, Z.ltb_lt, status_in_In, negb_true_iff.
  split; intros [[H1 H2] H3] || intros [H1 [H2 H3]]; repeat split; try assumption.
  - intro E. apply source_type_eqb_eq in E. congruence.
  - destruct (source_type_eqb (Item.source_type i) web) eqn:E; [|reflexivity].
    apply source_type_eqb_eq in E. contradiction.
Qed.

(** Whatever the store answers, the sweep only takes rows away, and only
    rows that meet the condition. *)
Lemma swept_cases env w :
  swept env w = items (store w)
  \/ swept env w
     = filter (fun i => negb (retention_filter (dateThreshold env (Date_now env (requests w))) i))
              (items (store w)).
Proof.
  unfold swept, runRetentionPolicy.
  destruct (supabase env); simpl; [|now left].
  destruct (retention_delete env); simpl; [now right | now left | now left].
Qed.

Lemma swept_ok env w :
  supabase env = true -> retention_delete env = DeleteOk ->
  swept env w
  = filter (fun i => negb (retention_filter (dateThreshold env (Date_now env (requests w))) i))
           (items (store w)).
Proof.
  intros Hs Hd. unfold swept, runRetentionPolicy. rewrite Hs, Hd. reflexivity.
Qed.

Lemma runRetentionPolicy_undefined env w : fst (runRetentionPolicy env w) = JUndefined.
Proof.
  unfold runRetentionPolicy.
  destruct (supabase env); simpl; [|reflexivity].
  destruct (retention_delete env); reflexivity.
Qed.

(** C2, on the code.  The threshold is not a fixed seven days: it is the
    same local time of day seven local dates earlier.  In a zone that put
    its clocks forward during the week, a done Slack row that is younger
    than seven days is deleted; in a zone that put them back, a done Slack
    row that is older than seven days is kept. *)
Theorem clock_change_moves_the_threshold :
  (supabase env_clocks_forward = true /\ retention_delete env_clocks_forward = DeleteOk
   /\ Item.status just_younger = done /\ Item.source_type just_younger = slack
   /\ (Date_now env_clocks_forward 0 - 604800000 < Item.created_at just_younger)%Z
   /\ swept env_clocks_forward (Sample.world_of [just_younger]) = [])
  /\ (supabase env_clocks_back = true /\ retention_delete env_clocks_back = DeleteOk
      /\ Item.status just_older = done /\ Item.source_type just_older = slack
      /\ (Item.created_at just_older < Date_now env_clocks_back 0 - 604800000)%Z
      /\ swept env_clocks_back (Sample.world_of [just_older]) = [just_older]).
Proof.
  repeat split; vm_compute; reflexivity.
Qed.

(** C2, corrected.  A row of [items] is deleted by the sweep only if it was
    created before the threshold, its status is one of archived, done and
    summarized, and its source type is not web; when the store is
    configured and carries out the delete, every such row is deleted.  The
    threshold is 604800000 ms (seven days of 24 hours) before the time of
    the sweep, moved by the change of the zone's offset over the week; in a
    zone whose offset did not change it is exactly seven days.  A web row
    is never deleted, and neither is a pending row, at any age and in any
    zone. *)
Theorem retention_deletes_exactly_expired (env : Env) (w : World) (i : Item.t) :
  In i (items (store w)) ->
  (~ In i (swept env w) ->
   due (Date_now env (requests w) - 604800000
        + clock_shift env (Date_now env (requests w))) i)
  /\ (supabase env = true -> retention_delete env = DeleteOk ->
      (~ In i (swept env w)
       <-> due (Date_now env (requests w) - 604800000
                + clock_shift env (Date_now env (requests w))) i))
  /\ (supabase env = true -> retention_delete env = DeleteOk ->
      clock_shift env (Date_now env (requests w)) = 0%Z ->
      (~ In i (swept env w)
       <-> (Item.created_at i < Date_now env (requests w) - 604800000)%Z
           /\ In (Item.status i) [archived; done; summarized]
           /\ Item.source_type i <> web))
  /\ (Item.source_type i = web -> In i (swept env w))
  /\ (Item.status i = pending -> In i (swept env w)).
Proof.
  intro Hin. rewrite <- dateThreshold_shift.
  set (t := dateThreshold env (Date_now env (requests w))).
  assert (Hkeep : ~ due t i -> In i (swept env w)).
  { intro Hne. destruct (swept_cases env w) as [E|E]; rewrite E; [assumption|].
    apply filter_In. split; [assumption|].
    apply negb_true_iff. fold t.
    destruct (retention_filter t i) eqn:F; [|reflexivity].
    apply retention_filter_due in F. contradiction. }
  assert (Honly : ~ In i (swept env w) -> due t i).
  { intro Hgone.
    destruct (retention_filter t i) eqn:F.
    - now apply retention_filter_due.
    - exfalso. apply Hgone, Hkeep. intro Hex.
      apply retention_filter_due in Hex. congruence. }
  assert (Hall : supabase env = true -> retention_delete env = DeleteOk ->
                 (~ In i (swept env w) <-> due t i)).
  { intros Hs Hd. split; [exact Honly|].
    intros Hex Hstill. rewrite (swept_ok env w Hs Hd) in Hstill.
    apply filter_In in Hstill. destruct Hstill as [_ Hn]. fold t in Hn.
    apply retention_filter_due in Hex. rewrite Hex in Hn. discriminate. }
  split; [exact Honly|]. split; [exact Hall|]. split; [|split].
  - intros Hs Hd Hz. rewrite (Hall Hs Hd). subst t.
    rewrite dateThreshold_shift, Hz, Z.add_0_r. reflexivity.
  - intro Hweb. apply Hkeep. intros [_ [_ Hnw]]. contradiction.
  - intro Hp. apply Hkeep. intros [_ [Hst _]]. rewrite Hp in Hst.
    simpl in Hst. intuition discriminate.
Qed.

Example scenario_swept : swept Sample.env aged = [old_web; old_pending].
Proof. reflexivity. Qed.

(** In UTC the threshold is seven days to the millisecond: of two done
    Slack rows half an hour on either side of it, the older one goes. *)
Example utc_threshold :
  swept Sample.env (Sample.world_of [just_older; just_younger]) = [just_younger].
Proof. reflexivity. Qed.

Lemma retention_deletes_exactly_expired_witness :
  In old_slack (items (store aged))
  /\ (~ In old_slack (swept Sample.env aged)
      <-> (Item.created_at old_slack < Date_now Sample.env (requests aged) - 604800000)%Z
          /\ In (Item.status old_slack) [archived; done; summarized]
          /\ Item.source_type old_slack <> web).
Proof.
  assert (Hin : In old_slack (items (store aged))) by (simpl; auto).
  split; [exact Hin|].
  destruct (retention_deletes_exactly_expired Sample.env aged old_slack Hin)
    as [_ [_ [H _]]].
  apply H; reflexivity.
Defined.

(** C8, on the code.  One row is due; the sweep deletes it and logs the
    count 1, yet the value it returns is [undefined], so the route answers
    without any count. *)
Theorem sweep_returns_no_count :
  let w := Sample.world_of [old_slack] in
  let result := fst (runRetentionPolicy Sample.env w) in
  let w' := snd (runRetentionPolicy Sample.env w) in
  items (store w') = []
  /\ trace w' = [ConsoleLog "[Scheduler] Deleted 1 old items.";
                 ConsoleLog "[Scheduler] Running retention policy..."]
  /\ result = JUndefined
  /\ result <> of_nat 1
  /\ Api.body (fst (Api.cron_retention Sample.env (Some "Bearer s3cret") w))
     = [("success", JBool true)].
Proof.
  cbv zeta. repeat split; try reflexivity. vm_compute. discriminate.
Qed.

End Retention.

(* ================================================================== *)
(** * The AI client                                                     *)
(* ================================================================== *)

Module Ai.
Import Js OpenAI AiService.

(** The client changes nothing but the trace. *)
Lemma generateSummary_store env m c w :
  store (snd (generateSummary env m c w)) = store w
  /\ requests (snd (generateSummary env m c w)) = requests w.
Proof.
  unfold generateSummary.
  destruct (openai env); simpl; [|auto].
  destruct (chat_completions_create env _); simpl; [auto|].
  destruct (first_content choices) as [text|]; simpl; [|auto].
  destruct (truthy_str text); simpl; [|auto].
  destruct text as [t|]; simpl; [|auto].
  destruct (JSON_parse t); simpl; auto.
Qed.

(** What it returns does not depend on the world it is called in. *)
Lemma generateSummary_value env m c w w' :
  fst (generateSummary env m c w) = fst (generateSummary env m c w').
Proof.
  unfold generateSummary.
  destruct (openai env); simpl; [|reflexivity].
  destruct (chat_completions_create env _); simpl; [reflexivity|].
  destruct (first_content choices) as [text|]; simpl; [|reflexivity].
  destruct (truthy_str text); simpl; [|reflexivity].
  destruct text as [t|]; simpl; [|reflexivity].
  destruct (JSON_parse t); reflexivity.
Qed.

(** It only adds events to the trace. *)
Lemma generateSummary_trace env m c w :
  exists es, trace (snd (generateSummary env m c w)) = (es ++ trace w)%list.
Proof.
  unfold generateSummary.
  destruct (openai env); simpl; [|now exists [ConsoleError "OpenAI API Key is missing."]].
  set (req := summaryRequest m c).
  destruct (chat_completions_create env req); simpl.
  - now exists [ConsoleError "OpenAI API Error:"; OpenAIFetch req].
  - destruct (first_content choices) as [text|]; simpl;
      [|now exists [ConsoleError "OpenAI API Error:"; OpenAIFetch req]].
    destruct (truthy_str text); simpl; [|now exists [OpenAIFetch req]].
    destruct text as [t|]; simpl; [|now exists [OpenAIFetch req]].
    destruct (JSON_parse t); simpl;
      [now exists [OpenAIFetch req]
      |now exists [ConsoleError "OpenAI API Error:"; OpenAIFetch req]].
Qed.

End Ai.

(* ================================================================== *)
(** * The batch summarizer, one user at a time                          *)
(* ================================================================== *)

Module Batch.
Import Js Db CronService Facts View Scenario.

Lemma backlog_of_items u w :
  backlog u w = filter is_pending (items_of u w).
Proof.
  unfold backlog, items_of, pending_of.
  induction (items (store w)) as [|i l IH]; simpl; [reflexivity|].
  destruct (Item.user_id i =? u); simpl.
  - rewrite andb_true_r. destruct (is_pending i); now rewrite IH.
  - now rewrite andb_false_r.
Qed.

Lemma backlog_In u w i :
  In i (backlog u w)
  <-> In i (items (store w)) /\ Item.status i = pending /\ Item.user_id i = u.
Proof.
  unfold backlog, pending_of, is_pending.
  rewrite filter_In, andb_true_iff, status_eqb_eq, String.eqb_eq. tauto.
Qed.

Lemma fetch_items_log env u m w :
  fetch_items env u (console_log m w) = fetch_items env u w.
Proof. reflexivity. Qed.

(** The turn of a user, read off its verdict. *)
Lemma summarizeUser_verdict env w rep u :
  let w' := fst (summarizeUser env (w, rep) u) in
  let rep' := snd (summarizeUser env (w, rep) u) in
  match verdict env u w with
  | NothingFetched => store w' = store w /\ rep' = rep
  | AiFailed _ => store w' = store w /\ rep' = rep /\ In (ai_failed u) (trace w')
  | SaveFailed _ _ => store w' = store w /\ rep' = rep /\ In (save_failed u) (trace w')
  | Saved fetched result updated =>
      items (store w')
      = (if updated then update_status_in (map Item.id fetched) summarized (items (store w))
         else items (store w))
      /\ summaries (store w')
         = (summaries (store w)
            ++ [Summary.mk (uuid_generate_v4 env (generated (store w)))
                  (get result "summaryText") (map Item.id fetched)
                  (store_now env (requests w)) u])%list
      /\ user_settings (store w') = user_settings (store w)
      /\ workspaces (store w') = workspaces (store w)
      /\ rep' = (rep ++ [mkDetail u (List.length fetched) (get result "summaryText")])%list
      /\ (updated = false -> In (update_failed u) (trace w'))
  end.
Proof.
  cbv zeta. unfold verdict, summarizeUser, answer.
  rewrite fetch_items_log.
  destruct (fetch_items env u w) as [[|i fetched]|] eqn:F; simpl; [auto| |auto].
  assert (Hb : i :: fetched = limit 50 (backlog u w)).
  { unfold fetch_items in F. destruct (fetchError env u); [discriminate|].
    now inversion F. }
  rewrite <- Hb. simpl map.
  set (m := Item.content i :: map Item.content fetched).
  set (c := customInstructions env u _).
  set (w1 := console_log _ w).
  replace (customInstructions env u w) with c by reflexivity.
  rewrite (Ai.generateSummary_value env m c w w1).
  destruct (Ai.generateSummary_store env m c w1) as [Hst Hrq].
  destruct (AiService.generateSummary env m c w1) as [result w2]; simpl in *.
  destruct (truthy result); simpl; [|rewrite Hst; repeat split; now left].
  destruct (saveError env u); simpl; [rewrite Hst; repeat split; now left|].
  destruct (updateError env u); simpl; rewrite Hst, Hrq; repeat split;
    try reflexivity; try discriminate.
  intros _. now left.
Qed.

(** The verdict of a user depends on the store through that user's rows and
    the settings only. *)
Lemma verdict_ext env u w w' :
  items_of u w = items_of u w' ->
  user_settings (store w) = user_settings (store w') ->
  verdict env u w = verdict env u w'.
Proof.
  intros Hi Hs.
  assert (Hb : backlog u w = backlog u w') by (now rewrite !backlog_of_items, Hi).
  assert (Hf : fetch_items env u w = fetch_items env u w').
  { unfold fetch_items. fold (backlog u w) (backlog u w'). now rewrite Hb. }
  assert (Hc : customInstructions env u w = customInstructions env u w').
  { unfold customInstructions. now rewrite Hs. }
  assert (Ha : answer env u w = answer env u w').
  { unfold answer. rewrite Hb, Hc. apply Ai.generateSummary_value. }
  unfold verdict. now rewrite Hf, Ha.
Qed.

Lemma verdict_fetched env u w fetched result updated :
  verdict env u w = Saved fetched result updated ->
  fetched = limit 50 (backlog u w) /\ fetched <> []
  /\ result = answer env u w /\ updated = negb (updateError env u).
Proof.
  unfold verdict, fetch_items. fold (backlog u w).
  destruct (fetchError env u); [discriminate|].
  destruct (limit 50 (backlog u w)) as [|i l] eqn:E; [discriminate|].
  destruct (negb (truthy (answer env u w))); [discriminate|].
  destruct (saveError env u); [discriminate|].
  intro H. inversion H; subst. repeat split; discriminate.
Qed.

Lemma update_status_in_ids ids s rows :
  map Item.id (update_status_in ids s rows) = map Item.id rows.
Proof.
  unfold update_status_in. rewrite map_map. apply map_ext.
  intro i. now destruct (id_in ids (Item.id i)).
Qed.

(** Every turn keeps the ids of [items] and the settings. *)
Lemma summarizeUser_keeps env w rep v :
  map Item.id (items (store (fst (summarizeUser env (w, rep) v))))
  = map Item.id (items (store w))
  /\ user_settings (store (fst (summarizeUser env (w, rep) v))) = user_settings (store w).
Proof.
  pose proof (summarizeUser_verdict env w rep v) as H. cbv zeta in H.
  destruct (verdict env v w) as [|fetched|fetched result|fetched result updated];
    try (destruct H as [H _]; now rewrite H).
  destruct H as [Hi [_ [Hu _]]]. rewrite Hi, Hu. split; [|reflexivity].
  destruct updated; [apply update_status_in_ids | reflexivity].
Qed.

(** Under the primary key, an update by the ids of rows of [v] fixes every
    row of another user. *)
Lemma update_fixes_others u v w :
  v <> u -> ids_unique w ->
  forall i, In i (items (store w)) -> Item.user_id i = u ->
  id_in (map Item.id (limit 50 (backlog v w))) (Item.id i) = false.
Proof.
  intros Hne Hnd i Hin Hu. apply id_in_false. intro Hid.
  apply in_map_iff in Hid. destruct Hid as [j [Hj Hjin]].
  apply firstn_In, backlog_In in Hjin. destruct Hjin as [Hjin [_ Hjv]].
  assert (j = i) by (eapply key_injective; eauto). subst. congruence.
Qed.

(** The turn of [v] leaves what belongs to another user [u] as it is. *)
Lemma summarizeUser_other env w rep u v :
  v <> u -> ids_unique w ->
  let w' := fst (summarizeUser env (w, rep) v) in
  let rep' := snd (summarizeUser env (w, rep) v) in
  items_of u w' = items_of u w
  /\ summaries_of u w' = summaries_of u w
  /\ details_of u rep' = details_of u rep.
Proof.
  intros Hne Hnd. cbv zeta.
  pose proof (summarizeUser_verdict env w rep v) as H. cbv zeta in H.
  destruct (verdict env v w) as [|fetched|fetched result|fetched result updated] eqn:V;
    try (destruct H as [Hs [Hr _]] || destruct H as [Hs Hr];
         unfold items_of, summaries_of; now rewrite Hs, Hr).
  - destruct H as [Hi [Hs [_ [_ [Hr _]]]]].
    apply verdict_fetched in V. destruct V as [Hf _].
    assert (Hvu : (v =? u) = false) by now apply String.eqb_neq.
    unfold items_of, summaries_of, details_of. rewrite Hi, Hs, Hr.
    rewrite !filter_app. simpl. rewrite Hvu, !app_nil_r.
    split; [|split; reflexivity].
    destruct updated; [|reflexivity].
    unfold update_status_in. apply filter_map_fixed.
    + intros i _. now destruct (id_in _ (Item.id i)).
    + intros i Hin Hu. apply String.eqb_eq in Hu. subst fetched.
      now rewrite (update_fixes_others u v w Hne Hnd i Hin Hu).
Qed.

Lemma summarizeUser_unique env w rep v :
  ids_unique w -> ids_unique (fst (summarizeUser env (w, rep) v)).
Proof.
  unfold ids_unique. now rewrite (proj1 (summarizeUser_keeps env w rep v)).
Qed.

Create HintDb trace.

Lemma extends_refl w : extends w w.
Proof. now exists []. Qed.

Lemma extends_trans w1 w2 w3 : extends w1 w2 -> extends w2 w3 -> extends w1 w3.
Proof.
  intros [a Ha] [b Hb]. exists (b ++ a)%list. now rewrite Hb, Ha, app_assoc.
Qed.

Lemma extends_emit e w w' : extends w w' -> extends w (emit e w').
Proof. intros [a Ha]. exists (e :: a). simpl. now rewrite Ha. Qed.

Lemma extends_with_store s w w' : extends w w' -> extends w (with_store s w').
Proof. intros [a Ha]. now exists a. Qed.

Lemma extends_In e w w' : extends w w' -> In e (trace w) -> In e (trace w').
Proof. intros [a Ha] H. rewrite Ha. apply in_or_app. now right. Qed.

#[export] Hint Resolve extends_refl extends_emit extends_with_store : trace.

(** The turn of a user only adds events to the trace. *)
Lemma summarizeUser_trace env w rep v :
  extends w (fst (summarizeUser env (w, rep) v)).
Proof.
  unfold summarizeUser, console_log, console_warn, console_error.
  set (w1 := emit _ w).
  assert (H1 : extends w w1) by (subst w1; auto with trace).
  destruct (fetch_items env v w1) as [[|i fetched]|]; cbn [fst]; auto with trace.
  pose proof (Ai.generateSummary_trace env (map Item.content (i :: fetched))
                (customInstructions env v w1) w1) as H2.
  fold (extends w1 (snd (AiService.generateSummary env (map Item.content (i :: fetched))
                           (customInstructions env v w1) w1))) in H2.
  destruct (AiService.generateSummary env _ _ w1) as [result w2]; cbn [fst snd] in *.
  assert (H3 : extends w w2) by (eapply extends_trans; eauto).
  destruct (truthy result); cbn [negb fst]; auto with trace.
  destruct (saveError env v); cbn [fst]; auto with trace.
  unfold insert_summary, mark_summarized.
  destruct (updateError env v); cbn [fst]; auto with trace.
Qed.

End Batch.

(* ================================================================== *)
(** * The batch summarizer, the whole loop                              *)
(* ================================================================== *)

Module Loop.
Import Js Db CronService Facts Batch View Scenario.

(** ** The users of the run *)

Lemma insert_ordered_In x y l : In x (insert_ordered y l) <-> x = y \/ In x l.
Proof.
  induction l as [|z l IH]; simpl; [intuition congruence|].
  destruct (String.leb y z); simpl; [intuition congruence|].
  rewrite IH. intuition congruence.
Qed.

Lemma order_In x l : In x (order l) <-> In x l.
Proof.
  unfold order. induction l as [|y l IH]; simpl; [tauto|].
  rewrite insert_ordered_In, IH. intuition congruence.
Qed.

Lemma uniq_In x seen l : In x (uniq seen l) <-> In x l /\ ~ In x seen.
Proof.
  revert seen. induction l as [|y l IH]; intro seen; simpl; [tauto|].
  destruct (id_in seen y) eqn:E.
  - apply id_in_In in E. rewrite IH. split.
    + intros [H1 H2]. auto.
    + intros [[H1|H1] H2]; [subst; contradiction | auto].
  - apply id_in_false in E. simpl. rewrite IH. simpl. split.
    + intros [H|[H1 H2]]; [subst; auto|]. split; [auto|]. intro. apply H2. auto.
    + intros [[H1|H1] H2]; [now left|].
      destruct (String.eqb_spec y x) as [->|Hne]; [now left|].
      right. split; [assumption|]. intros [H|H]; [contradiction | contradiction].
Qed.

Lemma uniq_NoDup seen l : NoDup (uniq seen l).
Proof.
  revert seen. induction l as [|y l IH]; intro seen; simpl; [constructor|].
  destruct (id_in seen y); [apply IH|].
  constructor; [|apply IH]. rewrite uniq_In. intros [_ H]. apply H. now left.
Qed.

Lemma userIds_In u w : In u (userIds w) <-> backlog u w <> [].
Proof.
  unfold userIds, Set_spread. rewrite uniq_In, order_In, in_map_iff. split.
  - intros [[i [Hu Hi]] _] E. apply filter_In in Hi. destruct Hi as [Hi Hp].
    assert (In i (backlog u w)).
    { unfold backlog, pending_of. apply filter_In. split; [assumption|].
      rewrite Hp. simpl. now apply String.eqb_eq. }
    rewrite E in H. contradiction.
  - intro Hne. split; [|tauto].
    destruct (backlog u w) as [|i l] eqn:E; [contradiction|].
    assert (Hi : In i (backlog u w)) by (rewrite E; now left).
    apply backlog_In in Hi. destruct Hi as [Hi [Hs Hu]].
    exists i. split; [assumption|]. apply filter_In. split; [assumption|].
    unfold is_pending. now apply status_eqb_eq.
Qed.

Lemma userIds_NoDup w : NoDup (userIds w).
Proof. apply uniq_NoDup. Qed.

(** ** The loop seen from one user *)

(** The turns of other users leave what belongs to [u] as it is. *)
Lemma loop_other env u l :
  forall w rep, ~ In u l -> ids_unique w ->
  let r := fold_left (summarizeUser env) l (w, rep) in
  items_of u (fst r) = items_of u w
  /\ summaries_of u (fst r) = summaries_of u w
  /\ details_of u (snd r) = details_of u rep
  /\ user_settings (store (fst r)) = user_settings (store w)
  /\ ids_unique (fst r)
  /\ extends w (fst r).
Proof.
  induction l as [|v l IH]; intros w rep Hnot Hnd; cbv zeta; simpl.
  - repeat split; auto. apply extends_refl.
  - assert (Hvu : v <> u) by (intro; subst; apply Hnot; now left).
    assert (Hl : ~ In u l) by (intro; apply Hnot; now right).
    destruct (summarizeUser_other env w rep u v Hvu Hnd) as [Hi [Hs Hd]].
    pose proof (summarizeUser_unique env w rep v Hnd) as Hnd'.
    pose proof (summarizeUser_keeps env w rep v) as [_ Hus].
    pose proof (summarizeUser_trace env w rep v) as Htr.
    destruct (summarizeUser env (w, rep) v) as [w' rep']; simpl in *.
    destruct (IH w' rep' Hl Hnd') as [Hi' [Hs' [Hd' [Hus' [Hnd'' Htr']]]]].
    cbv zeta in *.
    rewrite Hi', Hs', Hd', Hus'. repeat split; auto.
    eapply extends_trans; eauto.
Qed.

(** The own turn of [u], seen on what belongs to [u]. *)
Lemma summarizeUser_own env w rep u :
  let r := summarizeUser env (w, rep) u in
  match verdict env u w with
  | NothingFetched =>
      items_of u (fst r) = items_of u w /\ summaries_of u (fst r) = summaries_of u w
      /\ details_of u (snd r) = details_of u rep
  | AiFailed _ =>
      items_of u (fst r) = items_of u w /\ summaries_of u (fst r) = summaries_of u w
      /\ details_of u (snd r) = details_of u rep /\ In (ai_failed u) (trace (fst r))
  | SaveFailed _ _ =>
      items_of u (fst r) = items_of u w /\ summaries_of u (fst r) = summaries_of u w
      /\ details_of u (snd r) = details_of u rep /\ In (save_failed u) (trace (fst r))
  | Saved fetched result updated =>
      items_of u (fst r)
      = (if updated then update_status_in (map Item.id fetched) summarized (items_of u w)
         else items_of u w)
      /\ (exists id at_,
            summaries_of u (fst r)
            = (summaries_of u w
               ++ [Summary.mk id (get result "summaryText") (map Item.id fetched) at_ u])%list)
      /\ details_of u (snd r)
         = (details_of u rep
            ++ [mkDetail u (List.length fetched) (get result "summaryText")])%list
      /\ (updated = false -> In (update_failed u) (trace (fst r)))
  end.
Proof.
  cbv zeta. pose proof (summarizeUser_verdict env w rep u) as H. cbv zeta in H.
  destruct (verdict env u w) as [|fetched|fetched result|fetched result updated].
  - destruct H as [Hs Hr]. unfold items_of, summaries_of. now rewrite Hs, Hr.
  - destruct H as [Hs [Hr Hl]]. unfold items_of, summaries_of. now rewrite Hs, Hr.
  - destruct H as [Hs [Hr Hl]]. unfold items_of, summaries_of. now rewrite Hs, Hr.
  - destruct H as [Hi [Hs [_ [_ [Hr Hl]]]]].
    unfold items_of, summaries_of, details_of. rewrite Hi, Hs, Hr.
    rewrite !filter_app. simpl. rewrite String.eqb_refl.
    repeat split; eauto.
    destruct updated; [|reflexivity].
    unfold update_status_in. apply filter_map_commute.
    intro i. now destruct (id_in _ (Item.id i)).
Qed.

(** The whole loop, seen on what belongs to a user that has a turn. *)
Lemma loop_own env u l w rep :
  NoDup l -> In u l -> ids_unique w ->
  let r := fold_left (summarizeUser env) l (w, rep) in
  match verdict env u w with
  | NothingFetched =>
      items_of u (fst r) = items_of u w /\ summaries_of u (fst r) = summaries_of u w
      /\ details_of u (snd r) = details_of u rep
  | AiFailed _ =>
      items_of u (fst r) = items_of u w /\ summaries_of u (fst r) = summaries_of u w
      /\ details_of u (snd r) = details_of u rep /\ In (ai_failed u) (trace (fst r))
  | SaveFailed _ _ =>
      items_of u (fst r) = items_of u w /\ summaries_of u (fst r) = summaries_of u w
      /\ details_of u (snd r) = details_of u rep /\ In (save_failed u) (trace (fst r))
  | Saved fetched result updated =>
      items_of u (fst r)
      = (if updated then update_status_in (map Item.id fetched) summarized (items_of u w)
         else items_of u w)
      /\ (exists id at_,
            summaries_of u (fst r)
            = (summaries_of u w
               ++ [Summary.mk id (get result "summaryText") (map Item.id fetched) at_ u])%list)
      /\ details_of u (snd r)
         = (details_of u rep
            ++ [mkDetail u (List.length fetched) (get result "summaryText")])%list
      /\ (updated = false -> In (update_failed u) (trace (fst r)))
  end.
Proof.
  intros Hnd Hin Huniq. cbv zeta.
  destruct (in_split u l Hin) as [l1 [l2 ->]].
  apply NoDup_remove_2 in Hnd.
  assert (H1 : ~ In u l1) by (intro; apply Hnd, in_or_app; now left).
  assert (H2 : ~ In u l2) by (intro; apply Hnd, in_or_app; now right).
  rewrite fold_left_app. simpl.
  destruct (loop_other env u l1 w rep H1 Huniq) as [Hi [Hs [Hd [Hus [Huq _]]]]].
  cbv zeta in *.
  destruct (fold_left (summarizeUser env) l1 (w, rep)) as [wa repa]; simpl in *.
  pose proof (summarizeUser_own env wa repa u) as Hown. cbv zeta in Hown.
  rewrite (verdict_ext env u wa w Hi Hus) in Hown.
  pose proof (summarizeUser_unique env wa repa u Huq) as Huq'.
  destruct (summarizeUser env (wa, repa) u) as [wb repb]; simpl in *.
  destruct (loop_other env u l2 wb repb H2 Huq') as [Hi' [Hs' [Hd' [_ [_ Htr]]]]].
  cbv zeta in *. rewrite Hi', Hs', Hd'.
  destruct (verdict env u w) as [|fetched|fetched result|fetched result updated].
  - now rewrite <- Hi, <- Hs, <- Hd.
  - destruct Hown as [? [? [? Hl]]]. rewrite <- Hi, <- Hs, <- Hd.
    repeat split; auto. eapply extends_In; eauto.
  - destruct Hown as [? [? [? Hl]]]. rewrite <- Hi, <- Hs, <- Hd.
    repeat split; auto. eapply extends_In; eauto.
  - destruct Hown as [Ha [Hb [Hc Hl]]]. rewrite <- Hi, <- Hs, <- Hd.
    repeat split; auto. intro E. eapply extends_In; eauto.
Qed.

(** ** The run after the poll *)

Lemma run_after_poll fuel env w w1 :
  supabase env = true -> polled fuel env w w1 ->
  runBatchSummarization fuel env w = Some (summarizePending env w1).
Proof.
  intros Hs Hp. unfold runBatchSummarization. rewrite Hs. simpl.
  unfold polled in Hp. now rewrite Hp.
Qed.

(** With a pending row in the store and the first query answered, the run
    goes through the loop and returns its report. *)
Lemma summarizePending_report env w u :
  userError env = false -> backlog u w <> [] ->
  exists w0,
    store w0 = store w /\ extends w w0
    /\ summarizePending env w
       = (let r := fold_left (summarizeUser env) (userIds w) (w0, []) in
          (ReturnReport true (List.length (snd r)) (snd r), fst r)).
Proof.
  intros He Hb. unfold summarizePending. rewrite He.
  apply userIds_In in Hb. unfold userIds, Set_spread in *.
  destruct (order (map Item.user_id (filter is_pending (items (store w))))) as [|x l] eqn:E.
  - simpl in Hb. contradiction.
  - exists (console_log ("[Scheduler] Found " ++ show_nat (List.length (uniq [] (x :: l)))
                         ++ " users with pending items.") w).
    split; [reflexivity|]. split.
    + unfold console_log. auto with trace.
    + cbv zeta. now destruct (fold_left _ _ _).
Qed.

End Loop.

(* ================================================================== *)
(** * The batch summarizer: what a run does for a user                  *)
(* ================================================================== *)

Module Run.
Import Js Db CronService Facts Batch Loop View Scenario.

(** A run whose poll returns and whose first query is answered, seen on
    what belongs to a user with pending rows. *)
Lemma run_own fuel env w w1 u :
  supabase env = true -> polled fuel env w w1 -> ids_unique w1 ->
  userError env = false -> backlog u w1 <> [] ->
  exists details w2,
    runBatchSummarization fuel env w
    = Some (ReturnReport true (List.length details) details, w2)
    /\ match verdict env u w1 with
       | NothingFetched =>
           items_of u w2 = items_of u w1 /\ summaries_of u w2 = summaries_of u w1
           /\ details_of u details = []
       | AiFailed _ =>
           items_of u w2 = items_of u w1 /\ summaries_of u w2 = summaries_of u w1
           /\ details_of u details = [] /\ In (ai_failed u) (trace w2)
       | SaveFailed _ _ =>
           items_of u w2 = items_of u w1 /\ summaries_of u w2 = summaries_of u w1
           /\ details_of u details = [] /\ In (save_failed u) (trace w2)
       | Saved fetched result updated =>
           items_of u w2
           = (if updated
              then update_status_in (map Item.id fetched) summarized (items_of u w1)
              else items_of u w1)
           /\ (exists id at_,
                 summaries_of u w2
                 = (summaries_of u w1
                    ++ [Summary.mk id (get result "summaryText") (map Item.id fetched)
                          at_ u])%list)
           /\ details_of u details
              = [mkDetail u (List.length fetched) (get result "summaryText")]
           /\ (updated = false -> In (update_failed u) (trace w2))
       end.
Proof.
  intros Hs Hp Huq He Hb.
  rewrite (run_after_poll fuel env w w1 Hs Hp).
  destruct (summarizePending_report env w1 u He Hb) as [w0 [Hst [_ Hrun]]].
  rewrite Hrun. cbv zeta.
  assert (Hi : items_of u w0 = items_of u w1) by (unfold items_of; now rewrite Hst).
  assert (Hsm : summaries_of u w0 = summaries_of u w1)
    by (unfold summaries_of; now rewrite Hst).
  assert (Huq0 : ids_unique w0) by (unfold ids_unique; now rewrite Hst).
  assert (Hv : verdict env u w0 = verdict env u w1)
    by (apply verdict_ext; [assumption | now rewrite Hst]).
  pose proof (loop_own env u (userIds w1) w0 [] (userIds_NoDup w1)
                (proj2 (userIds_In u w1) Hb) Huq0) as H.
  cbv zeta in H. rewrite Hv, Hi, Hsm in H. simpl (details_of u []) in H.
  eexists. eexists. split; [reflexivity|]. exact H.
Qed.

(** A run seen on what belongs to a user without pending rows. *)
Lemma run_absent fuel env w w1 u r w2 :
  supabase env = true -> polled fuel env w w1 -> ids_unique w1 ->
  backlog u w1 = [] ->
  runBatchSummarization fuel env w = Some (r, w2) ->
  items_of u w2 = items_of u w1 /\ summaries_of u w2 = summaries_of u w1
  /\ forall s t d, r = ReturnReport s t d -> details_of u d = [].
Proof.
  intros Hs Hp Huq Hb Hrun.
  rewrite (run_after_poll fuel env w w1 Hs Hp) in Hrun.
  unfold summarizePending in Hrun.
  destruct (userError env).
  { inversion Hrun; subst. repeat split; intros; discriminate. }
  assert (Hnot : ~ In u (userIds w1)) by (rewrite userIds_In; tauto).
  unfold userIds in Hnot.
  destruct (order (map Item.user_id (filter is_pending (items (store w1))))) as [|x l].
  { inversion Hrun; subst. repeat split; intros; discriminate. }
  set (w0 := console_log _ w1) in Hrun.
  assert (Huq0 : ids_unique w0) by exact Huq.
  destruct (loop_other env u _ w0 [] Hnot Huq0) as [Hi [Hsm [Hd _]]].
  cbv zeta in *.
  destruct (fold_left (summarizeUser env) (Set_spread (x :: l)) (w0, [])) as [wc repc].
  inversion Hrun; subst. simpl in *. repeat split; try assumption.
  intros s t d E. inversion E; subst. assumption.
Qed.

Lemma verdict_saved env u w :
  backlog u w <> [] -> fetchError env u = false -> truthy (answer env u w) = true ->
  saveError env u = false ->
  verdict env u w
  = Saved (limit 50 (backlog u w)) (answer env u w) (negb (updateError env u)).
Proof.
  intros Hb Hf Ht Hs. unfold verdict, fetch_items. fold (backlog u w).
  rewrite Hf, Ht, Hs. simpl.
  destruct (limit 50 (backlog u w)) as [|i l] eqn:E; [|reflexivity].
  unfold limit in E. destruct (backlog u w); [contradiction | discriminate].
Qed.

Lemma verdict_save_failed env u w :
  backlog u w <> [] -> fetchError env u = false -> truthy (answer env u w) = true ->
  saveError env u = true ->
  verdict env u w = SaveFailed (limit 50 (backlog u w)) (answer env u w).
Proof.
  intros Hb Hf Ht Hs. unfold verdict, fetch_items. fold (backlog u w).
  rewrite Hf, Ht, Hs. simpl.
  destruct (limit 50 (backlog u w)) as [|i l] eqn:E; [|reflexivity].
  unfold limit in E. destruct (backlog u w); [contradiction | discriminate].
Qed.

Lemma verdict_ai_failed env u w :
  backlog u w <> [] -> fetchError env u = false -> truthy (answer env u w) = false ->
  verdict env u w = AiFailed (limit 50 (backlog u w)).
Proof.
  intros Hb Hf Ht. unfold verdict, fetch_items. fold (backlog u w).
  rewrite Hf, Ht. simpl.
  destruct (limit 50 (backlog u w)) as [|i l] eqn:E; [|reflexivity].
  unfold limit in E. destruct (backlog u w); [contradiction | discriminate].
Qed.

Ltac distinct := repeat constructor; simpl; intuition discriminate.

(** The update by the ids of the whole backlog of a user, on the rows of
    that user: the pending rows, and only they, become summarized. *)
Lemma update_of_backlog u w :
  ids_unique w ->
  Forall2 pending_summarized (items_of u w)
    (update_status_in (map Item.id (backlog u w)) summarized (items_of u w)).
Proof.
  intro Huq. unfold update_status_in.
  assert (H : forall a, In a (items_of u w) ->
            (id_in (map Item.id (backlog u w)) (Item.id a) = true
             <-> Item.status a = pending)).
  { intros a Ha. apply filter_In in Ha. destruct Ha as [Hin Hu].
    rewrite id_in_In, in_map_iff. split.
    - intros [j [Hid Hj]]. apply backlog_In in Hj. destruct Hj as [Hj [Hp _]].
      assert (j = a) by (eapply (key_injective Item.id); eauto). now subst.
    - intro Hp. exists a. split; [reflexivity|]. apply backlog_In.
      apply String.eqb_eq in Hu. auto. }
  induction (items_of u w) as [|a l IH]; cbn [map]; constructor.
  - destruct (id_in _ (Item.id a)) eqn:E.
    + split; [intros _; destruct a; repeat split|].
      intro Hn. exfalso. apply Hn, (H a); [now left | exact E].
    + split; [|reflexivity].
      intro Hp. apply (H a) in Hp; [congruence | now left].
  - apply IH. intros b Hb. apply H. now right.
Qed.

(** ** The scenario of the specification: three pending rows for U1, none
    for U2. *)

Example scenario_answer :
  answer env_ok "U1" polled_scenario
  = JObject [("summaryText", JString "ok"); ("keyTopics", JArray [])].
Proof. vm_compute. reflexivity. Qed.

Example scenario_run :
  option_map fst (runBatchSummarization 0 env_ok scenario)
  = Some (ReturnReport true 1 [mkDetail "U1" 3 (JString "ok")]).
Proof. vm_compute. reflexivity. Qed.

(** C1. In a run whose poll has returned, take a user with n pending rows,
    1 <= n <= 50, for whom the fetch, the summarization and both writes
    succeed.  The run returns a report; it adds to the summaries of that
    user exactly one row, whose [target_items] are the ids of those pending
    rows; among the rows of that user it sets the status of exactly those to
    summarized; and the report has exactly one entry for that user, with
    [processed] n.  Every pending row of the user is one of those rows, so
    the status change reads: each pending row of the user has the status
    summarized afterwards and is otherwise the same, and each other row of
    the user is as it was.  A user with no pending row gets no summary, no
    status change and no entry. *)
Theorem batch_summarizes_backlog (fuel : nat) (env : Env) (w w1 : World) (u : string) :
  supabase env = true -> polled fuel env w w1 -> ids_unique w1 ->
  (userError env = false ->
   1 <= List.length (backlog u w1) <= 50 ->
   fetchError env u = false -> truthy (answer env u w1) = true ->
   saveError env u = false -> updateError env u = false ->
   exists details w2,
     runBatchSummarization fuel env w
     = Some (ReturnReport true (List.length details) details, w2)
     /\ (exists id at_,
           summaries_of u w2
           = (summaries_of u w1
              ++ [Summary.mk id (get (answer env u w1) "summaryText")
                    (map Item.id (backlog u w1)) at_ u])%list)
     /\ Forall2 pending_summarized (items_of u w1) (items_of u w2)
     /\ details_of u details
        = [mkDetail u (List.length (backlog u w1)) (get (answer env u w1) "summaryText")])
  /\ (backlog u w1 = [] ->
      forall r w2, runBatchSummarization fuel env w = Some (r, w2) ->
      items_of u w2 = items_of u w1 /\ summaries_of u w2 = summaries_of u w1
      /\ forall s t d, r = ReturnReport s t d -> details_of u d = []).
Proof.
  intros Hs Hp Huq. split.
  - intros He [Hlo Hhi] Hf Ht Hsv Hup.
    assert (Hb : backlog u w1 <> []) by (destruct (backlog u w1); simpl in *; [lia | discriminate]).
    destruct (run_own fuel env w w1 u Hs Hp Huq He Hb) as [details [w2 [Hrun H]]].
    rewrite (verdict_saved env u w1 Hb Hf Ht Hsv), Hup in H. simpl negb in H. cbv iota in H.
    assert (Hall : limit 50 (backlog u w1) = backlog u w1) by now apply firstn_whole.
    rewrite Hall in H. destruct H as [Hi [Hsm [Hd _]]].
    exists details, w2. split; [assumption|]. split; [assumption|]. split; [|assumption].
    rewrite Hi. now apply update_of_backlog.
  - intros Hb r w2 Hrun. eapply run_absent; eauto.
Qed.

Lemma batch_summarizes_backlog_witness :
  exists details w2,
    runBatchSummarization 0 env_ok scenario
    = Some (ReturnReport true (List.length details) details, w2)
    /\ (exists id at_,
          summaries_of "U1" w2
          = (summaries_of "U1" polled_scenario
             ++ [Summary.mk id (get (answer env_ok "U1" polled_scenario) "summaryText")
                   (map Item.id (backlog "U1" polled_scenario)) at_ "U1"])%list)
    /\ Forall2 pending_summarized (items_of "U1" polled_scenario) (items_of "U1" w2)
    /\ details_of "U1" details
       = [mkDetail "U1" (List.length (backlog "U1" polled_scenario))
            (get (answer env_ok "U1" polled_scenario) "summaryText")].
Proof.
  refine (proj1 (batch_summarizes_backlog 0 env_ok scenario polled_scenario "U1" _ _ _)
            _ _ _ _ _ _).
  - reflexivity.
  - reflexivity.
  - unfold ids_unique. simpl. distinct.
  - reflexivity.
  - simpl. lia.
  - reflexivity.
  - vm_compute. reflexivity.
  - reflexivity.
  - reflexivity.
Defined.

End Run.

(* ================================================================== *)
(** * The batch summarizer: failed writes                               *)
(* ================================================================== *)

Module Writes.
Import Js Db CronService Facts Batch Loop Run View Scenario.

(** C7. In a run whose poll has returned, take a user with pending rows for
    whom the summary is saved and the status update then fails.  The run
    logs the error and keeps the summary: the summaries of that user have
    the new row, which refers to the fetched rows; the rows of that user are
    as they were, so the fetched ones are still pending; and the report
    has the entry of that user. *)
Theorem failed_update_keeps_summary (fuel : nat) (env : Env) (w w1 : World) (u : string) :
  supabase env = true -> polled fuel env w w1 -> ids_unique w1 ->
  userError env = false -> backlog u w1 <> [] ->
  fetchError env u = false -> truthy (answer env u w1) = true ->
  saveError env u = false -> updateError env u = true ->
  exists details w2,
    runBatchSummarization fuel env w
    = Some (ReturnReport true (List.length details) details, w2)
    /\ In (update_failed u) (trace w2)
    /\ (exists id at_,
          summaries_of u w2
          = (summaries_of u w1
             ++ [Summary.mk id (get (answer env u w1) "summaryText")
                   (map Item.id (limit 50 (backlog u w1))) at_ u])%list)
    /\ items_of u w2 = items_of u w1
    /\ backlog u w2 = backlog u w1
    /\ details_of u details
       = [mkDetail u (List.length (limit 50 (backlog u w1)))
            (get (answer env u w1) "summaryText")].
Proof.
  intros Hs Hp Huq He Hb Hf Ht Hsv Hup.
  destruct (run_own fuel env w w1 u Hs Hp Huq He Hb) as [details [w2 [Hrun H]]].
  rewrite (verdict_saved env u w1 Hb Hf Ht Hsv), Hup in H. simpl negb in H. cbv iota in H.
  destruct H as [Hi [Hsm [Hd Hl]]].
  exists details, w2. repeat split; auto.
  now rewrite !backlog_of_items, Hi.
Qed.

Example update_fails_run :
  option_map (fun r => (fst r, map Item.status (items (store (snd r))),
                        map Summary.target_items (summaries (store (snd r)))))
             (runBatchSummarization 0 env_update_fails scenario)
  = Some (ReturnReport true 1 [mkDetail "U1" 3 (JString "ok")],
          [pending; pending; pending; summarized], [["a1"; "a2"; "a3"]]).
Proof. vm_compute. reflexivity. Qed.

Lemma failed_update_keeps_summary_witness :
  exists details w2,
    runBatchSummarization 0 env_update_fails scenario
    = Some (ReturnReport true (List.length details) details, w2)
    /\ In (update_failed "U1") (trace w2)
    /\ (exists id at_,
          summaries_of "U1" w2
          = (summaries_of "U1" polled_scenario
             ++ [Summary.mk id (get (answer env_update_fails "U1" polled_scenario) "summaryText")
                   (map Item.id (limit 50 (backlog "U1" polled_scenario))) at_ "U1"])%list)
    /\ items_of "U1" w2 = items_of "U1" polled_scenario
    /\ backlog "U1" w2 = backlog "U1" polled_scenario
    /\ details_of "U1" details
       = [mkDetail "U1" (List.length (limit 50 (backlog "U1" polled_scenario)))
            (get (answer env_update_fails "U1" polled_scenario) "summaryText")].
Proof.
  refine (failed_update_keeps_summary 0 env_update_fails scenario polled_scenario "U1"
            _ _ _ _ _ _ _ _ _).
  - reflexivity.
  - reflexivity.
  - unfold ids_unique. simpl. distinct.
  - reflexivity.
  - simpl. discriminate.
  - reflexivity.
  - vm_compute. reflexivity.
  - reflexivity.
  - reflexivity.
Defined.

(** C10. In a run whose poll has returned, take a user with pending rows
    for whom saving the summary fails.  The run logs the error and goes on
    without any status update for that user: the rows of that user are as
    they were, so every fetched row is still pending; no summary of that
    user is added; the report has no entry for that user, and
    [totalUsersProcessed] is the number of entries. *)
Theorem failed_save_skips_user (fuel : nat) (env : Env) (w w1 : World) (u : string) :
  supabase env = true -> polled fuel env w w1 -> ids_unique w1 ->
  userError env = false -> backlog u w1 <> [] ->
  fetchError env u = false -> truthy (answer env u w1) = true ->
  saveError env u = true ->
  exists total details w2,
    runBatchSummarization fuel env w = Some (ReturnReport true total details, w2)
    /\ In (save_failed u) (trace w2)
    /\ items_of u w2 = items_of u w1
    /\ (forall i, In i (limit 50 (backlog u w1)) ->
        In i (items (store w2)) /\ Item.status i = pending)
    /\ summaries_of u w2 = summaries_of u w1
    /\ details_of u details = []
    /\ total = List.length details.
Proof.
  intros Hs Hp Huq He Hb Hf Ht Hsv.
  destruct (run_own fuel env w w1 u Hs Hp Huq He Hb) as [details [w2 [Hrun H]]].
  rewrite (verdict_save_failed env u w1 Hb Hf Ht Hsv) in H.
  destruct H as [Hi [Hsm [Hd Hl]]].
  exists (List.length details), details, w2. repeat split; auto.
  - apply firstn_In in H. rewrite backlog_of_items, <- Hi, <- backlog_of_items in H.
    now apply backlog_In in H.
  - apply firstn_In, backlog_In in H. tauto.
Qed.

Example save_fails_run :
  option_map (fun r => (fst r, map Item.status (items (store (snd r))),
                        summaries (store (snd r))))
             (runBatchSummarization 0 env_save_fails scenario)
  = Some (ReturnReport true 0 [], [pending; pending; pending; summarized], []).
Proof. vm_compute. reflexivity. Qed.

Lemma failed_save_skips_user_witness :
  exists total details w2,
    runBatchSummarization 0 env_save_fails scenario
    = Some (ReturnReport true total details, w2)
    /\ In (save_failed "U1") (trace w2)
    /\ items_of "U1" w2 = items_of "U1" polled_scenario
    /\ (forall i, In i (limit 50 (backlog "U1" polled_scenario)) ->
        In i (items (store w2)) /\ Item.status i = pending)
    /\ summaries_of "U1" w2 = summaries_of "U1" polled_scenario
    /\ details_of "U1" details = []
    /\ total = List.length details.
Proof.
  refine (failed_save_skips_user 0 env_save_fails scenario polled_scenario "U1"
            _ _ _ _ _ _ _ _).
  - reflexivity.
  - reflexivity.
  - unfold ids_unique. simpl. distinct.
  - reflexivity.
  - simpl. discriminate.
  - reflexivity.
  - vm_compute. reflexivity.
  - reflexivity.
Defined.

End Writes.

(* ================================================================== *)
(** * The batch summarizer: users are kept apart                        *)
(* ================================================================== *)

Module Isolation.
Import Js Db CronService Facts Batch Loop Run View Scenario.

(** C3. Let A and B be different users and [i] a pending row of A, in a
    store where [id] is a key.  In the turn of B, [i] is not in the fetched
    batch, no summary row that the turn adds refers to [i], and [i] stays in
    [items] as it is, the only row with its id. *)
Theorem batch_isolation (env : Env) (w : World) (rep : list Detail) (a b : string)
    (i : Item.t) :
  a <> b -> ids_unique w ->
  In i (items (store w)) -> Item.user_id i = a -> Item.status i = pending ->
  let w' := fst (summarizeUser env (w, rep) b) in
  (forall batch, fetch_items env b w = Some batch ->
     ~ In i batch /\ forall j, In j batch -> Item.user_id j = b)
  /\ (forall s, In s (summaries (store w')) -> ~ In s (summaries (store w)) ->
      Summary.user_id s = b /\ ~ In (Item.id i) (Summary.target_items s))
  /\ In i (items (store w'))
  /\ (forall j, In j (items (store w')) -> Item.id j = Item.id i -> j = i).
Proof.
  intros Hab Huq Hin Hu Hst. cbv zeta.
  assert (Hba : b <> a) by congruence.
  assert (Hfix : id_in (map Item.id (limit 50 (backlog b w))) (Item.id i) = false)
    by (eapply update_fixes_others; eauto).
  split; [|split; [|split]].
  - intros batch Hf. unfold fetch_items in Hf.
    destruct (fetchError env b); [discriminate|]. inversion Hf; subst. split.
    + intro Hi. apply firstn_In, backlog_In in Hi. destruct Hi as [_ [_ Hb]]. congruence.
    + intros j Hj. apply firstn_In, backlog_In in Hj. tauto.
  - intros s Hs Hnew.
    pose proof (summarizeUser_verdict env w rep b) as H. cbv zeta in H.
    destruct (verdict env b w) as [|fetched|fetched result|fetched result updated] eqn:V;
      try (destruct H as [H _]; rewrite H in Hs; contradiction).
    destruct H as [_ [Hsm _]]. rewrite Hsm in Hs.
    apply in_app_or in Hs. destruct Hs as [Hs|[Hs|[]]]; [contradiction|].
    subst s. simpl. split; [reflexivity|].
    apply verdict_fetched in V. destruct V as [-> _].
    now apply id_in_false.
  - pose proof (summarizeUser_verdict env w rep b) as H. cbv zeta in H.
    destruct (verdict env b w) as [|fetched|fetched result|fetched result updated] eqn:V;
      try (destruct H as [H _]; now rewrite H).
    destruct H as [Hi _]. rewrite Hi.
    destruct updated; [|assumption].
    apply verdict_fetched in V. destruct V as [-> _].
    unfold update_status_in. apply in_map_iff. exists i. now rewrite Hfix.
  - intros j Hj Hid.
    pose proof (summarizeUser_unique env w rep b Huq) as Huq'.
    assert (Hi' : In i (items (store (fst (summarizeUser env (w, rep) b))))).
    { pose proof (summarizeUser_verdict env w rep b) as H. cbv zeta in H.
      destruct (verdict env b w) as [|fetched|fetched result|fetched result updated] eqn:V;
        try (destruct H as [H _]; now rewrite H).
      destruct H as [Hi _]. rewrite Hi.
      destruct updated; [|assumption].
      apply verdict_fetched in V. destruct V as [-> _].
      unfold update_status_in. apply in_map_iff. exists i. now rewrite Hfix. }
    eapply key_injective; eauto.
Qed.

Example turn_of_b :
  items (store (fst (summarizeUser env_ok (two_users, []) "B")))
  = [row_a; Item.set_status summarized row_b].
Proof. vm_compute. reflexivity. Qed.

Lemma batch_isolation_witness :
  (forall batch, fetch_items env_ok "B" two_users = Some batch ->
     ~ In row_a batch /\ forall j, In j batch -> Item.user_id j = "B")
  /\ In row_a (items (store (fst (summarizeUser env_ok (two_users, []) "B")))).
Proof.
  assert (Hd : "A" <> "B") by discriminate.
  assert (Hq : ids_unique two_users) by (unfold ids_unique; simpl; distinct).
  assert (Hi : In row_a (items (store two_users))) by (simpl; auto).
  destruct (batch_isolation env_ok two_users [] "A" "B" row_a Hd Hq Hi eq_refl eq_refl)
    as [H1 [_ [H3 _]]].
  split; assumption.
Defined.

End Isolation.

(* ================================================================== *)
(** * The batch summarizer: the fetched batch                           *)
(* ================================================================== *)

Module Fetch.
Import Js Db CronService Facts Batch View Scenario.

Example crowded_batch :
  option_map (map Item.id) (fetch_items Sample.env "U1" crowded)
  = Some (map show_nat (seq 0 50)).
Proof. vm_compute. reflexivity. Qed.


Example oldest_left_out :
  In (row 50) (backlog "U1" crowded)
  /\ id_in (map Item.id (limit 50 (backlog "U1" crowded))) (Item.id (row 50)) = false.
Proof.
  split; [|vm_compute; reflexivity].
  apply backlog_In. repeat split.
  change (In (row 50) (map row (seq 0 51))). apply in_map, in_seq. lia.
Qed.



End Fetch.

(* ================================================================== *)
(** * The AI client: what counts as a failure                           *)
(* ================================================================== *)

Module FailClosed.
Import Js Db OpenAI AiService CronService Facts Batch Loop Run View Scenario.

Example empty_object_returned :
  fst (generateSummary env_empty_object ["deploy failed"] None (Sample.world_of []))
  = JObject [].
Proof. vm_compute. reflexivity. Qed.

Example partial_returned :
  fst (generateSummary env_partial ["deploy failed"] None (Sample.world_of []))
  = JObject [("summaryText", JString "ok")].
Proof. vm_compute. reflexivity. Qed.

Example good_answer_has_the_shape :
  is_SummaryResult (fst (generateSummary env_ok ["deploy failed"] None (Sample.world_of [])))
  = true.
Proof. vm_compute. reflexivity. Qed.

(** C4, as stated, fails: text that is JSON but lacks the two fields is
    returned as it is, neither a failure nor a [SummaryResult]. *)
Lemma malformed_answer_is_returned : ~ fail_closed env_empty_object.
Proof.
  intro H. destruct (H ["deploy failed"] None (Sample.world_of [])) as [E|E];
    vm_compute in E; discriminate.
Qed.

Lemma no_key env (req : ChatRequest) w :
  openai env = false ->
  plain_completion env req w = (JNull, console_error "OpenAI API Key is missing." w).
Proof. intro H. unfold plain_completion. now rewrite H. Qed.

(** C4, amended.
    (a) Without an API key, [generateSummary], [generateReplyDraft] and
        [askAboutSummary] return [null] at once: the only event is the
        console error, and no request is sent.
    (b) [generateSummary] returns [null] when the request is rejected, when
        the response has no first choice or no message, when the content is
        empty or [null], and when the content is not JSON.
    (c) Content that is JSON is returned as parsed, whatever its fields.
    (d) In a run whose poll has returned, a user for whom [generateSummary]
        returns [null], or another falsy value, is logged and skipped:
        nothing of that user changes and the report has no entry for the
        user; the run still returns its report, and every other user whose
        summarization and save succeed has an entry in it. *)
Theorem ai_failure_is_null_and_skipped (env : Env) :
  (openai env = false ->
   forall w,
     (forall m c, generateSummary env m c w
                  = (JNull, console_error "OpenAI API Key is missing." w))
     /\ (forall o t, generateReplyDraft env o t w
                     = (JNull, console_error "OpenAI API Key is missing." w))
     /\ (forall s q, askAboutSummary env s q w
                     = (JNull, console_error "OpenAI API Key is missing." w))
     /\ filter is_network (trace (console_error "OpenAI API Key is missing." w))
        = filter is_network (trace w))
  /\ (forall m c w,
        (chat_completions_create env (summaryRequest m c) = Rejected ->
         fst (generateSummary env m c w) = JNull)
        /\ (forall choices,
              chat_completions_create env (summaryRequest m c) = Resolved choices ->
              (first_content choices = None -> fst (generateSummary env m c w) = JNull)
              /\ (forall text, first_content choices = Some text ->
                    truthy_str text = false -> fst (generateSummary env m c w) = JNull)
              /\ (forall t, first_content choices = Some (Some t) ->
                    JSON_parse t = None -> fst (generateSummary env m c w) = JNull)
              /\ (forall t v, openai env = true -> first_content choices = Some (Some t) ->
                    t <> "" -> JSON_parse t = Some v ->
                    fst (generateSummary env m c w) = v)))
  /\ (forall fuel w w1 u,
        supabase env = true -> polled fuel env w w1 -> ids_unique w1 ->
        userError env = false -> backlog u w1 <> [] -> fetchError env u = false ->
        truthy (answer env u w1) = false ->
        exists details w2,
          runBatchSummarization fuel env w
          = Some (ReturnReport true (List.length details) details, w2)
          /\ In (ai_failed u) (trace w2)
          /\ items_of u w2 = items_of u w1
          /\ summaries_of u w2 = summaries_of u w1
          /\ details_of u details = []
          /\ forall v, backlog v w1 <> [] -> fetchError env v = false ->
               truthy (answer env v w1) = true -> saveError env v = false ->
               details_of v details
               = [mkDetail v (List.length (limit 50 (backlog v w1)))
                    (get (answer env v w1) "summaryText")]).
Proof.
  split; [|split].
  - intros Hk w. repeat split; intros.
    + unfold generateSummary. now rewrite Hk.
    + now apply no_key.
    + now apply no_key.
  - intros m c w. unfold generateSummary.
    destruct (openai env); simpl.
    + split; [intros ->; reflexivity|].
      intros choices ->. split; [intros ->; reflexivity|].
      split; [intros text -> ->; reflexivity|].
      split.
      * intros t -> Hp. destruct (truthy_str (Some t)); simpl; [now rewrite Hp | reflexivity].
      * intros t v _ -> Hne Hp.
        assert (Ht : truthy_str (Some t) = true).
        { simpl. apply negb_true_iff. now apply String.eqb_neq. }
        rewrite Ht. simpl. now rewrite Hp.
    + split; [reflexivity|]. intros choices _. repeat split; try reflexivity.
      intros; discriminate.
  - intros fuel w w1 u Hs Hp Huq He Hb Hf Ht.
    destruct (run_own fuel env w w1 u Hs Hp Huq He Hb) as [details [w2 [Hrun H]]].
    rewrite (verdict_ai_failed env u w1 Hb Hf Ht) in H.
    destruct H as [Hi [Hsm [Hd Hl]]].
    exists details, w2. repeat split; auto.
    intros v Hbv Hfv Htv Hsv.
    destruct (run_own fuel env w w1 v Hs Hp Huq He Hbv) as [details' [w2' [Hrun' H']]].
    rewrite Hrun in Hrun'. injection Hrun' as _ <- <-.
    rewrite (verdict_saved env v w1 Hbv Hfv Htv Hsv) in H'. tauto.
Qed.

Example refused_user_is_skipped :
  option_map (fun r => (fst r, map Item.status (items (store (snd r)))))
             (runBatchSummarization 0 env_refusing_u1 both_pending)
  = Some (ReturnReport true 1 [mkDetail "U2" 1 (JString "ok")],
          [pending; pending; pending; summarized]).
Proof. vm_compute. reflexivity. Qed.

Lemma ai_failure_is_null_and_skipped_witness :
  (forall m c w,
     generateSummary (Sample.with_api_key None Sample.env) m c w
     = (JNull, console_error "OpenAI API Key is missing." w))
  /\ exists details w2,
       runBatchSummarization 0 env_refusing_u1 both_pending
       = Some (ReturnReport true (List.length details) details, w2)
       /\ In (ai_failed "U1") (trace w2)
       /\ details_of "U1" details = []
       /\ details_of "U2" details
          = [mkDetail "U2" (List.length (limit 50 (backlog "U2" polled_both)))
               (get (answer env_refusing_u1 "U2" polled_both) "summaryText")].
Proof.
  split.
  - intros m c w.
    destruct (ai_failure_is_null_and_skipped (Sample.with_api_key None Sample.env))
      as [Ha _].
    apply (Ha eq_refl w).
  - destruct (ai_failure_is_null_and_skipped env_refusing_u1) as [_ [_ Hd]].
    assert (Hq : ids_unique polled_both) by (unfold ids_unique; simpl; distinct).
    assert (Hb : backlog "U1" polled_both <> []) by (simpl; discriminate).
    assert (Ht : truthy (answer env_refusing_u1 "U1" polled_both) = false)
      by (vm_compute; reflexivity).
    destruct (Hd 0 both_pending polled_both "U1" eq_refl eq_refl Hq eq_refl Hb eq_refl Ht)
      as [details [w2 [Hrun [Hl [_ [_ [Hnone Hothers]]]]]]].
    exists details, w2. repeat split; try assumption.
    apply Hothers; try reflexivity. simpl. discriminate.
Defined.

End FailClosed.

(* ================================================================== *)
(** * The source poller: rate limiting of the channel list              *)
(* ================================================================== *)

Module RateLimit.
Import Js Db Slack SlackService View Scenario.

Example waitTime_header : waitTime (Some "30") = Some 30000%Z.
Proof. reflexivity. Qed.

Example waitTime_fallback : waitTime None = Some 2000%Z.
Proof. reflexivity. Qed.

Example waitTime_empty_header : waitTime (Some "") = Some 2000%Z.
Proof. reflexivity. Qed.

(** While the server answers 429, the loop waits and sends the same request
    again. *)
Lemma fetchChannels_round fuel env token teamId cursor all w retryAfter json :
  conversations_list env (requests w) token cursor = Response 429 retryAfter json ->
  fetchChannels (S fuel) env token teamId cursor all w
  = fetchChannels fuel env token teamId cursor all
      (rate_limited_round token cursor retryAfter w).
Proof. intro H. simpl. rewrite H. reflexivity. Qed.

Section Always429.

Variable env : Env.
Variables token cursor : string.
Variable retryAfter : option string.
Hypothesis always :
  forall n, exists json, conversations_list env n token cursor = Response 429 retryAfter json.

(** After [k] rounds the loop is where it started, [k] requests and [k]
    waits later. *)
Lemma fetchChannels_rounds k :
  forall fuel teamId all w,
    fetchChannels (k + fuel) env token teamId cursor all w
    = fetchChannels fuel env token teamId cursor all (rounds k token cursor retryAfter w).
Proof.
  induction k as [|k IH]; intros fuel teamId all w; [reflexivity|].
  destruct (always (requests w)) as [json H].
  change (S k + fuel) with (S (k + fuel)).
  rewrite (fetchChannels_round _ _ _ _ _ _ _ _ _ H). apply IH.
Qed.

(** So no amount of fuel lets it finish. *)
Lemma fetchChannels_never_returns fuel teamId all w :
  fetchChannels fuel env token teamId cursor all w = None.
Proof.
  rewrite <- (Nat.add_0_r fuel). rewrite fetchChannels_rounds. reflexivity.
Qed.

End Always429.

Example loop_ends_when_limit_is_lifted :
  option_map (fun w => filter (fun e => match e with Sleep _ => true | _ => false end)
                              (trace w))
             (fetchSlackMessages 3 limited_twice one_workspace)
  = Some [Sleep (Some 1000%Z); Sleep (Some 1000%Z)].
Proof. vm_compute. reflexivity. Qed.

Lemma pollWorkspace_stuck fuel env p ws usersData status retryAfter :
  Workspace.access_token ws <> "" ->
  (forall n, users_list env n (Workspace.access_token ws)
             = Response status retryAfter (Some usersData)) ->
  (forall w, fetchChannels fuel env (Workspace.access_token ws) (Workspace.team_id ws)
               "" [] w = None) ->
  pollWorkspace fuel env p ws = None.
Proof.
  intros Ht Hu Hc. unfold pollWorkspace. destruct p as [w n].
  assert (E : truthy_str (Some (Workspace.access_token ws)) = true).
  { simpl. apply negb_true_iff. now apply String.eqb_neq. }
  rewrite E. cbn [negb]. rewrite Hu, Hc. reflexivity.
Qed.

(** C6, on the code.  With a server that answers 429 to every request for
    the channel list, the poller waits the [Retry-After] delay and asks
    again, round after round: after any number of rounds the loop is still
    running, and neither the poll nor the batch run that starts with it
    returns, whatever the fuel. *)
Theorem pagination_retries_forever (fuel : nat) :
  (forall k w,
     fetchChannels (k + fuel) limited "xoxp-1" "T1" "" [] w
     = fetchChannels fuel limited "xoxp-1" "T1" "" []
         (rounds k "xoxp-1" "" (Some "1") w))
  /\ trace (rounds 2 "xoxp-1" "" (Some "1") one_workspace)
     = [Sleep (Some 1000%Z); ConsoleWarn "Rate limited. Waiting...";
        SlackFetch (ConversationsList "xoxp-1" "");
        Sleep (Some 1000%Z); ConsoleWarn "Rate limited. Waiting...";
        SlackFetch (ConversationsList "xoxp-1" "")]
  /\ fetchSlackMessages fuel limited one_workspace = None
  /\ CronService.runBatchSummarization fuel limited one_workspace = None.
Proof.
  assert (Hal : forall n : nat, exists json,
             conversations_list limited n "xoxp-1" "" = Response 429 (Some "1") json)
    by (intro n; now exists None).
  assert (Hstuck : forall p, pollWorkspace fuel limited p (Workspace.mk "T1" "xoxp-1" "U1")
                             = None).
  { intro p. eapply pollWorkspace_stuck.
    - simpl. discriminate.
    - intro n. reflexivity.
    - intro w. simpl. now apply fetchChannels_never_returns with (retryAfter := Some "1"). }
  split; [|split; [|split]].
  - intros k w. now apply fetchChannels_rounds.
  - reflexivity.
  - unfold fetchSlackMessages.
    change (supabase limited) with true. change (wsError limited) with false.
    cbn [negb orb store workspaces one_workspace List.length Nat.eqb pollWorkspaces].
    now rewrite Hstuck.
  - unfold CronService.runBatchSummarization, fetchSlackMessages.
    change (CronService.supabase limited) with true.
    change (supabase limited) with true. change (wsError limited) with false.
    cbn [negb orb store workspaces one_workspace List.length Nat.eqb pollWorkspaces
         console_log emit].
    now rewrite Hstuck.
Qed.

End RateLimit.

(* ================================================================== *)
(** * The source poller: the duplication check                          *)
(* ================================================================== *)

Module Dedup.
Import Js Db Slack SlackService View Scenario.

(** What the check does: with the store answering, the message is left out
    when exactly one row matches, and inserted otherwise - also when two or
    more rows match, since [single] then gives no row. *)
Lemma duplication_check env teamId userId userMap channel w n msg :
  human userMap msg ->
  lookupError env (requests w) = false -> insertError env (S (requests w)) = false ->
  List.length (items (store (fst (ingestMessage env teamId userId userMap channel (w, n) msg))))
  = match matching channel msg w with
    | [_] => List.length (items (store w))
    | _ => S (List.length (items (store w)))
    end.
Proof.
  intros [H1 [H2 [H3 H4]]] Hl Hi. unfold ingestMessage.
  rewrite H1, H2, H3. cbn [negb orb].
  destruct (userMap_get userMap _) as [info|]; [rewrite H4|]; cbn iota;
    rewrite Hl; fold (matching channel msg w);
    (destruct (matching channel msg w) as [|r [|r' rest]]; cbn [single fst];
     [ | reflexivity | ];
     unfold insert_item; cbn [requests tick]; rewrite Hi; cbn [store tick with_store items];
     rewrite length_app; simpl; lia).
Qed.

(** From an empty table the first poll stores the message and the second
    one adds nothing. *)
Example poll_twice_from_empty :
  option_map (fun w => items (store w)) (poll_times 1 (world_with []))
  = Some [polled_row "row-0"]
  /\ count_after 2 [] = Some 1.
Proof. split; vm_compute; reflexivity. Qed.

(** The webhook stores the message next to the row of the poll. *)
Example webhook_after_poll :
  items (store (Api.webhook_slack_event serving "T1" the_event None
                  (world_with [polled_row "row-0"])))
  = [polled_row "row-0"; webhook_row "row-1"].
Proof. vm_compute. reflexivity. Qed.

(** C5, on the code.  The table holds the message twice under the same
    channel and timestamp, once from a poll and once from the webhook.  The
    duplication check then finds no single row, and a poll that brings no
    new message inserts the message a third time, the next poll a fourth
    time. *)
Theorem poll_inserts_when_two_rows_match :
  let rows := [polled_row "row-0"; webhook_row "row-1"] in
  List.length (matching the_channel the_message (world_with rows)) = 2
  /\ single (matching the_channel the_message (world_with rows)) = None
  /\ count_after 0 rows = Some 2
  /\ count_after 1 rows = Some 3
  /\ count_after 2 rows = Some 4.
Proof. cbv zeta. repeat split; vm_compute; reflexivity. Qed.

End Dedup.

(* ================================================================== *)
(** * The source poller: what a poll does to the store                  *)
(* ================================================================== *)

Module Poll.
Import Js Db Slack SlackService Facts View PollView.

Lemma polls_trans env wss w1 w2 w3 :
  polls env wss w1 w2 -> polls env wss w2 w3 -> polls env wss w1 w3.
Proof.
  intros H12 H23. induction H23.
  - assumption.
  - now apply polls_emit.
  - now apply polls_tick.
  - eapply polls_fetch; eauto.
  - eapply polls_insert; eauto.
Qed.

Lemma polls_log env wss w w' m : polls env wss w w' -> polls env wss w (console_log m w').
Proof. intro H. now apply polls_emit. Qed.

Lemma polls_warn env wss w w' m : polls env wss w w' -> polls env wss w (console_warn m w').
Proof. intro H. now apply polls_emit. Qed.

Lemma polls_error env wss w w' m : polls env wss w w' -> polls env wss w (console_error m w').
Proof. intro H. now apply polls_emit. Qed.

Lemma polls_sleep env wss w w' ms : polls env wss w w' -> polls env wss w (sleep ms w').
Proof. intro H. now apply polls_emit. Qed.

Create HintDb polls.
#[export] Hint Resolve polls_log polls_warn polls_error polls_sleep : polls.
#[export] Hint Constructors polls : polls.

Section OneWorkspace.

Variable env : Env.
Variable wss : list Workspace.t.
Variable ws : Workspace.t.
Hypothesis ws_in : In ws wss.
Hypothesis ws_token : Workspace.access_token ws <> "".

Let token := Workspace.access_token ws.
Let teamId := Workspace.team_id ws.
Let userId := Workspace.user_id ws.

Lemma ingestMessage_polls userMap channel w0 w n msg :
  polls env wss w0 w ->
  polls env wss w0 (fst (ingestMessage env teamId userId userMap channel (w, n) msg)).
Proof.
  intro H. unfold ingestMessage.
  destruct (truthy_str (Message.subtype msg) || negb (truthy_str (Message.user msg))
            || truthy_str (Message.bot_id msg)); [exact H|].
  destruct (match userMap_get userMap _ with Some i => is_bot i | None => false end);
    [exact H|].
  destruct (lookupError env (requests w)) eqn:L.
  - cbn [fst]. eapply polls_insert; eauto; try reflexivity.
  - destruct (single _) as [r|] eqn:S; cbn [fst]; [now apply polls_tick|].
    eapply polls_insert; eauto; try reflexivity.
Qed.

Lemma ingestMessages_polls userMap channel msgs :
  forall w0 p, polls env wss w0 (fst p) ->
  polls env wss w0
    (fst (fold_left (ingestMessage env teamId userId userMap channel) msgs p)).
Proof.
  induction msgs as [|m msgs IH]; intros w0 [w n] H; [exact H|].
  cbn [fold_left]. apply IH.
  pose proof (ingestMessage_polls userMap channel w0 w n m H) as H'.
  now destruct (ingestMessage env teamId userId userMap channel (w, n) m).
Qed.

Lemma pollChannel_polls userMap fourHoursAgo channel w0 p :
  polls env wss w0 (fst p) ->
  polls env wss w0
    (ending_world (pollChannel env token teamId userId userMap fourHoursAgo p channel)).
Proof.
  destruct p as [w n]. intro H. unfold pollChannel.
  destruct (Channel.is_archived channel); [exact H|].
  set (w1 := sleep _ w).
  assert (H1 : polls env wss w0 w1) by (subst w1; auto with polls).
  set (w2 := slack_fetch _ w1).
  assert (H2 : polls env wss w0 w2) by (subst w2; eapply polls_fetch; eauto).
  destruct (conversations_history env _ _ _ _) as [|status ra json]; [exact H2|].
  destruct (status =? 429)%Z; [cbn; auto with polls|].
  destruct json as [data|]; [|exact H2].
  destruct (negb (history_ok data)); [exact H2|].
  destruct (messages data) as [[|m msgs]|]; try exact H2.
  cbn [ending_world]. now apply ingestMessages_polls.
Qed.

Lemma pollChannels_polls userMap fourHoursAgo channels :
  forall w0 p, polls env wss w0 (fst p) ->
  polls env wss w0
    (ending_world (pollChannels env token teamId userId userMap fourHoursAgo channels p)).
Proof.
  induction channels as [|c cs IH]; intros w0 p H; [exact H|].
  cbn [pollChannels].
  pose proof (pollChannel_polls userMap fourHoursAgo c w0 p H) as Hc.
  destruct (pollChannel env token teamId userId userMap fourHoursAgo p c) as [p'|p'].
  - now apply IH.
  - exact Hc.
Qed.

Lemma fetchChannels_polls fuel :
  forall cursor all w0 w all' w',
    polls env wss w0 w ->
    fetchChannels fuel env token teamId cursor all w = Some (all', w') ->
    polls env wss w0 w'.
Proof.
  induction fuel as [|fuel IH]; intros cursor all w0 w all' w' H E; [discriminate|].
  cbn [fetchChannels] in E.
  set (w1 := slack_fetch _ w) in E.
  assert (H1 : polls env wss w0 w1) by (subst w1; eapply polls_fetch; eauto).
  destruct (conversations_list env _ _ _) as [|status ra json].
  - injection E as <- <-. auto with polls.
  - destruct (status =? 429)%Z.
    + eapply IH; [|exact E]. auto with polls.
    + destruct json as [data|]; [|injection E as <- <-; auto with polls].
      destruct (negb (channels_ok data)); [injection E as <- <-; auto with polls|].
      destruct (truthy_str (next_cursor data)); [|now injection E as <- <-].
      destruct (next_cursor data) as [c|]; [|now injection E as <- <-].
      eapply IH; [|exact E]. auto with polls.
Qed.

Lemma pollWorkspace_polls fuel w0 p p' :
  polls env wss w0 (fst p) ->
  pollWorkspace fuel env p ws = Some p' ->
  polls env wss w0 (fst p').
Proof.
  destruct p as [w n]. intros H E. unfold pollWorkspace in E.
  fold token teamId userId in E.
  destruct (negb (truthy_str (Some token))); [now injection E as <-|].
  set (w1 := console_log _ w) in E.
  assert (H1 : polls env wss w0 w1) by (subst w1; auto with polls).
  set (w2 := slack_fetch _ w1) in E.
  assert (H2 : polls env wss w0 w2) by (subst w2; eapply polls_fetch; eauto).
  destruct (users_list env _ _) as [|status ra [usersData|]];
    try (injection E as <-; cbn; auto with polls).
  destruct (fetchChannels fuel env token teamId "" [] w2) as [[all w3]|] eqn:F;
    [|discriminate].
  pose proof (fetchChannels_polls fuel "" [] w0 w2 all w3 H2 F) as H3.
  set (w4 := console_log _ w3) in E.
  assert (H4 : polls env wss w0 (fst (w4, n))) by (subst w4; cbn; auto with polls).
  pose proof (pollChannels_polls (buildUserMap usersData)
                (Date_now env (requests w4) - 4 * 60 * 60 * 1000)%Z all w0 (w4, n) H4) as H5.
  destruct (pollChannels env token teamId userId _ _ all (w4, n)) as [q|q];
    injection E as <-; cbn in *; auto with polls.
Qed.

End OneWorkspace.

Lemma pollWorkspace_skips fuel env p ws :
  Workspace.access_token ws = "" -> pollWorkspace fuel env p ws = Some p.
Proof. intro E. unfold pollWorkspace. destruct p. now rewrite E. Qed.

Lemma pollWorkspaces_polls fuel env wss : forall rest w0 p p',
  incl rest wss ->
  polls env wss w0 (fst p) ->
  pollWorkspaces fuel env rest p = Some p' ->
  polls env wss w0 (fst p').
Proof.
  induction rest as [|ws rest IH]; intros w0 p p' Hin H E.
  - now injection E as <-.
  - cbn [pollWorkspaces] in E.
    destruct (pollWorkspace fuel env p ws) as [q|] eqn:P; [|discriminate].
    apply (IH w0 q p'); [intros x Hx; apply Hin; now right | | exact E].
    destruct (String.eqb_spec (Workspace.access_token ws) "") as [Ht|Ht].
    + rewrite (pollWorkspace_skips fuel env p ws Ht) in P. now injection P as <-.
    + eapply pollWorkspace_polls; eauto. apply Hin. now left.
Qed.

(** Whenever a poll returns, it has done nothing but actions of the poller
    for workspaces of the table. *)
Lemma fetchSlackMessages_polls fuel env w w' :
  fetchSlackMessages fuel env w = Some w' ->
  polls env (workspaces (store w)) w w'.
Proof.
  unfold fetchSlackMessages.
  destruct (negb (supabase env)); [intro E; injection E as <-; auto with polls|].
  destruct (wsError env || _); [intro E; injection E as <-; auto with polls|].
  set (w1 := console_log _ w).
  destruct (pollWorkspaces fuel env (workspaces (store w)) (w1, 0)) as [[w2 n]|] eqn:P;
    [|discriminate].
  intro E. injection E as <-. apply polls_log.
  apply (pollWorkspaces_polls fuel env (workspaces (store w)) (workspaces (store w))
           w (w1, 0) (w2, n));
    [apply incl_refl | subst w1; cbn; auto with polls | exact P].
Qed.

(** What the insert of the poller does to [items]. *)
Lemma insert_item_items env content meta userId w :
  items (store (insert_item env content meta userId w)) = items (store w)
  \/ items (store (insert_item env content meta userId w))
     = (items (store w)
        ++ [Item.mk (uuid_generate_v4 env (generated (store w))) slack content meta pending
              (store_now env (requests w)) userId])%list.
Proof.
  unfold insert_item. destruct (insertError env (requests w)); [now left | now right].
Qed.

Lemma insert_item_tables env content meta userId w :
  summaries (store (insert_item env content meta userId w)) = summaries (store w)
  /\ user_settings (store (insert_item env content meta userId w)) = user_settings (store w)
  /\ workspaces (store (insert_item env content meta userId w)) = workspaces (store w)
  /\ trace (insert_item env content meta userId w) = trace w.
Proof.
  unfold insert_item. destruct (insertError env (requests w)); repeat split.
Qed.

Lemma polls_rows env wss w w' :
  polls env wss w w' ->
  (exists added, items (store w') = (items (store w) ++ added)%list
                 /\ Forall (polled_for wss) added)
  /\ summaries (store w') = summaries (store w)
  /\ user_settings (store w') = user_settings (store w)
  /\ workspaces (store w') = workspaces (store w).
Proof.
  induction 1 as [|w' e _ IH _|w' _ IH|w' ws r _ IH _ _ _
                  |w' ws content meta ts channel _ IH Hin Htok _ _ Hteam _];
    try exact IH.
  - split; [exists []; split; [now rewrite app_nil_r | constructor]|]. repeat split.
  - destruct IH as [[added [Hi Hf]] [Hs [Hu Hw]]].
    destruct (insert_item_tables env content meta (Workspace.user_id ws) (tick w'))
      as [Es [Eu [Ew _]]].
    rewrite Es, Eu, Ew. cbn [tick store]. split; [|auto].
    destruct (insert_item_items env content meta (Workspace.user_id ws) (tick w'))
      as [E|E]; rewrite E; cbn [tick store].
    + now exists added.
    + eexists (added ++ [_])%list. rewrite Hi, <- app_assoc. split; [reflexivity|].
      apply Forall_app. split; [assumption|]. constructor; [|constructor].
      repeat split. exists ws. auto.
Qed.

(** X1. A poll that returns takes no row away and alters none: [items] is
    what it was with rows added at its end, and the other tables are as they
    were. *)
Theorem poll_only_appends_items (fuel : nat) (env : Env) (w w' : World) :
  fetchSlackMessages fuel env w = Some w' ->
  (exists added, items (store w') = (items (store w) ++ added)%list)
  /\ summaries (store w') = summaries (store w)
  /\ user_settings (store w') = user_settings (store w)
  /\ workspaces (store w') = workspaces (store w).
Proof.
  intro E. apply fetchSlackMessages_polls, polls_rows in E.
  destruct E as [[added [Hi _]] H]. split; [now exists added | exact H].
Qed.

(** X2. Every row that a poll adds is a pending Slack row that belongs to
    the owning user of a workspace of the table that has a token, and its
    metadata names the team of that workspace. *)
Theorem poll_rows_belong_to_workspace_owner (fuel : nat) (env : Env) (w w' : World) :
  fetchSlackMessages fuel env w = Some w' ->
  forall i, In i (items (store w')) ->
    In i (items (store w))
    \/ (Item.status i = pending /\ Item.source_type i = slack
        /\ exists ws, In ws (workspaces (store w)) /\ Workspace.access_token ws <> ""
                      /\ Item.user_id i = Workspace.user_id ws
                      /\ arrow (Item.meta_data i) "team" = Some (Workspace.team_id ws)).
Proof.
  intros E i Hi. apply fetchSlackMessages_polls, polls_rows in E.
  destruct E as [[added [Ei Hf]] _]. rewrite Ei in Hi.
  apply in_app_or in Hi. destruct Hi as [Hi|Hi]; [now left|].
  right. rewrite Forall_forall in Hf. exact (Hf i Hi).
Qed.

Lemma slack_requests_emit e w :
  slack_requests (emit e w)
  = (slack_requests w ++ match e with SlackFetch r => [r] | _ => [] end)%list.
Proof.
  unfold slack_requests. cbn [emit trace rev]. rewrite flat_map_app. cbn.
  now rewrite app_nil_r.
Qed.

Lemma openai_requests_emit e w :
  openai_requests (emit e w)
  = (openai_requests w ++ match e with OpenAIFetch r => [r] | _ => [] end)%list.
Proof.
  unfold openai_requests. cbn [emit trace rev]. rewrite flat_map_app. cbn.
  now rewrite app_nil_r.
Qed.

Lemma polls_requests env wss w w' :
  polls env wss w w' ->
  (exists sent, slack_requests w' = (slack_requests w ++ sent)%list
                /\ Forall (fun r => exists ws, In ws wss
                                      /\ Workspace.access_token ws <> ""
                                      /\ token_of r = Workspace.access_token ws) sent)
  /\ openai_requests w' = openai_requests w.
Proof.
  induction 1 as [|w' e _ IH He|w' _ IH|w' ws r _ IH Hin Htok Hr
                  |w' ws content meta ts channel _ IH _ _ _ _ _ _].
  - split; [exists []; split; [now rewrite app_nil_r | constructor] | reflexivity].
  - destruct IH as [[sent [Hs Hf]] Ho]. rewrite slack_requests_emit, openai_requests_emit.
    destruct e; try discriminate; rewrite !app_nil_r; split; try assumption;
      now exists sent.
  - exact IH.
  - destruct IH as [[sent [Hs Hf]] Ho].
    unfold slack_fetch, slack_requests, openai_requests. cbn [tick trace].
    fold (slack_requests (emit (SlackFetch r) w')) (openai_requests (emit (SlackFetch r) w')).
    rewrite slack_requests_emit, openai_requests_emit, app_nil_r. split; [|assumption].
    exists (sent ++ [r])%list. rewrite Hs, <- app_assoc. split; [reflexivity|].
    apply Forall_app. split; [assumption|]. constructor; [|constructor]. exists ws. auto.
  - unfold slack_requests, openai_requests in *.
    destruct (insert_item_tables env content meta (Workspace.user_id ws) (tick w'))
      as [_ [_ [_ Et]]].
    rewrite Et. exact IH.
Qed.

(** X3. Every request that a poll sends to Slack carries the token of a
    workspace of the table, never an empty one, and a poll sends nothing to
    OpenAI. *)
Theorem poll_uses_workspace_tokens (fuel : nat) (env : Env) (w w' : World) :
  fetchSlackMessages fuel env w = Some w' ->
  (exists sent, slack_requests w' = (slack_requests w ++ sent)%list
                /\ forall r, In r sent ->
                     token_of r <> ""
                     /\ In (token_of r) (map Workspace.access_token (workspaces (store w))))
  /\ openai_requests w' = openai_requests w.
Proof.
  intro E. apply fetchSlackMessages_polls, polls_requests in E.
  destruct E as [[sent [Hs Hf]] Ho]. split; [|exact Ho].
  exists sent. split; [exact Hs|]. intros r Hr. rewrite Forall_forall in Hf.
  destruct (Hf r Hr) as [ws [Hin [Htok Heq]]]. rewrite Heq. split; [assumption|].
  now apply in_map.
Qed.

(** A row with the channel and timestamp [ts0], [ch0] answers the check for
    [ts], [ch] exactly when they are the same. *)
Lemma same_message_meta ts ch i ts0 ch0 :
  arrow (Item.meta_data i) "ts" = Some ts0 ->
  arrow (Item.meta_data i) "channel" = Some ch0 ->
  same_message ts ch i = (ts0 =? ts) && (ch0 =? ch).
Proof. intros Ht Hc. unfold same_message, arrow_eq. now rewrite Ht, Hc. Qed.



Lemma poll_only_appends_items_witness :
  (exists added, items (store polled_once)
                 = (items (store (Scenario.world_with [])) ++ added)%list)
  /\ summaries (store polled_once) = summaries (store (Scenario.world_with []))
  /\ user_settings (store polled_once) = user_settings (store (Scenario.world_with []))
  /\ workspaces (store polled_once) = workspaces (store (Scenario.world_with [])).
Proof.
  apply (poll_only_appends_items 1 Scenario.serving). vm_compute. reflexivity.
Defined.

Lemma poll_rows_belong_to_workspace_owner_witness :
  In (Scenario.polled_row "row-0") (items (store polled_once))
  /\ (In (Scenario.polled_row "row-0") (items (store (Scenario.world_with [])))
      \/ (Item.status (Scenario.polled_row "row-0") = pending
          /\ Item.source_type (Scenario.polled_row "row-0") = slack
          /\ exists ws, In ws (workspaces (store (Scenario.world_with [])))
                        /\ Workspace.access_token ws <> ""
                        /\ Item.user_id (Scenario.polled_row "row-0") = Workspace.user_id ws
                        /\ arrow (Item.meta_data (Scenario.polled_row "row-0")) "team"
                           = Some (Workspace.team_id ws))).
Proof.
  assert (H : In (Scenario.polled_row "row-0") (items (store polled_once)))
    by (vm_compute; left; reflexivity).
  split; [exact H|].
  apply (poll_rows_belong_to_workspace_owner 1 Scenario.serving (Scenario.world_with [])
           polled_once); [vm_compute; reflexivity | exact H].
Defined.

Lemma poll_uses_workspace_tokens_witness :
  (exists sent,
     slack_requests polled_once = (slack_requests (Scenario.world_with []) ++ sent)%list
     /\ forall r, In r sent ->
          token_of r <> ""
          /\ In (token_of r)
                (map Workspace.access_token (workspaces (store (Scenario.world_with [])))))
  /\ openai_requests polled_once = openai_requests (Scenario.world_with []).
Proof.
  apply (poll_uses_workspace_tokens 1 Scenario.serving). vm_compute. reflexivity.
Defined.


End Poll.

(* ================================================================== *)
(** * The source poller: when the paging ends                           *)
(* ================================================================== *)

Module Paging.
Import Js Db Slack SlackService Facts View PollView.

(** One round of the loop: it returns, or goes on with one more request
    sent. *)
Lemma fetchChannels_step fuel env token teamId cursor all w :
  (ends_paging (conversations_list env (requests w) token cursor) = true ->
   exists all' w', fetchChannels (S fuel) env token teamId cursor all w = Some (all', w')
                   /\ requests w' = S (requests w))
  /\ (ends_paging (conversations_list env (requests w) token cursor) = false ->
      exists cursor' all' w',
        fetchChannels (S fuel) env token teamId cursor all w
        = fetchChannels fuel env token teamId cursor' all' w'
        /\ requests w' = S (requests w)).
Proof.
  cbn [fetchChannels]. unfold ends_paging.
  destruct (conversations_list env (requests w) token cursor) as [|status ra json].
  - split; [|discriminate]. intros _. eexists. eexists. split; reflexivity.
  - destruct (status =? 429)%Z.
    + split; [discriminate|]. intros _. eexists. eexists. eexists. split; reflexivity.
    + destruct json as [data|];
        [|split; [|discriminate]; intros _; eexists; eexists; split; reflexivity].
      destruct (negb (channels_ok data));
        [split; [|discriminate]; intros _; eexists; eexists; split; reflexivity|].
      destruct (truthy_str (next_cursor data)) eqn:T; cbn [negb orb andb].
      * split; [discriminate|]. intros _.
        destruct (next_cursor data) as [c|]; [|discriminate].
        eexists. eexists. eexists. split; reflexivity.
      * split; [|discriminate]. intros _. eexists. eexists. split; reflexivity.
Qed.

(** The paging loop returns at the first answer that ends the paging. *)
Lemma fetchChannels_returns (env : Env) (token teamId : string) (fuel : nat) :
  forall k cursor all w,
    k < fuel ->
    (forall c, ends_paging (conversations_list env (requests w + k) token c) = true) ->
    exists all' w',
      fetchChannels fuel env token teamId cursor all w = Some (all', w')
      /\ requests w < requests w' <= requests w + S k.
Proof.
  induction fuel as [|fuel IH]; intros k cursor all w Hk Hend; [lia|].
  destruct (fetchChannels_step fuel env token teamId cursor all w) as [Hstop Hgo].
  destruct (ends_paging (conversations_list env (requests w) token cursor)) eqn:E.
  - destruct (Hstop eq_refl) as [all' [w' [F R]]]. exists all', w'. split; [exact F | lia].
  - destruct (Hgo eq_refl) as [cursor' [all1 [w1 [F R]]]].
    destruct k as [|k].
    + rewrite Nat.add_0_r in Hend. rewrite Hend in E. discriminate.
    + destruct (IH k cursor' all1 w1) as [all' [w' [F' R']]]; [lia | |].
      * intro c. rewrite R. replace (S (requests w) + k) with (requests w + S k) by lia.
        apply Hend.
      * exists all', w'. rewrite F. split; [exact F' | lia].
Qed.

(** X5. The paging loop returns at the first answer that is neither a 429
    nor a page with a next cursor: if the answer to its request number
    [k + 1] is such an answer, whatever the cursor, and [k] is below the
    fuel, the loop returns after at most [k + 1] requests. *)
Theorem paging_returns_at_first_final_answer (env : Env) (token teamId : string) (fuel : nat) :
  forall k cursor all w,
    k < fuel ->
    (forall c, ends_paging (conversations_list env (requests w + k) token c) = true) ->
    exists all' w',
      fetchChannels fuel env token teamId cursor all w = Some (all', w')
      /\ requests w < requests w' <= requests w + S k.
Proof.
  exact (fetchChannels_returns env token teamId fuel).
Qed.

Lemma paging_returns_at_first_final_answer_witness :
  exists all' w',
    fetchChannels 3 Scenario.limited_twice "xoxp-1" "T1" "" []
      (tick Scenario.one_workspace) = Some (all', w')
    /\ requests (tick Scenario.one_workspace) < requests w'
        <= requests (tick Scenario.one_workspace) + 3.
Proof.
  apply (paging_returns_at_first_final_answer Scenario.limited_twice "xoxp-1" "T1" 3 2).
  - lia.
  - intro c. reflexivity.
Defined.

Lemma pollWorkspace_returns fuel env p ws :
  paging_ends_within fuel env ->
  exists p', pollWorkspace fuel env p ws = Some p'.
Proof.
  intro H. unfold pollWorkspace. destruct p as [w n].
  destruct (negb (truthy_str (Some (Workspace.access_token ws)))); [eauto|].
  set (w1 := console_log _ w). set (w2 := slack_fetch _ w1).
  destruct (users_list env _ _) as [|status ra [usersData|]]; eauto.
  destruct (H (requests w2) (Workspace.access_token ws)) as [k [Hk Hend]].
  destruct (fetchChannels_returns env (Workspace.access_token ws)
              (Workspace.team_id ws) fuel k "" [] w2 Hk Hend) as [all [w3 [F _]]].
  rewrite F. destruct (pollChannels _ _ _ _ _ _ _ _); eauto.
Qed.

Lemma pollWorkspaces_returns fuel env wss :
  paging_ends_within fuel env ->
  forall p, exists p', pollWorkspaces fuel env wss p = Some p'.
Proof.
  intro H. induction wss as [|ws wss IH]; intro p; cbn [pollWorkspaces]; [eauto|].
  destruct (pollWorkspace_returns fuel env p ws H) as [q E]. rewrite E. apply IH.
Qed.

(** X6. A poll returns, and so does the batch run that starts with it,
    when the channel list of no workspace can be rate limited or paged
    without end: from any request on, one of the next [fuel] answers ends
    the paging. *)
Theorem poll_returns_when_paging_ends (fuel : nat) (env : Env) (w : World) :
  paging_ends_within fuel env ->
  (exists w', fetchSlackMessages fuel env w = Some w')
  /\ exists r w', CronService.runBatchSummarization fuel env w = Some (r, w').
Proof.
  intro H.
  assert (Hp : forall w0, exists w', fetchSlackMessages fuel env w0 = Some w').
  { intro w0. unfold fetchSlackMessages.
    destruct (negb (supabase env)); [eauto|].
    destruct (wsError env || _); [eauto|].
    destruct (pollWorkspaces_returns fuel env (workspaces (store w0)) H
                (console_log ("Polling " ++ show_nat (List.length (workspaces (store w0)))
                              ++ " workspaces...") w0, 0)) as [[w2 n] E].
    rewrite E. eauto. }
  split; [apply Hp|].
  unfold CronService.runBatchSummarization.
  destruct (negb (CronService.supabase env)); [eauto|].
  destruct (Hp (console_log "[Scheduler] Starting Slack Polling..." w)) as [w1 E].
  rewrite E. destruct (CronService.summarizePending env w1) as [r w']. eauto.
Qed.

Lemma poll_returns_when_paging_ends_witness :
  (exists w', fetchSlackMessages 3 Scenario.serving (Scenario.world_with []) = Some w')
  /\ exists r w',
       CronService.runBatchSummarization 3 Scenario.serving (Scenario.world_with [])
       = Some (r, w').
Proof.
  apply poll_returns_when_paging_ends.
  intros n token. exists 0. split; [lia|]. intro cursor. reflexivity.
Defined.

End Paging.

(* ================================================================== *)
(** * The source poller: the directory and the bots                     *)
(* ================================================================== *)

Module Directory.
Import Js Db Slack SlackService Facts View PollView.





End Directory.

(* ================================================================== *)
(** * The batch summarizer: the whole run, exactly                      *)
(* ================================================================== *)

Module Report.
Import Js Db CronService Facts View Scenario Batch Loop Run PollView BatchView.

Lemma untouched_step env w1 v l w rep :
  NoDup (v :: l) -> untouched w1 (v :: l) w ->
  untouched w1 l (fst (summarizeUser env (w, rep) v))
  /\ verdict env v w = verdict env v w1.
Proof.
  intros Hnd [Huq [Hus Hit]]. inversion Hnd as [|? ? Hnot Hnd']; subst. split.
  - split; [now apply summarizeUser_unique|]. split.
    + rewrite <- Hus. apply (summarizeUser_keeps env w rep v).
    + intros u Hu. assert (Hvu : v <> u) by (intro; subst; contradiction).
      destruct (summarizeUser_other env w rep u v Hvu Huq) as [Hi _].
      cbv zeta in Hi. rewrite Hi. apply Hit. now right.
  - apply verdict_ext; [apply Hit; now left | exact Hus].
Qed.

Lemma verdict_at env u w fetched result updated :
  verdict env u w = Saved fetched result updated ->
  mkDetail u (List.length fetched) (get result "summaryText") = detail_of env w u
  /\ (u, map Item.id fetched, get result "summaryText") = expected_summary env w u.
Proof.
  intro V. apply verdict_fetched in V. destruct V as [-> [_ [-> _]]]. split; reflexivity.
Qed.

(** The report and the summaries that the loop builds. *)
Lemma loop_report env w1 l : forall w rep,
  NoDup l -> untouched w1 l w ->
  let r := fold_left (summarizeUser env) l (w, rep) in
  snd r = (rep ++ map (detail_of env w1) (filter (saved env w1) l))%list
  /\ exists added,
       summaries (store (fst r)) = (summaries (store w) ++ added)%list
       /\ map summary_columns added
          = map (expected_summary env w1) (filter (saved env w1) l).
Proof.
  induction l as [|v l IH]; intros w rep Hnd Hun; cbv zeta.
  - cbn. rewrite app_nil_r. split; [reflexivity|]. exists []. now rewrite app_nil_r.
  - cbn [fold_left filter].
    destruct (untouched_step env w1 v l w rep Hnd Hun) as [Hun' Hv].
    inversion Hnd as [|? ? _ Hnd']; subst.
    pose proof (summarizeUser_verdict env w rep v) as H. cbv zeta in H.
    assert (Hsv : saved env w1 v
                  = match verdict env v w with Saved _ _ _ => true | _ => false end)
      by (unfold saved; now rewrite Hv).
    rewrite Hsv. clear Hsv.
    destruct (summarizeUser env (w, rep) v) as [w' rep']. cbn [fst snd] in *.
    destruct (IH w' rep' Hnd' Hun') as [Hr [added [Hs Hc]]]. cbv zeta in Hr, Hs.
    rewrite Hr, Hs.
    destruct (verdict env v w) as [|fetched|fetched result|fetched result updated] eqn:V.
    + destruct H as [-> ->]. split; [reflexivity|]. now exists added.
    + destruct H as [-> [-> _]]. split; [reflexivity|]. now exists added.
    + destruct H as [-> [-> _]]. split; [reflexivity|]. now exists added.
    + destruct H as [_ [Hsm [_ [_ [-> _]]]]]. rewrite Hsm.
      destruct (verdict_at env v w1 _ _ _ (eq_sym Hv)) as [Ed Es].
      cbn [map]. rewrite <- Ed, <- Es, <- !app_assoc. split; [reflexivity|].
      eexists (_ :: added). split; [reflexivity|]. cbn [map]. now rewrite Hc.
Qed.

Lemma untouched_start w1 w0 l :
  store w0 = store w1 -> ids_unique w1 -> untouched w1 l w0.
Proof.
  intros E Huq. unfold untouched, ids_unique, items_of. rewrite E. auto.
Qed.

(** The run after the poll, with the worlds it goes through. *)
Lemma summarizePending_loop env w1 :
  userError env = false -> userIds w1 <> [] ->
  exists w0, store w0 = store w1 /\ trace w0 = ConsoleLog
      ("[Scheduler] Found " ++ show_nat (List.length (userIds w1))
       ++ " users with pending items.") :: trace w1
    /\ summarizePending env w1
       = (let r := fold_left (summarizeUser env) (userIds w1) (w0, []) in
          (ReturnReport true (List.length (snd r)) (snd r), fst r)).
Proof.
  intros He Hne. unfold summarizePending. rewrite He. unfold userIds, Set_spread in *.
  destruct (order (map Item.user_id (filter is_pending (items (store w1))))) as [|x l] eqn:E.
  - contradiction.
  - eexists (console_log _ w1). split; [reflexivity|]. split; [reflexivity|].
    cbv zeta. now destruct (fold_left _ _ _).
Qed.

Lemma summarizePending_idle env w1 :
  userError env = true \/ userIds w1 = [] ->
  store (snd (summarizePending env w1)) = store w1
  /\ fst (summarizePending env w1) = expected_result env w1
  /\ openai_requests (snd (summarizePending env w1)) = openai_requests w1.
Proof.
  intro H. unfold summarizePending, expected_result.
  destruct (userError env).
  { repeat split. cbn [snd]. unfold console_error.
    rewrite Poll.openai_requests_emit. apply app_nil_r. }
  destruct H as [H|H]; [discriminate|]. unfold userIds, Set_spread in *.
  destruct (order (map Item.user_id (filter is_pending (items (store w1))))) as [|x l].
  - repeat split. cbn [snd]. unfold console_log.
    rewrite Poll.openai_requests_emit. apply app_nil_r.
  - cbn in H. discriminate.
Qed.

(** ** The order of the users *)

Lemma leb_trans a : forall b c,
  (a <=? b)%string = true -> (b <=? c)%string = true -> (a <=? c)%string = true.
Proof.
  unfold String.leb.
  induction a as [|x a IH]; intros [|y b] [|z c]; cbn; try easy.
  unfold Ascii.compare.
  destruct (N.compare_spec (N_of_ascii x) (N_of_ascii y)) as [E1|E1|E1];
  destruct (N.compare_spec (N_of_ascii y) (N_of_ascii z)) as [E2|E2|E2];
  destruct (N.compare_spec (N_of_ascii x) (N_of_ascii z)) as [E3|E3|E3];
    try easy; try lia.
  apply IH.
Qed.

Lemma insert_ordered_sorted x l :
  StronglySorted (fun a b => (a <=? b)%string = true) l ->
  StronglySorted (fun a b => (a <=? b)%string = true) (insert_ordered x l).
Proof.
  induction l as [|y l IH]; intro H; cbn [insert_ordered].
  - constructor; constructor.
  - inversion H as [|? ? Hl Hy]; subst.
    destruct (x <=? y)%string eqn:E.
    + constructor; [assumption|]. constructor; [assumption|].
      rewrite Forall_forall in *. intros z Hz. eapply leb_trans; eauto.
    + constructor; [now apply IH|].
      rewrite Forall_forall in *. intros z Hz. apply insert_ordered_In in Hz.
      destruct Hz as [->|Hz]; [|now apply Hy].
      destruct (String.leb_total x y) as [T|T]; congruence.
Qed.

Lemma order_sorted l : StronglySorted (fun a b => (a <=? b)%string = true) (order l).
Proof.
  unfold order. induction l as [|x l IH]; cbn [fold_right]; [constructor|].
  now apply insert_ordered_sorted.
Qed.

Lemma uniq_sorted (R : string -> string -> Prop) l : forall seen,
  StronglySorted R l -> StronglySorted R (uniq seen l).
Proof.
  induction l as [|x l IH]; intros seen H; cbn [uniq]; [constructor|].
  inversion H as [|? ? Hl Hx]; subst.
  destruct (id_in seen x); [now apply IH|].
  constructor; [now apply IH|].
  rewrite Forall_forall in *. intros z Hz. apply uniq_In in Hz. now apply Hx.
Qed.

Lemma sorted_strict l :
  StronglySorted (fun a b => (a <=? b)%string = true) l -> NoDup l -> ascending l.
Proof.
  unfold ascending. induction 1 as [|x l Hl IH Hx]; intro Hnd; constructor.
  - apply IH. now inversion Hnd.
  - inversion Hnd as [|? ? Hnot _]; subst.
    rewrite Forall_forall in *. intros z Hz. split; [now apply Hx|].
    intros ->. contradiction.
Qed.

Lemma ascending_filter (p : string -> bool) l : ascending l -> ascending (filter p l).
Proof.
  unfold ascending. induction 1 as [|x l Hl IH Hx]; cbn [filter]; [constructor|].
  destruct (p x); [|exact IH]. constructor; [exact IH|].
  rewrite Forall_forall in *. intros z Hz. apply filter_In in Hz. now apply Hx.
Qed.

Lemma userIds_ascending w : ascending (userIds w).
Proof.
  apply sorted_strict; [|apply userIds_NoDup].
  unfold userIds, Set_spread. apply uniq_sorted, order_sorted.
Qed.

Lemma has_pending_backlog w u : has_pending w u <-> backlog u w <> [].
Proof.
  unfold has_pending. split.
  - intros [i [Hin [Hu Hp]]] E.
    assert (H : In i (backlog u w)) by (apply backlog_In; auto).
    rewrite E in H. contradiction.
  - intro H. destruct (backlog u w) as [|i l] eqn:E; [contradiction|].
    assert (Hi : In i (backlog u w)) by (rewrite E; now left).
    apply backlog_In in Hi. exists i. tauto.
Qed.

Lemma saved_iff env w u :
  saved env w u = true
  <-> has_pending w u /\ fetchError env u = false
      /\ truthy (answer env u w) = true /\ saveError env u = false.
Proof.
  rewrite has_pending_backlog. unfold saved, verdict, fetch_items. fold (backlog u w).
  destruct (fetchError env u).
  { split; [discriminate | intros [_ [H _]]; discriminate]. }
  destruct (limit 50 (backlog u w)) as [|i l] eqn:E.
  { split; [discriminate|]. intros [H _]. exfalso. apply H.
    unfold limit in E. now destruct (backlog u w). }
  assert (Hne : backlog u w <> []) by (intro H; rewrite H in E; discriminate).
  destruct (truthy (answer env u w)); cbn [negb].
  - destruct (saveError env u); [|tauto].
    split; [discriminate | intros [_ [_ [_ H]]]; discriminate].
  - split; [discriminate | intros [_ [_ [H _]]]; discriminate].
Qed.

Lemma expected_result_reported env w : reported env w (expected_result env w).
Proof.
  unfold expected_result. destruct (userError env) eqn:He; [exact He|].
  destruct (userIds w) as [|x l] eqn:Eu.
  - split; [exact He|]. intros u Hu. apply has_pending_backlog, userIds_In in Hu.
    rewrite Eu in Hu. contradiction.
  - rewrite <- Eu. cbn [reported].
    assert (Em : map userId (map (detail_of env w) (filter (saved env w) (userIds w)))
                 = filter (saved env w) (userIds w))
      by (rewrite map_map; apply map_id).
    rewrite Em. split; [exact He|]. split; [reflexivity|]. split; [reflexivity|].
    split; [|split; [intro u; split|intros d H; split]].
    + apply ascending_filter, userIds_ascending.
    + intro H. apply filter_In in H. now apply saved_iff.
    + intros [Hp H]. apply filter_In. split.
      * now apply userIds_In, has_pending_backlog.
      * apply saved_iff. tauto.
    + apply in_map_iff in H. destruct H as [u [<- _]]. cbn [processed userId detail_of].
      unfold limit. apply length_firstn.
    + apply in_map_iff in H. destruct H as [u [<- _]]. reflexivity.
Qed.

(** X8. The report of a run is known from the world that the poll leaves:
    it has one entry for each user with pending rows whose fetch,
    summarization and save succeed, in the ascending order of the user ids,
    with [processed] the size of the batch, at most 50, and [summary] the
    text of the summary; the run returns [null] when the first query fails
    and the zero count when nothing is pending. *)
Theorem run_returns_expected_report (fuel : nat) (env : Env) (w w1 : World) :
  supabase env = true -> polled fuel env w w1 -> ids_unique w1 ->
  exists w2,
    runBatchSummarization fuel env w = Some (expected_result env w1, w2)
    /\ reported env w1 (expected_result env w1).
Proof.
  intros Hs Hp Huq.
  enough (H : exists w2, runBatchSummarization fuel env w
                         = Some (expected_result env w1, w2))
    by (destruct H as [w2 H]; exists w2; split;
        [exact H | apply expected_result_reported]).
  rewrite (run_after_poll fuel env w w1 Hs Hp).
  destruct (userError env) eqn:He.
  { destruct (summarizePending_idle env w1 (or_introl He)) as [_ [E _]].
    destruct (summarizePending env w1) as [r w2]. cbn in E. subst r. now exists w2. }
  destruct (userIds w1) as [|x l] eqn:Eu.
  { destruct (summarizePending_idle env w1 (or_intror Eu)) as [_ [E _]].
    destruct (summarizePending env w1) as [r w2]. cbn in E. subst r. now exists w2. }
  assert (Hne : userIds w1 <> []) by (rewrite Eu; discriminate).
  destruct (summarizePending_loop env w1 He Hne) as [w0 [Hst [_ Hrun]]].
  rewrite Hrun. cbv zeta.
  destruct (loop_report env w1 (userIds w1) w0 [] (userIds_NoDup w1)
              (untouched_start w1 w0 _ Hst Huq)) as [Hr _].
  cbv zeta in Hr. rewrite Hr. unfold expected_result. rewrite He, Eu. cbn [app].
  eexists. reflexivity.
Qed.

Example instructed_report :
  expected_result Scenario.env_ok polled_instructed
  = ReturnReport true 2 [mkDetail "U1" 1 (JString "ok"); mkDetail "U2" 2 (JString "ok")].
Proof. vm_compute. reflexivity. Qed.

Lemma run_returns_expected_report_witness :
  exists w2,
    runBatchSummarization 0 Scenario.env_ok instructed
    = Some (expected_result Scenario.env_ok polled_instructed, w2)
    /\ reported Scenario.env_ok polled_instructed
         (expected_result Scenario.env_ok polled_instructed).
Proof.
  apply (run_returns_expected_report 0 Scenario.env_ok instructed).
  - reflexivity.
  - reflexivity.
  - unfold ids_unique. simpl. distinct.
Defined.

(** X9. A run only adds to [summaries]: the rows that were there stay as
    they are, and the run adds one row for each entry of its report, in the
    same order, for the same user, with the ids of the batch as
    [target_items]. *)
Theorem run_adds_one_summary_per_entry (fuel : nat) (env : Env) (w w1 : World) :
  supabase env = true -> polled fuel env w w1 -> ids_unique w1 ->
  exists r w2 added,
    runBatchSummarization fuel env w = Some (r, w2)
    /\ summaries (store w2) = (summaries (store w1) ++ added)%list
    /\ map summary_columns added
       = match r with
         | ReturnReport _ _ details =>
             map (fun d => (userId d,
                            map Item.id (limit 50 (backlog (userId d) w1)),
                            summary d)) details
         | _ => []
         end.
Proof.
  intros Hs Hp Huq. rewrite (run_after_poll fuel env w w1 Hs Hp).
  destruct (userError env) eqn:He.
  { destruct (summarizePending_idle env w1 (or_introl He)) as [Est [E _]].
    destruct (summarizePending env w1) as [r w2]. cbn in E, Est. subst r.
    exists (expected_result env w1), w2, []. rewrite Est, app_nil_r.
    unfold expected_result. rewrite He. auto. }
  destruct (userIds w1) as [|x l] eqn:Eu.
  { destruct (summarizePending_idle env w1 (or_intror Eu)) as [Est [E _]].
    destruct (summarizePending env w1) as [r w2]. cbn in E, Est. subst r.
    exists (expected_result env w1), w2, []. rewrite Est, app_nil_r.
    unfold expected_result. rewrite He, Eu. auto. }
  assert (Hne : userIds w1 <> []) by (rewrite Eu; discriminate).
  destruct (summarizePending_loop env w1 He Hne) as [w0 [Hst [_ Hrun]]].
  rewrite Hrun. cbv zeta.
  destruct (loop_report env w1 (userIds w1) w0 [] (userIds_NoDup w1)
              (untouched_start w1 w0 _ Hst Huq)) as [Hr [added [Hsm Hc]]].
  cbv zeta in Hr, Hsm. rewrite Hr. cbn [app].
  eexists. eexists. exists added. split; [reflexivity|].
  rewrite Hsm, Hst. split; [reflexivity|].
  rewrite Hc, map_map. reflexivity.
Qed.

Lemma run_adds_one_summary_per_entry_witness :
  exists r w2 added,
    runBatchSummarization 0 Scenario.env_ok Scenario.scenario = Some (r, w2)
    /\ summaries (store w2) = (summaries (store Scenario.polled_scenario) ++ added)%list
    /\ map summary_columns added
       = match r with
         | ReturnReport _ _ details =>
             map (fun d => (userId d,
                            map Item.id (limit 50 (backlog (userId d) Scenario.polled_scenario)),
                            summary d)) details
         | _ => []
         end.
Proof.
  apply (run_adds_one_summary_per_entry 0 Scenario.env_ok Scenario.scenario).
  - reflexivity.
  - reflexivity.
  - unfold ids_unique. simpl. distinct.
Defined.

End Report.

(* ================================================================== *)
(** * The batch summarizer: statuses and what is left for the next run  *)
(* ================================================================== *)

Module Statuses.
Import Js Db CronService Facts View Scenario Batch Loop Run PollView BatchView Report.








Lemma update_status_in_none s rows : update_status_in [] s rows = rows.
Proof. unfold update_status_in. cbn. apply map_id. Qed.

(** In a table with a key, updating the first [n] pending rows by their ids
    leaves pending the pending rows after them. *)
Lemma pending_after_update l : forall n,
  NoDup (map Item.id l) ->
  filter is_pending
    (update_status_in (map Item.id (firstn n (filter is_pending l))) summarized l)
  = skipn n (filter is_pending l).
Proof.
  induction l as [|a l IH]; intros n Hnd; [now destruct n|].
  inversion Hnd as [|? ? Hnot Hnd']; subst.
  assert (Hrest : forall ids,
             update_status_in (Item.id a :: ids) summarized l
             = update_status_in ids summarized l).
  { intro ids. unfold update_status_in. apply map_ext_in. intros x Hx.
    unfold id_in. cbn [existsb].
    destruct (String.eqb_spec (Item.id x) (Item.id a)) as [E|E]; [|reflexivity].
    exfalso. apply Hnot. rewrite <- E. now apply in_map. }
  cbn [filter]. destruct (is_pending a) eqn:Pa.
  - destruct n as [|n].
    + cbn [firstn map skipn]. rewrite update_status_in_none. cbn [filter]. now rewrite Pa.
    + cbn [firstn map skipn]. unfold update_status_in at 1. cbn [map].
      fold (update_status_in (Item.id a :: map Item.id (firstn n (filter is_pending l)))
              summarized l).
      unfold id_in at 1. cbn [existsb]. rewrite String.eqb_refl. cbn [orb filter].
      rewrite Hrest. apply IH. assumption.
  - unfold update_status_in at 1. cbn [map].
    fold (update_status_in (map Item.id (firstn n (filter is_pending l))) summarized l).
    assert (Hdrop : is_pending
                      (if id_in (map Item.id (firstn n (filter is_pending l))) (Item.id a)
                       then Item.set_status summarized a else a) = false)
      by (destruct (id_in _ _); [reflexivity | exact Pa]).
    cbn [filter]. rewrite Hdrop. apply IH. assumption.
Qed.

Lemma NoDup_ids_of u w : ids_unique w -> NoDup (map Item.id (items_of u w)).
Proof.
  unfold ids_unique, items_of. induction (items (store w)) as [|a l IH]; intro H.
  - constructor.
  - inversion H as [|? ? Hnot Hnd]; subst. cbn [filter].
    destruct (Item.user_id a =? u); [|now apply IH].
    cbn [map]. constructor; [|now apply IH].
    intro Hin. apply Hnot. apply in_map_iff in Hin. destruct Hin as [x [Ex Hx]].
    apply filter_In in Hx. rewrite <- Ex. apply in_map. tauto.
Qed.

(** X11. After the turn of a user whose summary is saved and whose rows are
    updated, the pending rows of that user are those beyond the first 50:
    none is left when there were at most 50, and the others wait for the
    next run. *)
Theorem run_leaves_rows_beyond_the_batch (fuel : nat) (env : Env) (w w1 : World)
    (u : string) :
  supabase env = true -> polled fuel env w w1 -> ids_unique w1 ->
  userError env = false -> backlog u w1 <> [] ->
  fetchError env u = false -> truthy (answer env u w1) = true ->
  saveError env u = false -> updateError env u = false ->
  exists r w2,
    runBatchSummarization fuel env w = Some (r, w2)
    /\ backlog u w2 = skipn 50 (backlog u w1)
    /\ (List.length (backlog u w1) <= 50 -> backlog u w2 = []).
Proof.
  intros Hs Hp Huq He Hb Hf Ht Hsv Hup.
  destruct (run_own fuel env w w1 u Hs Hp Huq He Hb) as [details [w2 [Hrun H]]].
  rewrite (verdict_saved env u w1 Hb Hf Ht Hsv), Hup in H. cbn [negb] in H.
  destruct H as [Hi _].
  assert (E : backlog u w2 = skipn 50 (backlog u w1)).
  { rewrite (backlog_of_items u w2), Hi, (backlog_of_items u w1).
    apply (pending_after_update (items_of u w1) 50). now apply NoDup_ids_of. }
  eexists. exists w2. split; [exact Hrun|]. split; [exact E|].
  intro Hle. rewrite E. now apply skipn_all2.
Qed.

Lemma run_leaves_rows_beyond_the_batch_witness :
  exists r w2,
    runBatchSummarization 0 Scenario.env_ok seventy = Some (r, w2)
    /\ backlog "U1" w2 = skipn 50 (backlog "U1" polled_seventy)
    /\ (List.length (backlog "U1" polled_seventy) <= 50 -> backlog "U1" w2 = []).
Proof.
  assert (Hq : ids_unique polled_seventy).
  { unfold ids_unique.
    replace (map Item.id (items (store polled_seventy)))
      with (uniq [] (map Item.id (items (store polled_seventy))))
      by (vm_compute; reflexivity).
    apply uniq_NoDup. }
  assert (Hb : backlog "U1" polled_seventy <> []) by (vm_compute; discriminate).
  assert (Ht : truthy (answer Scenario.env_ok "U1" polled_seventy) = true)
    by (vm_compute; reflexivity).
  exact (run_leaves_rows_beyond_the_batch 0 Scenario.env_ok seventy polled_seventy "U1"
           eq_refl eq_refl Hq eq_refl Hb eq_refl Ht eq_refl eq_refl).
Defined.

End Statuses.

(* ================================================================== *)
(** * The batch summarizer: what is sent to OpenAI                      *)
(* ================================================================== *)

Module Prompts.
Import Js Db CronService Facts View Scenario Batch Loop Run PollView BatchView Report.

Lemma generateSummary_requests env m c w :
  openai_requests (snd (AiService.generateSummary env m c w))
  = (openai_requests w
     ++ if AiService.openai env then [AiService.summaryRequest m c] else [])%list.
Proof.
  unfold AiService.generateSummary, AiService.api_error, console_error.
  destruct (AiService.openai env); cbn [negb snd].
  - destruct (chat_completions_create env _); cbn [snd];
      [now rewrite !Poll.openai_requests_emit, app_nil_r|].
    destruct (AiService.first_content choices) as [text|]; cbn [snd];
      [|now rewrite !Poll.openai_requests_emit, app_nil_r].
    destruct (negb (truthy_str text)); cbn [snd]; [now rewrite Poll.openai_requests_emit|].
    destruct text as [t|]; cbn [snd]; [|now rewrite Poll.openai_requests_emit].
    destruct (JSON_parse t); cbn [snd];
      now rewrite !Poll.openai_requests_emit, ?app_nil_r.
  - now rewrite Poll.openai_requests_emit.
Qed.

Lemma summarizeUser_requests env w rep v :
  openai_requests (fst (summarizeUser env (w, rep) v))
  = (openai_requests w
     ++ match fetch_items env v w with
        | Some (i :: fetched) =>
            if AiService.openai env
            then [AiService.summaryRequest (map Item.content (i :: fetched))
                    (customInstructions env v w)]
            else []
        | _ => []
        end)%list.
Proof.
  unfold summarizeUser, console_log, console_warn, console_error.
  set (w1 := emit _ w).
  assert (E1 : openai_requests w1 = openai_requests w)
    by (subst w1; now rewrite Poll.openai_requests_emit, app_nil_r).
  change (fetch_items env v w1) with (fetch_items env v w).
  change (customInstructions env v w1) with (customInstructions env v w).
  destruct (fetch_items env v w) as [[|i fetched]|]; cbn [fst];
    try (now rewrite Poll.openai_requests_emit, E1, !app_nil_r).
  pose proof (generateSummary_requests env (map Item.content (i :: fetched))
                (customInstructions env v w) w1) as G.
  destruct (AiService.generateSummary env _ _ w1) as [result w2]. cbn [snd] in G.
  rewrite E1 in G.
  destruct (negb (truthy result)); cbn [fst];
    [now rewrite Poll.openai_requests_emit, G, app_nil_r|].
  destruct (saveError env v); cbn [fst];
    [now rewrite Poll.openai_requests_emit, G, app_nil_r|].
  destruct (updateError env v); cbn [fst].
  - rewrite Poll.openai_requests_emit, app_nil_r. exact G.
  - exact G.
Qed.

Lemma loop_requests env w1 l : forall w rep,
  NoDup l -> untouched w1 l w -> (forall v, In v l -> backlog v w1 <> []) ->
  openai_requests (fst (fold_left (summarizeUser env) l (w, rep)))
  = (openai_requests w
     ++ if AiService.openai env
        then map (request_of env w1) (filter (fun u => negb (fetchError env u)) l)
        else [])%list.
Proof.
  induction l as [|v l IH]; intros w rep Hnd Hun Hb.
  - cbn. destruct (AiService.openai env); now rewrite app_nil_r.
  - cbn [fold_left filter].
    destruct (untouched_step env w1 v l w rep Hnd Hun) as [Hun' _].
    inversion Hnd as [|? ? _ Hnd']; subst.
    pose proof (summarizeUser_requests env w rep v) as Hreq.
    destruct Hun as [_ [Hus Hit]].
    assert (Ebl : backlog v w = backlog v w1)
      by (rewrite !backlog_of_items, (Hit v); [reflexivity | now left]).
    assert (Eci : customInstructions env v w = customInstructions env v w1)
      by (unfold customInstructions; now rewrite Hus).
    unfold fetch_items in Hreq. fold (backlog v w) in Hreq. rewrite Ebl, Eci in Hreq.
    destruct (summarizeUser env (w, rep) v) as [w' rep']. cbn [fst] in *.
    rewrite (IH w' rep' Hnd' Hun') by (intros x Hx; apply Hb; now right).
    rewrite Hreq, <- app_assoc. f_equal.
    destruct (fetchError env v); cbn [negb]; [reflexivity|].
    destruct (limit 50 (backlog v w1)) as [|i fetched] eqn:El.
    + exfalso. apply (Hb v); [now left|].
      unfold limit in El. now destruct (backlog v w1).
    + destruct (AiService.openai env); [|reflexivity].
      cbn [map app]. unfold request_of at 2. now rewrite El.
Qed.

Lemma truthy_nonempty s : s <> "" -> truthy_str (Some s) = true.
Proof.
  intro H. cbn. now apply negb_true_iff, String.eqb_neq.
Qed.

Lemma customInstructions_of env w u :
  instructions_of env w u (customInstructions env u w).
Proof.
  unfold instructions_of, customInstructions.
  destruct (settingsError env u).
  { split; [intro H; now contradiction H | intros; discriminate]. }
  destruct (filter (fun x => UserSettings.user_id x =? u) (user_settings (store w)))
    as [|s [|s' l]] eqn:F; cbn [single].
  - split; [intro H; now contradiction H | intros; discriminate].
  - assert (Hs : In s (user_settings (store w)) /\ UserSettings.user_id s = u).
    { assert (H : In s [s]) by now left.
      rewrite <- F in H. apply filter_In in H. destruct H as [H E].
      apply String.eqb_eq in E. now split. }
    unfold or_str.
    destruct (UserSettings.report_custom_instructions s) as [text|] eqn:R.
    + destruct (truthy_str (Some text)) eqn:T.
      * split.
        -- intros _. split.
           ++ intro E. injection E as ->. discriminate.
           ++ exists s. rewrite R. tauto.
        -- intros s0 text0 _ E R0 _. injection E as <-. congruence.
      * split; [intro H; now contradiction H|].
        intros s0 text0 _ E R0 Hne. injection E as <-.
        rewrite R in R0. injection R0 as <-.
        cbn in T. apply negb_false_iff, String.eqb_eq in T. contradiction.
    + cbn [truthy_str]. split; [intro H; now contradiction H|].
      intros s0 text0 _ E R0 _. injection E as <-. congruence.
  - split; [intro H; now contradiction H | intros; discriminate].
Qed.

Lemma request_of_sent_for env w u : sent_for env w u (request_of env w u).
Proof.
  unfold sent_for, request_of.
  exists (limit 50 (backlog u w)), (customInstructions env u w).
  pose proof (customInstructions_of env w u) as Hc.
  split; [|split; [reflexivity|split; [|exact Hc]]].
  - unfold AiService.summaryRequest, AiService.contentList. rewrite map_map.
    destruct (customInstructions env u w) as [c|]; [|reflexivity].
    destruct Hc as [Hne _]. destruct (Hne ltac:(discriminate)) as [Hc _].
    assert (T : truthy_str (Some c) = true)
      by (apply truthy_nonempty; intros ->; now apply Hc).
    now rewrite T.
  - intros i Hi. unfold limit in Hi. apply firstn_In, backlog_In in Hi. tauto.
Qed.

(** X12. The requests that a run sends to OpenAI are known from the world
    that the poll leaves: one request for each user with pending rows whose
    fetch succeeds, in the ascending order of the user ids, and each
    request carries the texts of the first 50 pending rows of that one user
    and the instructions of the settings row of that user, nothing of
    another user. *)
Theorem run_sends_one_request_per_user (fuel : nat) (env : Env) (w w1 : World) :
  supabase env = true -> polled fuel env w w1 -> ids_unique w1 ->
  exists r w2 users,
    runBatchSummarization fuel env w = Some (r, w2)
    /\ openai_requests w2 = (openai_requests w ++ expected_requests env w1)%list
    /\ ascending users
    /\ (forall u, In u users <->
          userError env = false /\ AiService.openai env = true
          /\ fetchError env u = false /\ has_pending w1 u)
    /\ Forall2 (sent_for env w1) users (expected_requests env w1).
Proof.
  intros Hs Hp Huq.
  enough (H : exists r w2,
            runBatchSummarization fuel env w = Some (r, w2)
            /\ openai_requests w2 = (openai_requests w ++ expected_requests env w1)%list).
  { destruct H as [r [w2 [Hrun Hreq]]].
    exists r, w2,
      (if userError env then []
       else if AiService.openai env
            then filter (fun u => negb (fetchError env u)) (userIds w1) else []).
    split; [exact Hrun|]. split; [exact Hreq|]. unfold expected_requests.
    destruct (userError env).
    { split; [constructor|]. split; [|constructor].
      intro u. split; [contradiction | intros [H _]; discriminate]. }
    destruct (AiService.openai env).
    2:{ split; [constructor|]. split; [|constructor].
        intro u. split; [contradiction | intros [_ [H _]]; discriminate]. }
    split; [apply Report.ascending_filter, Report.userIds_ascending|]. split.
    - intro u. rewrite filter_In, userIds_In, <- Report.has_pending_backlog, negb_true_iff.
      tauto.
    - induction (filter _ (userIds w1)) as [|u l IH]; cbn [map]; constructor;
        [apply request_of_sent_for | exact IH]. }
  assert (Epoll : openai_requests w1 = openai_requests w).
  { destruct (Poll.polls_requests _ _ _ _ (Poll.fetchSlackMessages_polls _ _ _ _ Hp))
      as [_ E].
    rewrite E. unfold console_log. now rewrite Poll.openai_requests_emit, app_nil_r. }
  rewrite (run_after_poll fuel env w w1 Hs Hp). unfold expected_requests.
  destruct (userError env) eqn:He.
  { destruct (summarizePending_idle env w1 (or_introl He)) as [_ [_ E]].
    destruct (summarizePending env w1) as [r w2]. cbn in E.
    exists r, w2. now rewrite E, Epoll, app_nil_r. }
  destruct (userIds w1) as [|x l] eqn:Eu.
  { destruct (summarizePending_idle env w1 (or_intror Eu)) as [_ [_ E]].
    destruct (summarizePending env w1) as [r w2]. cbn in E.
    exists r, w2. rewrite E, Epoll. destruct (AiService.openai env); now rewrite app_nil_r. }
  assert (Hne : userIds w1 <> []) by (rewrite Eu; discriminate).
  destruct (summarizePending_loop env w1 He Hne) as [w0 [Hst [Htr Hrun]]].
  rewrite Hrun. cbv zeta. eexists. eexists. split; [reflexivity|].
  rewrite <- Eu.
  rewrite (loop_requests env w1 (userIds w1) w0 [] (userIds_NoDup w1)
             (untouched_start w1 w0 _ Hst Huq)) by (intros v Hv; now apply userIds_In).
  f_equal. unfold openai_requests. rewrite Htr. cbn [rev]. rewrite flat_map_app. cbn.
  rewrite app_nil_r. exact Epoll.
Qed.

Example scenario_requests :
  expected_requests Scenario.env_refusing_u1 Scenario.polled_both
  = [AiService.summaryRequest ["deploy failed"; "lunch plans"; "contract signed"] None;
     AiService.summaryRequest ["late invoice"] None].
Proof. vm_compute. reflexivity. Qed.

Example instructed_requests :
  expected_requests Scenario.env_ok polled_instructed
  = [AiService.summaryRequest ["deploy failed"] (Some "be brief");
     AiService.summaryRequest ["late invoice"; "renewal"] (Some "answer in French")].
Proof. vm_compute. reflexivity. Qed.

Lemma run_sends_one_request_per_user_witness :
  exists r w2 users,
    runBatchSummarization 0 Scenario.env_ok instructed = Some (r, w2)
    /\ openai_requests w2
       = (openai_requests instructed
          ++ expected_requests Scenario.env_ok polled_instructed)%list
    /\ ascending users
    /\ (forall u, In u users <->
          userError Scenario.env_ok = false /\ AiService.openai Scenario.env_ok = true
          /\ fetchError Scenario.env_ok u = false /\ has_pending polled_instructed u)
    /\ Forall2 (sent_for Scenario.env_ok polled_instructed) users
         (expected_requests Scenario.env_ok polled_instructed).
Proof.
  apply (run_sends_one_request_per_user 0 Scenario.env_ok instructed).
  - reflexivity.
  - reflexivity.
  - unfold ids_unique. simpl. distinct.
Defined.

End Prompts.

(* ================================================================== *)
(** * The retention sweep and the next run                              *)
(* ================================================================== *)

Module Sweep.
Import Js Db CronService Facts View Scenario Batch Loop Run PollView BatchView Report
       Retention.

Lemma partition_length {A : Type} (p : A -> bool) (l : list A) :
  List.length (filter p l) + List.length (filter (fun x => negb (p x)) l) = List.length l.
Proof.
  induction l as [|a l IH]; [reflexivity|]. cbn [filter].
  destruct (p a); cbn [negb List.length]; lia.
Qed.

Lemma filter_twice {A : Type} (p : A -> bool) (l : list A) :
  filter p (filter p l) = filter p l.
Proof.
  induction l as [|a l IH]; [reflexivity|]. cbn [filter].
  destruct (p a) eqn:E; [cbn [filter]; now rewrite E, IH | exact IH].
Qed.

Lemma sweep_keeps_clock env w : requests (snd (runRetentionPolicy env w)) = requests w.
Proof.
  unfold runRetentionPolicy. destruct (supabase env); [|reflexivity].
  destruct (retention_delete env); reflexivity.
Qed.

(** X13. Sweeping twice in a row deletes what sweeping once deletes: a
    second sweep at the same time finds nothing more to delete. *)
Theorem sweep_is_idempotent (env : Env) (w : World) :
  swept env (snd (runRetentionPolicy env w)) = swept env w.
Proof.
  unfold swept, runRetentionPolicy.
  destruct (supabase env) eqn:Hs; cbn [negb snd]; rewrite ?Hs; [|reflexivity].
  destruct (retention_delete env) eqn:Hd; cbn [snd]; rewrite ?Hd; try reflexivity.
  cbn [snd console_log emit store with_store with_items items requests].
  apply filter_twice.
Qed.

(** X14. When the store carries out the delete, the count that the sweep
    logs is the number of rows it removed, and the sweep touches no other
    table. *)
Theorem sweep_logs_the_rows_removed (env : Env) (w : World) :
  supabase env = true -> retention_delete env = DeleteOk ->
  let w' := snd (runRetentionPolicy env w) in
  trace w'
  = ConsoleLog ("[Scheduler] Deleted "
                ++ show_nat (List.length (items (store w)) - List.length (items (store w')))
                ++ " old items.")
    :: ConsoleLog "[Scheduler] Running retention policy..." :: trace w
  /\ List.length (items (store w')) <= List.length (items (store w))
  /\ summaries (store w') = summaries (store w)
  /\ user_settings (store w') = user_settings (store w)
  /\ workspaces (store w') = workspaces (store w).
Proof.
  intros Hs Hd. cbv zeta. unfold runRetentionPolicy. rewrite Hs, Hd.
  cbn [negb snd console_log emit store with_store with_items items trace summaries
       user_settings workspaces].
  pose proof (partition_length
                (retention_filter (dateThreshold env (Date_now env (requests w))))
                (items (store w))) as P.
  split; [|repeat split; lia].
  replace (List.length (items (store w))
           - List.length (filter (fun i => negb (retention_filter
                                                   (dateThreshold env (Date_now env (requests w))) i))
                                 (items (store w))))
    with (List.length (filter (retention_filter (dateThreshold env (Date_now env (requests w))))
                              (items (store w)))) by lia.
  reflexivity.
Qed.

Lemma sweep_logs_the_rows_removed_witness :
  trace (snd (runRetentionPolicy Sample.env aged))
  = ConsoleLog ("[Scheduler] Deleted "
                ++ show_nat (List.length (items (store aged))
                             - List.length (items (store (snd (runRetentionPolicy Sample.env aged)))))
                ++ " old items.")
    :: ConsoleLog "[Scheduler] Running retention policy..." :: trace aged.
Proof.
  exact (proj1 (sweep_logs_the_rows_removed Sample.env aged eq_refl eq_refl)).
Defined.

Lemma retention_filter_not_pending t i :
  retention_filter t i = true -> is_pending i = false.
Proof.
  unfold retention_filter, is_pending. rewrite !andb_true_iff. intros [[_ H] _].
  apply status_in_In in H. destruct (Item.status i); simpl in *; intuition discriminate.
Qed.

Lemma filter_after_filter {A : Type} (p q : A -> bool) (l : list A) :
  (forall x, q x = false -> p x = false) ->
  filter p (filter q l) = filter p l.
Proof.
  intro H. induction l as [|a l IH]; [reflexivity|]. cbn [filter].
  destruct (q a) eqn:Q; cbn [filter].
  - destruct (p a); now rewrite IH.
  - now rewrite (H a Q).
Qed.

Lemma sweep_keeps_pending env w :
  filter is_pending (swept env w) = filter is_pending (items (store w)).
Proof.
  destruct (swept_cases env w) as [E|E]; rewrite E; [reflexivity|].
  apply filter_after_filter. intros i H. apply negb_false_iff in H.
  now apply retention_filter_not_pending in H.
Qed.

Lemma sweep_keeps_backlog env w u :
  backlog u (snd (runRetentionPolicy env w)) = backlog u w.
Proof.
  unfold backlog. fold (swept env w).
  destruct (swept_cases env w) as [E|E]; rewrite E; [reflexivity|].
  apply filter_after_filter. intros i H. apply negb_false_iff in H.
  unfold pending_of. now rewrite (retention_filter_not_pending _ i H).
Qed.

Lemma NoDup_map_filter {A K : Type} (key : A -> K) (q : A -> bool) (l : list A) :
  NoDup (map key l) -> NoDup (map key (filter q l)).
Proof.
  induction l as [|a l IH]; intro H; [constructor|].
  inversion H as [|? ? Hnot Hnd]; subst. cbn [filter].
  destruct (q a); [|now apply IH].
  cbn [map]. constructor; [|now apply IH].
  intro Hin. apply Hnot. apply in_map_iff in Hin. destruct Hin as [x [Ex Hx]].
  apply filter_In in Hx. rewrite <- Ex. apply in_map. tauto.
Qed.

Lemma sweep_keeps_settings env w :
  user_settings (store (snd (runRetentionPolicy env w))) = user_settings (store w).
Proof.
  unfold runRetentionPolicy. destruct (supabase env); [|reflexivity].
  destruct (retention_delete env); reflexivity.
Qed.

(** What the run after the poll returns depends on the store through the
    pending rows and the settings only. *)
Lemma expected_result_ext env w w' :
  (forall u, backlog u w = backlog u w') ->
  filter is_pending (items (store w)) = filter is_pending (items (store w')) ->
  user_settings (store w) = user_settings (store w') ->
  expected_result env w = expected_result env w'.
Proof.
  intros Hb Hp Hs.
  assert (Hu : userIds w = userIds w') by (unfold userIds; now rewrite Hp).
  assert (Ha : forall u, answer env u w = answer env u w').
  { intro u. unfold answer, customInstructions. rewrite Hb, Hs.
    apply Ai.generateSummary_value. }
  assert (Hv : forall u, verdict env u w = verdict env u w').
  { intro u. unfold verdict, fetch_items. fold (backlog u w) (backlog u w').
    now rewrite Hb, Ha. }
  unfold expected_result. rewrite Hu.
  destruct (userError env); [reflexivity|].
  destruct (userIds w'); [reflexivity|].
  assert (E : map (detail_of env w) (filter (saved env w) (s :: l))
              = map (detail_of env w') (filter (saved env w') (s :: l))).
  { rewrite (filter_ext (saved env w) (saved env w'))
      by (intro u; unfold saved; now rewrite Hv).
    apply map_ext. intro u. unfold detail_of. now rewrite Hb, Ha. }
  now rewrite E.
Qed.

Lemma summarizePending_result env w1 :
  ids_unique w1 -> fst (summarizePending env w1) = expected_result env w1.
Proof.
  intro Huq.
  destruct (userError env) eqn:He;
    [apply (summarizePending_idle env w1 (or_introl He))|].
  destruct (userIds w1) as [|x l] eqn:Eu;
    [apply (summarizePending_idle env w1 (or_intror Eu))|].
  assert (Hne : userIds w1 <> []) by (rewrite Eu; discriminate).
  destruct (summarizePending_loop env w1 He Hne) as [w0 [Hst [_ Hrun]]].
  rewrite Hrun. cbv zeta. cbn [fst].
  destruct (loop_report env w1 (userIds w1) w0 [] (userIds_NoDup w1)
              (untouched_start w1 w0 _ Hst Huq)) as [Hr _].
  cbv zeta in Hr. rewrite Hr. unfold expected_result. now rewrite He, Eu.
Qed.

Lemma sweep_keeps_key env w : ids_unique w -> ids_unique (snd (runRetentionPolicy env w)).
Proof.
  unfold ids_unique. fold (swept env w).
  destruct (swept_cases env w) as [E|E]; rewrite E; [auto|].
  apply NoDup_map_filter.
Qed.

(** X15. A sweep takes nothing from the backlog of any user, so it does not
    change what the summarization that follows returns: the report is the
    same whether or not the table was swept first. *)
Theorem sweep_does_not_change_the_report (env : Env) (w : World) :
  (forall u, backlog u (snd (runRetentionPolicy env w)) = backlog u w)
  /\ (ids_unique w ->
      fst (summarizePending env (snd (runRetentionPolicy env w)))
      = fst (summarizePending env w)).
Proof.
  split; [intro u; apply sweep_keeps_backlog|].
  intro Huq.
  rewrite (summarizePending_result env _ (sweep_keeps_key env w Huq)).
  rewrite (summarizePending_result env w Huq).
  apply expected_result_ext.
  - intro u. apply sweep_keeps_backlog.
  - apply sweep_keeps_pending.
  - apply sweep_keeps_settings.
Qed.

Lemma sweep_does_not_change_the_report_witness :
  fst (summarizePending Scenario.env_ok
         (snd (runRetentionPolicy Scenario.env_ok aged)))
  = fst (summarizePending Scenario.env_ok aged).
Proof.
  apply (proj2 (sweep_does_not_change_the_report Scenario.env_ok aged)).
  unfold ids_unique. simpl. distinct.
Defined.

End Sweep.

(* ================================================================== *)
(** * The webhook and the duplication check of the poller               *)
(* ================================================================== *)

Module Webhook.
Import Js Db Slack SlackService Facts View Scenario PollView Routes.

Lemma plain_message_passes event :
  plain_message event ->
  (truthy_str (Api.SlackEvent.bot_id event)
   || match Api.SlackEvent.subtype event with
      | Some s => s =? "bot_message"
      | None => false
      end) = false
  /\ ((Api.SlackEvent.type event =? "message")
      && negb (truthy_str (Api.SlackEvent.subtype event))) = true.
Proof.
  intros [Ht [Hs Hb]]. rewrite Hb, Hs, Ht. split; [|reflexivity].
  destruct (Api.SlackEvent.subtype event) as [s|]; [|reflexivity].
  cbn in Hs. apply negb_false_iff, String.eqb_eq in Hs. now subst.
Qed.

(** What the webhook does with a message of a known team. *)
Lemma webhook_inserts (env : Env) (team_id : string)
    (event : Api.SlackEvent.t) (userInfo : option (string * string)) (w : World)
    (ws : Workspace.t) :
  Api.supabase env = true -> plain_message event ->
  workspace_of team_id w = Some ws -> insertError env (requests w) = false ->
  let w' := Api.webhook_slack_event env team_id event userInfo w in
  (exists row,
     items (store w') = (items (store w) ++ [row])%list
     /\ Item.status row = pending /\ Item.source_type row = slack
     /\ Item.user_id row = Workspace.user_id ws
     /\ Item.content row = Api.SlackEvent.text event
     /\ arrow (Item.meta_data row) "team" = Some team_id)
  /\ List.length (copies event w') = S (List.length (copies event w))
  /\ workspace_of team_id w' = Some ws.
Proof.
  intros Hs Hp Hw Hi. cbv zeta. unfold Api.webhook_slack_event.
  destruct (plain_message_passes event Hp) as [E1 E2]. rewrite E1, E2, Hs.
  unfold workspace_of in Hw. rewrite Hw, Hi.
  unfold insert_item. rewrite Hi. cbn [tick store with_store items workspaces].
  split; [|split].
  - eexists. split; [reflexivity|]. repeat split.
  - unfold copies, tick, with_store. cbn [store items].
    rewrite filter_app, length_app. cbn [filter].
    rewrite (Poll.same_message_meta _ _ _ (Api.SlackEvent.ts event)
               (Api.SlackEvent.channel event)) by reflexivity.
    rewrite !String.eqb_refl. cbn. lia.
  - unfold workspace_of, tick, with_store. cbn [store workspaces]. exact Hw.
Qed.

(** X16. The webhook stores every delivery of a message of a known team:
    it adds one pending Slack row for the owning user of the workspace,
    with the channel, timestamp and team of the event, whatever rows the
    table holds - so a message that is delivered again is stored again. *)
Theorem webhook_stores_every_delivery (env : Env) (team_id : string)
    (event : Api.SlackEvent.t) (userInfo : option (string * string)) (w : World)
    (ws : Workspace.t) :
  Api.supabase env = true -> plain_message event ->
  workspace_of team_id w = Some ws -> insertError env (requests w) = false ->
  let w' := Api.webhook_slack_event env team_id event userInfo w in
  (exists row,
     items (store w') = (items (store w) ++ [row])%list
     /\ Item.status row = pending /\ Item.source_type row = slack
     /\ Item.user_id row = Workspace.user_id ws
     /\ Item.content row = Api.SlackEvent.text event
     /\ arrow (Item.meta_data row) "team" = Some team_id)
  /\ List.length (copies event w') = S (List.length (copies event w))
  /\ workspace_of team_id w' = Some ws.
Proof.
  exact (webhook_inserts env team_id event userInfo w ws).
Qed.

Lemma webhook_stores_every_delivery_witness :
  List.length (copies the_event
                 (Api.webhook_slack_event serving "T1" the_event None
                    (world_with [polled_row "row-0"])))
  = S (List.length (copies the_event (world_with [polled_row "row-0"]))).
Proof.
  refine (proj1 (proj2 (webhook_stores_every_delivery serving "T1" the_event None
                          (world_with [polled_row "row-0"]) workspace
                          eq_refl _ eq_refl eq_refl))).
  repeat split.
Defined.



End Webhook.

(* ================================================================== *)
(** * The routes on items                                               *)
(* ================================================================== *)

Module Items.
Import Js Db Facts View Scenario Batch PollView Routes.

Lemma insert_desc_In x i l : In x (insert_desc i l) <-> x = i \/ In x l.
Proof.
  induction l as [|j l IH]; cbn [insert_desc]; [cbn; intuition|].
  destruct (Item.created_at j <=? Item.created_at i)%Z; cbn [In]; [intuition|].
  rewrite IH. intuition.
Qed.

Lemma order_created_desc_In x l : In x (order_created_desc l) <-> In x l.
Proof.
  unfold order_created_desc. induction l as [|a l IH]; cbn [fold_right]; [tauto|].
  rewrite insert_desc_In, IH. cbn. intuition.
Qed.

Lemma insert_desc_sorted i l : newest_first l -> newest_first (insert_desc i l).
Proof.
  induction l as [|j l IH]; intro H; cbn [insert_desc].
  - cbn. split; [intros b []|exact I].
  - destruct H as [Hj Hl].
    destruct (Item.created_at j <=? Item.created_at i)%Z eqn:E.
    + apply Z.leb_le in E. cbn [newest_first]. split; [|split; assumption].
      intros b [<-|Hb]; [assumption|]. specialize (Hj b Hb). lia.
    + apply Z.leb_gt in E. cbn [newest_first]. split; [|now apply IH].
      intros b Hb. apply insert_desc_In in Hb. destruct Hb as [->|Hb]; [lia|auto].
Qed.

Lemma order_created_desc_sorted l : newest_first (order_created_desc l).
Proof.
  unfold order_created_desc. induction l as [|a l IH]; cbn [fold_right]; [exact I|].
  now apply insert_desc_sorted.
Qed.

Lemma newest_first_firstn n : forall l, newest_first l -> newest_first (firstn n l).
Proof.
  induction n as [|n IH]; intros [|a l] H; cbn [firstn newest_first]; auto.
  destruct H as [Ha Hl]. split; [|now apply IH].
  intros b Hb. apply Ha. now apply firstn_In in Hb.
Qed.

Lemma newest_first_app l1 l2 :
  newest_first (l1 ++ l2) ->
  forall a b, In a l1 -> In b l2 -> (Item.created_at b <= Item.created_at a)%Z.
Proof.
  induction l1 as [|x l1 IH]; intros H a b Ha Hb; [contradiction|].
  destruct H as [Hx Hl]. destruct Ha as [<-|Ha].
  - apply Hx. apply in_or_app. now right.
  - now apply (IH Hl a b).
Qed.

(** X18. [GET /items] answers at most 50 rows, all of the user, of the
    status asked for or else not archived, newest first; and the rows it
    leaves out are not newer than those it answers. *)
Theorem items_are_listed_newest_first (env : Env) (user : string) (status : option string)
    (w : World) (rows : list Item.t) :
  get_items env user status None w = Ok rows ->
  List.length rows <= 50
  /\ newest_first rows
  /\ (forall i, In i rows ->
        In i (items (store w)) /\ Item.user_id i = user
        /\ (truthy_str status = false -> Item.status i <> archived)
        /\ (forall s, status = Some s -> s <> "" -> status_name (Item.status i) = s))
  /\ (forall i j, In i rows -> In j (items (store w)) -> listed user status j = true ->
        ~ In j rows -> (Item.created_at j <= Item.created_at i)%Z).
Proof.
  unfold get_items. destruct (negb (Api.supabase env)); [discriminate|].
  intro E. injection E as <-.
  set (l := order_created_desc (filter (listed user status) (items (store w)))).
  change (limit 50 l) with (firstn 50 l).
  assert (Hs : newest_first l) by apply order_created_desc_sorted.
  split; [apply firstn_le_length|].
  split; [now apply newest_first_firstn|].
  split.
  - intros i Hi. apply firstn_In in Hi. subst l.
    apply order_created_desc_In, filter_In in Hi. destruct Hi as [Hin Hl].
    unfold listed in Hl. apply andb_true_iff in Hl. destruct Hl as [Hu Hc].
    apply String.eqb_eq in Hu. repeat split; try assumption.
    + intros Ht Ha. rewrite Ht in Hc. rewrite Ha in Hc. discriminate.
    + intros s -> Hne.
      assert (Ht : truthy_str (Some s) = true)
        by (cbn; apply negb_true_iff; now apply String.eqb_neq).
      rewrite Ht in Hc. now apply String.eqb_eq.
  - intros i j Hi Hj Hl Hnot.
    assert (Hjl : In j l)
      by (subst l; apply order_created_desc_In, filter_In; split; assumption).
    rewrite <- (firstn_skipn 50 l) in Hjl, Hs.
    apply in_app_or in Hjl. destruct Hjl as [Hjl|Hjl]; [contradiction|].
    now apply (newest_first_app _ _ Hs i j).
Qed.

Example mixed_listing :
  match get_items Sample.env "U1" None None mixed with
  | Ok rows => map Item.id rows
  | Err _ _ => []
  end = ["m6"; "m2"; "m4"; "m1"].
Proof. vm_compute. reflexivity. Qed.

Lemma items_are_listed_newest_first_witness :
  newest_first (limit 50 (order_created_desc (filter (listed "U1" None)
                                                     (items (store mixed))))).
Proof.
  exact (proj1 (proj2 (items_are_listed_newest_first Sample.env "U1" None mixed _ eq_refl))).
Defined.

Lemma to_archive_archived user workspaceId i :
  Item.status i = archived -> to_archive user workspaceId i = false.
Proof.
  intro H. unfold to_archive. rewrite H. cbn.
  now rewrite andb_false_r.
Qed.

Lemma archive_twice user workspaceId i :
  archive user workspaceId (archive user workspaceId i) = archive user workspaceId i.
Proof.
  unfold archive at 2 3. destruct (to_archive user workspaceId i) eqn:E.
  - unfold archive. rewrite to_archive_archived; [reflexivity|].
    now destruct i.
  - unfold archive. now rewrite E.
Qed.

Lemma to_archive_after user workspaceId i :
  to_archive user workspaceId (archive user workspaceId i) = false.
Proof.
  unfold archive. destruct (to_archive user workspaceId i) eqn:E; [|exact E].
  apply to_archive_archived. now destruct i.
Qed.

Lemma to_archive_selected user workspaceId i :
  to_archive user workspaceId i = true <-> selected user workspaceId i.
Proof.
  unfold to_archive, selected, in_workspace.
  rewrite !andb_true_iff, !negb_true_iff, String.eqb_eq.
  assert (Hs : status_eqb (Item.status i) archived = false <-> Item.status i <> archived).
  { destruct (status_eqb (Item.status i) archived) eqn:E.
    - apply status_eqb_eq in E. split; [discriminate | contradiction].
    - split; [|reflexivity]. intros _ H. apply status_eqb_eq in H. congruence. }
  assert (Hk : source_type_eqb (Item.source_type i) web = false
               <-> Item.source_type i <> web).
  { destruct (source_type_eqb (Item.source_type i) web) eqn:E.
    - apply source_type_eqb_eq in E. split; [discriminate | contradiction].
    - split; [|reflexivity]. intros _ H. apply source_type_eqb_eq in H. congruence. }
  rewrite Hs, Hk.
  assert (Hw : match workspaceId with
               | Some id => if truthy_str workspaceId && negb (id =? "all")
                            then arrow_eq "team" id i else true
               | None => true
               end = true
               <-> match workspaceId with
                   | None => True
                   | Some id => id = "" \/ id = "all"
                                \/ arrow (Item.meta_data i) "team" = Some id
                   end).
  { destruct workspaceId as [id|]; [|tauto]. cbn [truthy_str].
    destruct (String.eqb_spec id ""); cbn [negb andb]; [tauto|].
    destruct (String.eqb_spec id "all"); cbn [negb]; [tauto|].
    unfold arrow_eq. destruct (arrow (Item.meta_data i) "team") as [x|].
    - rewrite String.eqb_eq. split; [intros ->; auto|].
      intros [H|[H|H]]; [contradiction | contradiction | now injection H].
    - split; [discriminate|]. intros [H|[H|H]]; [contradiction | contradiction | discriminate]. }
  rewrite Hw. tauto.
Qed.

Lemma archive_by user workspaceId i :
  archived_by user workspaceId i (archive user workspaceId i).
Proof.
  unfold archived_by, archive. destruct (to_archive user workspaceId i) eqn:E.
  - split; [intros _; destruct i; repeat split|].
    intro H. exfalso. apply H. now apply to_archive_selected.
  - split; [|reflexivity]. intro H. apply to_archive_selected in H. congruence.
Qed.

Lemma archive_all_ok env user workspaceId w count w' :
  archive_all env user workspaceId None w = (Ok count, w') ->
  Api.supabase env = true /\ count = JNull
  /\ w' = with_store (with_items (map (archive user workspaceId) (items (store w)))
                                 (store w)) w.
Proof.
  unfold archive_all. destruct (Api.supabase env); cbn [negb]; [|discriminate].
  intro E. injection E as <- <-. repeat split.
Qed.

(** X19. [POST /items/archive-all] archives the rows of the user that are
    neither archived nor web rows and are of the workspace asked for, and
    leaves every other row and every other table as it is; the [count] it
    answers is [null], whatever it archived. *)
Theorem archive_all_touches_only_the_users_rows (env : Env) (user : string)
    (workspaceId : option string) (w w' : World) (count : value) :
  archive_all env user workspaceId None w = (Ok count, w') ->
  Forall2 (archived_by user workspaceId) (items (store w)) (items (store w'))
  /\ count = JNull
  /\ summaries (store w') = summaries (store w)
  /\ user_settings (store w') = user_settings (store w)
  /\ workspaces (store w') = workspaces (store w)
  /\ trace w' = trace w.
Proof.
  intro E. apply archive_all_ok in E. destruct E as [_ [-> ->]].
  cbn [with_store with_items store items summaries user_settings workspaces trace].
  split; [|repeat split].
  induction (items (store w)) as [|i l IH]; cbn [map]; constructor; [|exact IH].
  apply archive_by.
Qed.

Example mixed_after_archive_all :
  map (fun i => (Item.id i, status_name (Item.status i)))
      (items (store (snd (archive_all Sample.env "U1" None None mixed))))
  = [("m1", "archived"); ("m2", "pending"); ("m3", "archived"); ("m4", "archived");
     ("m5", "pending"); ("m6", "archived")].
Proof. vm_compute. reflexivity. Qed.

Lemma archive_all_touches_only_the_users_rows_witness :
  Forall2 (archived_by "U1" None) (items (store mixed))
    (items (store (snd (archive_all Sample.env "U1" None None mixed))))
  /\ fst (archive_all Sample.env "U1" None None mixed) = Ok JNull.
Proof.
  split; [|reflexivity].
  exact (proj1 (archive_all_touches_only_the_users_rows
                  Sample.env "U1" None mixed _ JNull eq_refl)).
Defined.

(** X20. A second [POST /items/archive-all] right after a first answers
    the same and changes nothing; and after an archive-all without a
    workspace (or with "all"), [GET /items] without a status lists only web
    rows of the user. *)
Theorem archive_all_clears_the_listing (env : Env) (user : string)
    (workspaceId : option string) (w w' : World) (count : value) :
  archive_all env user workspaceId None w = (Ok count, w') ->
  archive_all env user workspaceId None w' = (Ok count, w')
  /\ ((workspaceId = None \/ workspaceId = Some "all") ->
      exists rows, get_items env user None None w' = Ok rows
                   /\ forall i, In i rows -> Item.source_type i = web).
Proof.
  intro E. pose proof (archive_all_ok _ _ _ _ _ _ E) as [Hs [-> ->]].
  split.
  - unfold archive_all. rewrite Hs. cbn [negb].
    cbn [with_store with_items store items summaries user_settings workspaces generated
         trace requests].
    rewrite map_map.
    now rewrite (map_ext _ _ (archive_twice user workspaceId)).
  - intro Hw. unfold get_items. rewrite Hs. cbn [negb]. eexists. split; [reflexivity|].
    intros i Hi. change (limit 50) with (@firstn Item.t 50) in Hi.
    apply firstn_In, order_created_desc_In, filter_In in Hi.
    cbn [with_store with_items store items] in Hi. destruct Hi as [Hin Hl].
    apply in_map_iff in Hin. destruct Hin as (j & <- & _).
    pose proof (to_archive_after user workspaceId j) as T.
    unfold listed in Hl. cbn [truthy_str] in Hl.
    apply andb_true_iff in Hl. destruct Hl as [Hu Hst].
    unfold to_archive in T. rewrite Hu, Hst in T. cbn [andb] in T.
    assert (Hall : match workspaceId with
                   | Some id => if truthy_str workspaceId && negb (id =? "all")
                                then arrow_eq "team" id (archive user workspaceId j) else true
                   | None => true
                   end = true)
      by (destruct Hw as [->| ->]; reflexivity).
    rewrite Hall, andb_true_r in T.
    apply negb_false_iff in T. now apply source_type_eqb_eq.
Qed.

Lemma archive_all_clears_the_listing_witness :
  archive_all Sample.env "U1" None None (snd (archive_all Sample.env "U1" None None mixed))
  = (Ok JNull, snd (archive_all Sample.env "U1" None None mixed))
  /\ exists rows,
       get_items Sample.env "U1" None None (snd (archive_all Sample.env "U1" None None mixed))
       = Ok rows
       /\ forall i, In i rows -> Item.source_type i = web.
Proof.
  destruct (archive_all_clears_the_listing Sample.env "U1" None mixed _ JNull eq_refl)
    as [H1 H2].
  split; [exact H1|]. apply H2. now left.
Defined.

(** X21. [DELETE /items/:id] removes the rows of the user with that id and
    no other row: the rows of another user stay, also one with the same id,
    and when the user has no row with the id the route still answers
    success and the table is as before. *)
Theorem delete_removes_only_the_users_row (env : Env) (user id : string) (w w' : World)
    (a : Answer bool) :
  Api.supabase env = true -> id <> "" ->
  delete_item env user id None w = (a, w') ->
  a = Ok true
  /\ (forall i, In i (items (store w'))
                <-> In i (items (store w)) /\ (Item.id i <> id \/ Item.user_id i <> user))
  /\ (forall v, v <> user -> items_of v w' = items_of v w)
  /\ ((forall i, In i (items (store w)) -> Item.user_id i = user -> Item.id i <> id) ->
      items (store w') = items (store w)).
Proof.
  intros Hs Hid. unfold delete_item. rewrite Hs. cbn [negb].
  assert (Ht : truthy_str (Some id) = true) by (cbn; now apply negb_true_iff, String.eqb_neq).
  rewrite Ht. cbn [negb]. intro E. injection E as <- <-.
  cbn [with_store with_items store items]. split; [reflexivity|]. split; [|split].
  - intro i. rewrite filter_In, negb_true_iff, andb_false_iff, !String.eqb_neq. tauto.
  - intros v Hv. unfold items_of. cbn [with_store with_items store items].
    apply Sweep.filter_after_filter. intros x Hx.
    apply negb_false_iff, andb_true_iff in Hx. destruct Hx as [_ Hx].
    apply String.eqb_eq in Hx. apply String.eqb_neq. congruence.
  - intro Hnone. induction (items (store w)) as [|i l IH]; [reflexivity|].
    cbn [filter].
    assert (Hk : negb ((Item.id i =? id) && (Item.user_id i =? user)) = true).
    { apply negb_true_iff, andb_false_iff.
      destruct (String.eqb_spec (Item.user_id i) user) as [Hu|Hu]; [|now right].
      left. apply String.eqb_neq. apply Hnone; [now left|assumption]. }
    rewrite Hk. f_equal. apply IH. intros j Hj. apply Hnone. now right.
Qed.

Lemma delete_removes_only_the_users_row_witness :
  items (store (snd (delete_item Sample.env "U2" "m1" None mixed))) = items (store mixed).
Proof.
  refine (proj2 (proj2 (proj2 (delete_removes_only_the_users_row Sample.env "U2" "m1" mixed
                                 _ _ eq_refl _ eq_refl))) _).
  - discriminate.
  - intros i Hi Hu. cbn in Hi.
    repeat (destruct Hi as [<-|Hi]; [first [discriminate Hu | discriminate]|]).
    contradiction.
Defined.

End Items.

(* ================================================================== *)
(** * The AI routes                                                     *)
(* ================================================================== *)

Module Drafts.
Import Js Db OpenAI AiService PollView Routes.

Lemma truthy_some s : truthy_str (Some s) = true <-> s <> "".
Proof.
  cbn. rewrite negb_true_iff. apply String.eqb_neq.
Qed.

(** What [generateReplyDraft] and [askAboutSummary] return: the content of
    the first choice when it is not empty, otherwise [null]. *)
Lemma plain_completion_returns env req w :
  (forall d, fst (plain_completion env req w) = JString d <-> completes env req d)
  /\ (truthy (fst (plain_completion env req w)) = true ->
      exists d, fst (plain_completion env req w) = JString d)
  /\ store (snd (plain_completion env req w)) = store w
  /\ openai_requests (snd (plain_completion env req w))
     = (openai_requests w ++ if openai env then [req] else [])%list.
Proof.
  unfold plain_completion, completes, api_error, console_error.
  destruct (openai env) eqn:K; cbn [negb].
  2:{ cbn [fst snd]. rewrite Poll.openai_requests_emit, app_nil_r.
      split; [intro d; split; [discriminate|intros (Hk & _); discriminate]|].
      split; [discriminate|]. split; reflexivity. }
  destruct (chat_completions_create env req) as [|choices] eqn:C.
  { cbn [fst snd]. rewrite !Poll.openai_requests_emit, app_nil_r.
    split; [intro d; split; [discriminate|intros (_ & _ & cs & Hc & _); discriminate]|].
    split; [discriminate|]. split; reflexivity. }
  assert (Hno : forall d, first_content choices <> Some (Some d) ->
                  ~ (true = true /\ d <> ""
                     /\ exists cs, Resolved choices = Resolved cs
                                   /\ first_content cs = Some (Some d))).
  { intros d Hn (_ & _ & cs & Hc & Hf). injection Hc as <-. contradiction. }
  destruct (first_content choices) as [[t|]|] eqn:F.
  - destruct (truthy_str (Some t)) eqn:T; cbn [fst snd];
      rewrite ?Poll.openai_requests_emit.
    + apply truthy_some in T.
      split; [intro d; split|split; [|split; reflexivity]].
      * intro E. injection E as <-. split; [reflexivity|]. split; [assumption|].
        exists choices. now split.
      * intros (_ & _ & cs & Hc & Hf). injection Hc as <-.
        rewrite F in Hf. now injection Hf as <-.
      * intros _. now exists t.
    + assert (Ht : t = "").
      { destruct (String.eqb_spec t ""); [assumption|].
        apply truthy_some in n. congruence. }
      split; [intro d; split; [discriminate|]|split; [discriminate|split; reflexivity]].
      intros (_ & Hd & cs & Hc & Hf). injection Hc as <-.
      rewrite F in Hf. injection Hf as <-. contradiction.
  - cbn [fst snd]. rewrite ?Poll.openai_requests_emit.
    split; [intro d; split; [discriminate|]|split; [discriminate|split; reflexivity]].
    intro H. exfalso. apply (Hno d); [discriminate|exact H].
  - cbn [fst snd]. rewrite !Poll.openai_requests_emit, app_nil_r.
    split; [intro d; split; [discriminate|]|split; [discriminate|split; reflexivity]].
    intro H. exfalso. apply (Hno d); [discriminate|exact H].
Qed.

(** The two routes have one shape: 400 without a field, otherwise the
    completion or 500. *)
Lemma completion_route env (a b : option string) (req : string -> string -> ChatRequest)
    (missing failed : string) (w : World) (r : Answer value * World) :
  r = (if negb (truthy_str a) || negb (truthy_str b) then (Err 400 missing, w)
       else
         let '(v, w') :=
           plain_completion env (req (match a with Some s => s | None => "" end)
                                     (match b with Some s => s | None => "" end)) w in
         if negb (truthy v) then (Err 500 failed, w') else (Ok v, w')) ->
  (forall v, fst r = Ok v <->
     exists m t d, a = Some m /\ b = Some t /\ m <> "" /\ t <> ""
                   /\ v = JString d /\ completes env (req m t) d)
  /\ store (snd r) = store w
  /\ openai_requests (snd r)
     = (openai_requests w
        ++ match a, b with
           | Some m, Some t =>
               if truthy_str a && truthy_str b && openai env then [req m t] else []
           | _, _ => []
           end)%list.
Proof.
  intros ->.
  assert (Hnone : forall x, truthy_str x = false ->
            forall y, x = Some y -> y <> "" -> False).
  { intros x Hx y -> Hy. apply truthy_some in Hy. congruence. }
  destruct (truthy_str a) eqn:Ta; cbn [negb orb].
  2:{ cbn [fst snd]. split; [|split; [reflexivity|]].
      - intro v. split; [discriminate|].
        intros (m & t & d & Ha & _ & Hm & _). exfalso. eapply (Hnone a); eauto.
      - destruct a, b; cbn [andb]; now rewrite app_nil_r. }
  destruct (truthy_str b) eqn:Tb; cbn [negb].
  2:{ cbn [fst snd]. split; [|split; [reflexivity|]].
      - intro v. split; [discriminate|].
        intros (m & t & d & _ & Hb & _ & Ht & _). exfalso. eapply (Hnone b); eauto.
      - destruct a, b; cbn [andb]; now rewrite app_nil_r. }
  destruct a as [m|]; [|discriminate]. destruct b as [t|]; [|discriminate].
  apply truthy_some in Ta, Tb.
  destruct (plain_completion_returns env (req m t) w) as (Hv & Htr & Hst & Hrq).
  destruct (plain_completion env (req m t) w) as [v w'] eqn:P. cbn [fst snd] in *.
  cbn [andb]. destruct (truthy v) eqn:Tv; cbn [negb fst snd].
  - split; [|split; assumption].
    intro v'. split.
    + intro E. injection E as <-. destruct (Htr eq_refl) as [d Hd].
      exists m, t, d. repeat split; try assumption; try (now apply Hv).
      all: now apply (proj1 (Hv d)).
    + intros (m' & t' & d & Hm & Ht & _ & _ & -> & Hc).
      injection Hm as <-. injection Ht as <-. f_equal. now apply Hv.
  - split; [|split; assumption].
    intro v'. split; [discriminate|].
    intros (m' & t' & d & Hm & Ht & _ & _ & -> & Hc).
    injection Hm as <-. injection Ht as <-.
    pose proof (proj2 (Hv d) Hc) as Hd. destruct Hc as (_ & Hne & _).
    rewrite Hd in Tv. cbn in Tv. apply negb_false_iff, String.eqb_eq in Tv. contradiction.
Qed.

(** The middleware on a path that is not public: it lets the request
    through exactly when it is signed in, and otherwise answers 401 or 500
    and leaves the store and the requests as they are. *)
Lemma auth_cases env getUser path authHeader w :
  public path = false ->
  (signed_in env getUser authHeader = true
   /\ exists id, auth env getUser path authHeader w = (Next (Some id), w))
  \/ (signed_in env getUser authHeader = false
      /\ exists status error w0,
           auth env getUser path authHeader w = (Stop status error, w0)
           /\ (status = 401%Z \/ status = 500%Z)
           /\ store w0 = store w /\ openai_requests w0 = openai_requests w).
Proof.
  intro Hp. unfold auth, signed_in. rewrite Hp.
  assert (Hw : forall m, openai_requests (console_warn m w) = openai_requests w)
    by (intro m; unfold console_warn; now rewrite Poll.openai_requests_emit, app_nil_r).
  destruct authHeader as [h|]; cbn [truthy_str].
  2:{ right. split; [reflexivity|]. cbn [negb]. eexists. eexists. eexists.
      split; [reflexivity|]. split; [now left|]. split; [reflexivity | apply Hw]. }
  destruct (h =? ""); cbn [negb andb].
  { right. split; [reflexivity|]. eexists. eexists. eexists.
    split; [reflexivity|]. split; [now left|]. split; [reflexivity | apply Hw]. }
  destruct (Api.supabase env); cbn [negb andb].
  2:{ right. split; [reflexivity|]. eexists. eexists. eexists.
      split; [reflexivity|]. split; [now right|]. split; reflexivity. }
  destruct (getUser (remove_first "Bearer " h)) as [id|message|].
  - left. split; [reflexivity|]. now exists id.
  - right. split; [reflexivity|]. eexists. eexists. eexists.
    split; [reflexivity|]. split; [now left|]. split; [reflexivity | apply Hw].
  - right. split; [reflexivity|]. eexists. eexists. eexists.
    split; [reflexivity|]. split; [now left|]. split; [reflexivity | apply Hw].
Qed.

(** A route of that shape behind the middleware. *)
Lemma completion_route_behind_auth env getUser path authHeader (a b : option string)
    (req : string -> string -> ChatRequest) (handler : World -> Answer value * World)
    (w : World) (r : Answer value * World) :
  public path = false ->
  (forall w0,
     (forall v, fst (handler w0) = Ok v <->
        exists m t d, a = Some m /\ b = Some t /\ m <> "" /\ t <> ""
                      /\ v = JString d /\ completes env (req m t) d)
     /\ store (snd (handler w0)) = store w0
     /\ openai_requests (snd (handler w0))
        = (openai_requests w0
           ++ match a, b with
              | Some m, Some t =>
                  if truthy_str a && truthy_str b && openai env then [req m t] else []
              | _, _ => []
              end)%list) ->
  r = match auth env getUser path authHeader w with
      | (Stop status error, w0) => (Err status error, w0)
      | (Next _, w0) => handler w0
      end ->
  (forall v, fst r = Ok v <->
     signed_in env getUser authHeader = true
     /\ exists m t d, a = Some m /\ b = Some t /\ m <> "" /\ t <> ""
                      /\ v = JString d /\ completes env (req m t) d)
  /\ (signed_in env getUser authHeader = false ->
      exists status error, fst r = Err status error /\ (status = 401%Z \/ status = 500%Z))
  /\ store (snd r) = store w
  /\ openai_requests (snd r)
     = (openai_requests w
        ++ match a, b with
           | Some m, Some t =>
               if signed_in env getUser authHeader
                  && truthy_str a && truthy_str b && openai env
               then [req m t] else []
           | _, _ => []
           end)%list.
Proof.
  intros Hp Hh ->.
  destruct (auth_cases env getUser path authHeader w Hp)
    as [[Hs [id E]]|[Hs [status [error [w0 [E [Hst [Hstore Hreq]]]]]]]]; rewrite E, Hs.
  - destruct (Hh w) as (Hv & Hst & Hrq). cbn [andb].
    split; [|split; [discriminate|split; assumption]].
    intro v. rewrite Hv. tauto.
  - cbn [fst snd andb]. split; [|split; [|split; [assumption|]]].
    + intro v. split; [discriminate | intros [H _]; discriminate].
    + intros _. now exists status, error.
    + rewrite Hreq. destruct a, b; now rewrite app_nil_r.
Qed.

(** X22. [POST /ai/reply] answers a draft exactly when the request is
    signed in (a non-empty Authorization header, the store configured, and
    a user known for its token), both fields are given and not empty, the
    key is configured and the first choice of the completion has a
    non-empty content, and the draft is that content; a request that is not
    signed in is answered 401 or 500; the route sends a request to OpenAI
    only when the request is signed in, both fields are given and the key
    is configured, and it leaves the store as it is. *)
Theorem reply_route_answers_the_content (env : Env) (getUser : string -> GetUser)
    (authHeader originalMessage tone : option string) (w : World) :
  (forall v, fst (ai_reply env getUser authHeader originalMessage tone w) = Ok v <->
     signed_in env getUser authHeader = true
     /\ exists m t d, originalMessage = Some m /\ tone = Some t /\ m <> "" /\ t <> ""
                      /\ v = JString d /\ completes env (reply_request m t) d)
  /\ (signed_in env getUser authHeader = false ->
      exists status error,
        fst (ai_reply env getUser authHeader originalMessage tone w) = Err status error
        /\ (status = 401%Z \/ status = 500%Z))
  /\ store (snd (ai_reply env getUser authHeader originalMessage tone w)) = store w
  /\ openai_requests (snd (ai_reply env getUser authHeader originalMessage tone w))
     = (openai_requests w
        ++ match originalMessage, tone with
           | Some m, Some t =>
               if signed_in env getUser authHeader
                  && truthy_str originalMessage && truthy_str tone && openai env
               then [reply_request m t] else []
           | _, _ => []
           end)%list.
Proof.
  apply (completion_route_behind_auth env getUser "/api/ai/reply" authHeader
           originalMessage tone reply_request
           (ai_reply_handler env originalMessage tone)); [reflexivity| |reflexivity].
  intro w0.
  apply (completion_route env originalMessage tone reply_request
           "Missing originalMessage or tone" "Failed to generate draft").
  reflexivity.
Qed.

(** X23. [POST /ai/ask] answers exactly when the request is signed in (a
    non-empty Authorization header, the store configured, and a user known
    for its token), the summary and the question are given and not empty,
    the key is configured and the first choice of the completion has a
    non-empty content, and the answer is that content; a request that is
    not signed in is answered 401 or 500; the route sends a request to
    OpenAI only when the request is signed in, both fields are given and
    the key is configured, and it leaves the store as it is. *)
Theorem ask_route_answers_the_content (env : Env) (getUser : string -> GetUser)
    (authHeader summaryContext question : option string) (w : World) :
  (forall v, fst (ai_ask env getUser authHeader summaryContext question w) = Ok v <->
     signed_in env getUser authHeader = true
     /\ exists m t d, summaryContext = Some m /\ question = Some t /\ m <> "" /\ t <> ""
                      /\ v = JString d /\ completes env (ask_request m t) d)
  /\ (signed_in env getUser authHeader = false ->
      exists status error,
        fst (ai_ask env getUser authHeader summaryContext question w) = Err status error
        /\ (status = 401%Z \/ status = 500%Z))
  /\ store (snd (ai_ask env getUser authHeader summaryContext question w)) = store w
  /\ openai_requests (snd (ai_ask env getUser authHeader summaryContext question w))
     = (openai_requests w
        ++ match summaryContext, question with
           | Some m, Some t =>
               if signed_in env getUser authHeader
                  && truthy_str summaryContext && truthy_str question && openai env
               then [ask_request m t] else []
           | _, _ => []
           end)%list.
Proof.
  apply (completion_route_behind_auth env getUser "/api/ai/ask" authHeader
           summaryContext question ask_request
           (ai_ask_handler env summaryContext question)); [reflexivity| |reflexivity].
  intro w0.
  apply (completion_route env summaryContext question ask_request
           "Missing summaryContext or question" "Failed to generate answer").
  reflexivity.
Qed.

Example reply_without_header :
  ai_reply Scenario.env_ok knows_u1 None (Some "ping") (Some "polite") (Sample.world_of [])
  = (Err 401 "Missing Authorization header",
     console_warn "[Auth] Missing header for /api/ai/reply" (Sample.world_of [])).
Proof. reflexivity. Qed.

Example ask_with_unknown_token :
  ai_ask Scenario.env_ok knows_u1 (Some "Bearer jwt-9") (Some "report") (Some "who?")
    (Sample.world_of [])
  = (Err 401 "Invalid token",
     console_warn "[Auth] Invalid token for /api/ai/ask: undefined" (Sample.world_of [])).
Proof. reflexivity. Qed.

Lemma reply_route_answers_the_content_witness :
  fst (ai_reply Scenario.env_ok knows_u1 (Some "Bearer jwt-1") (Some "ping") (Some "polite")
         (Sample.world_of []))
  = Ok (JString Sample.good_answer)
  /\ exists status error,
       fst (ai_reply Scenario.env_ok knows_u1 (Some "Bearer jwt-9") (Some "ping")
              (Some "polite") (Sample.world_of [])) = Err status error
       /\ (status = 401%Z \/ status = 500%Z).
Proof.
  split.
  - apply (proj1 (reply_route_answers_the_content Scenario.env_ok knows_u1
                    (Some "Bearer jwt-1") (Some "ping") (Some "polite")
                    (Sample.world_of []))).
    split; [reflexivity|].
    exists "ping", "polite", Sample.good_answer.
    repeat split; try discriminate.
    eexists. split; reflexivity.
  - apply (proj1 (proj2 (reply_route_answers_the_content Scenario.env_ok knows_u1
                           (Some "Bearer jwt-9") (Some "ping") (Some "polite")
                           (Sample.world_of [])))).
    reflexivity.
Defined.

Lemma ask_route_answers_the_content_witness :
  fst (ai_ask Scenario.env_ok knows_u1 (Some "Bearer jwt-1") (Some "report") (Some "who?")
         (Sample.world_of []))
  = Ok (JString Sample.good_answer)
  /\ exists status error,
       fst (ai_ask Scenario.env_ok knows_u1 None (Some "report") (Some "who?")
              (Sample.world_of [])) = Err status error
       /\ (status = 401%Z \/ status = 500%Z).
Proof.
  split.
  - apply (proj1 (ask_route_answers_the_content Scenario.env_ok knows_u1
                    (Some "Bearer jwt-1") (Some "report") (Some "who?")
                    (Sample.world_of []))).
    split; [reflexivity|].
    exists "report", "who?", Sample.good_answer.
    repeat split; try discriminate.
    eexists. split; reflexivity.
  - apply (proj1 (proj2 (ask_route_answers_the_content Scenario.env_ok knows_u1
                           None (Some "report") (Some "who?") (Sample.world_of [])))).
    reflexivity.
Defined.

End Drafts.

(* ================================================================== *)
(** * [/cron/summarize]                                                 *)
(* ================================================================== *)

Module CronRoute.
Import Js Db CronService View PollView Routes.

(** X24. [GET /cron/summarize] answers 401 and does nothing unless the
    header is the bearer of the secret; with it, the route runs the batch
    summarization once and, when the run returns, is left in the world of
    the run: it answers 500 exactly when the run returned [null], which is
    when the store is not configured or the query for the pending users
    fails, and otherwise answers what the run returned, also when users
    were skipped. *)
Theorem summarize_route_fails_only_without_rows_query (fuel : nat) (env : Env) (w : World) :
  (forall h, h <> Some (Api.bearer env) ->
     cron_summarize fuel env h w = Some (Err 401 "Unauthorized", w))
  /\ (forall a w', cron_summarize fuel env (Some (Api.bearer env)) w = Some (a, w') ->
        exists r,
          runBatchSummarization fuel env w = Some (r, w')
          /\ ((r = ReturnNull /\ a = Err 500 "Summarization failed"
               /\ (CronService.supabase env = false \/ userError env = true))
              \/ (r <> ReturnNull /\ a = Ok r
                  /\ CronService.supabase env = true /\ userError env = false)))
  /\ (cron_summarize fuel env (Some (Api.bearer env)) w = None
      <-> runBatchSummarization fuel env w = None).
Proof.
  split; [|split].
  - intros h Hh. unfold cron_summarize. destruct h as [h|]; [|reflexivity].
    destruct (String.eqb_spec h (Api.bearer env)); [congruence|reflexivity].
  - intros a w'. unfold cron_summarize. rewrite String.eqb_refl.
    unfold runBatchSummarization.
    destruct (CronService.supabase env) eqn:S; cbn [negb].
    2:{ cbn [is_null]. intro E. injection E as <- <-. eexists. split; [reflexivity|].
        left. split; [reflexivity|]. split; [reflexivity | now left]. }
    destruct (SlackService.fetchSlackMessages _ _ _) as [w1|]; [|discriminate].
    unfold summarizePending. destruct (userError env) eqn:U.
    { cbn [is_null]. intro E. injection E as <- <-. eexists. split; [reflexivity|].
      left. split; [reflexivity|]. split; [reflexivity | now right]. }
    destruct (order _) as [|u us].
    { cbn [is_null]. intro E. injection E as <- <-. eexists. split; [reflexivity|].
      right. repeat split; discriminate. }
    destruct (fold_left _ _ _) as [w2 results]. cbn [is_null].
    intro E. injection E as <- <-. eexists. split; [reflexivity|].
    right. repeat split; discriminate.
  - unfold cron_summarize. rewrite String.eqb_refl.
    destruct (runBatchSummarization fuel env w) as [[r w']|]; [|tauto].
    destruct (is_null r); split; discriminate.
Qed.

(** The auth middleware lets the path of the route through unchecked. *)
Example summarize_path_is_public : public "/api/cron/summarize" = true.
Proof. reflexivity. Qed.

Example summarize_with_the_secret :
  option_map fst (cron_summarize 0 Scenario.env_ok (Some "Bearer s3cret") Scenario.scenario)
  = Some (Ok (ReturnReport true 1 [mkDetail "U1" 3 (JString "ok")])).
Proof. vm_compute. reflexivity. Qed.

Lemma summarize_route_fails_only_without_rows_query_witness :
  cron_summarize 0 Scenario.env_ok (Some "Bearer wrong") Scenario.scenario
  = Some (Err 401 "Unauthorized", Scenario.scenario)
  /\ exists r w',
       cron_summarize 0 Scenario.env_ok (Some "Bearer s3cret") Scenario.scenario
       = Some (Ok r, w')
       /\ runBatchSummarization 0 Scenario.env_ok Scenario.scenario = Some (r, w')
       /\ r = ReturnReport true 1 [mkDetail "U1" 3 (JString "ok")].
Proof.
  destruct (summarize_route_fails_only_without_rows_query 0 Scenario.env_ok
              Scenario.scenario) as [H401 [Hrun _]].
  split; [apply H401; discriminate|].
  destruct (cron_summarize 0 Scenario.env_ok (Some "Bearer s3cret") Scenario.scenario)
    as [[a w']|] eqn:E; [|vm_compute in E; discriminate].
  assert (Ea : a = Ok (ReturnReport true 1 [mkDetail "U1" 3 (JString "ok")])).
  { pose proof (f_equal (option_map fst) E) as E'. cbn [option_map fst] in E'.
    rewrite summarize_with_the_secret in E'. now injection E'. }
  destruct (Hrun _ w' E) as [r [Hr [[_ [Hc _]]|[_ [Hc _]]]]].
  - rewrite Ea in Hc. discriminate.
  - rewrite Ea in Hc. injection Hc as <-. rewrite Ea.
    eexists. exists w'. split; [reflexivity|]. split; [exact Hr | reflexivity].
Defined.

End CronRoute.

(* ================================================================== *)
(** * [sendSlackMessage]                                                *)
(* ================================================================== *)

Module Send.
Import Js Db Slack SlackSend Routes.

(** X25. [sendSlackMessage] sends at most one message, with the channel,
    text and thread it was given and a token that is not empty: the token
    of the one workspace row of the team, or else [SLACK_USER_TOKEN]; it
    returns [true] only if Slack answered [ok] to that message; it does not
    change the store; and when the team has exactly one row, with a token,
    the message is sent with that token. *)
Theorem message_is_sent_with_a_known_token (env : Env) (out : Outside)
    (channelId body : string) (threadTs teamId : option string) (w w' : World)
    (ok : bool) (sent : option PostMessage) :
  sendSlackMessage env out channelId body threadTs teamId w = (ok, sent, w') ->
  store w' = store w
  /\ (ok = true ->
      exists req st ra data, sent = Some req
        /\ chat_postMessage out req = Response st ra (Some data) /\ post_ok data = true)
  /\ (forall req, sent = Some req ->
        token req <> "" /\ channel req = channelId /\ text req = body
        /\ thread_ts req = threadTs
        /\ ((exists t ws, teamId = Some t /\ workspace_of t w = Some ws
                          /\ token req = Workspace.access_token ws)
            \/ SLACK_USER_TOKEN out = Some (token req)))
  /\ (forall t ws, SlackService.supabase env = true -> teamId = Some t -> t <> "" ->
        workspaceError out t = false -> workspace_of t w = Some ws ->
        Workspace.access_token ws <> "" ->
        exists req, sent = Some req /\ token req = Workspace.access_token ws).
Proof.
  unfold sendSlackMessage, workspace_of.
  destruct (SlackService.supabase env) eqn:S; cbn [negb].
  { set (looked_up := if truthy_str teamId then _ else _).
    assert (Hl : store (snd looked_up) = store w
                 /\ ((exists t ws, teamId = Some t
                        /\ single (filter (fun ws => Workspace.team_id ws =? t)
                                          (workspaces (store w))) = Some ws
                        /\ fst looked_up = Some (Workspace.access_token ws))
                     \/ fst looked_up = SLACK_USER_TOKEN out)
                 /\ (forall t ws, teamId = Some t -> t <> "" ->
                       workspaceError out t = false ->
                       single (filter (fun ws => Workspace.team_id ws =? t)
                                      (workspaces (store w))) = Some ws ->
                       Workspace.access_token ws <> "" ->
                       fst looked_up = Some (Workspace.access_token ws))).
    { subst looked_up. destruct teamId as [t|].
      2:{ cbn. repeat split; [now right|intros; discriminate]. }
      destruct (truthy_str (Some t)) eqn:Tt.
      2:{ cbn [fst snd]. repeat split; [now right|].
          intros t' ws' E Hne. injection E as <-.
          apply Drafts.truthy_some in Hne. congruence. }
      destruct (workspaceError out t) eqn:We.
      { cbn [fst snd console_warn emit store]. repeat split; [now right|].
        intros t' ws' E. injection E as <-. congruence. }
      destruct (single _) as [ws|] eqn:Sg.
      2:{ cbn [fst snd console_warn emit store]. repeat split; [now right|].
          intros t' ws' E _ _. injection E as <-. rewrite Sg. discriminate. }
      destruct (truthy_str (Some (Workspace.access_token ws))) eqn:Ta.
      - cbn [fst snd]. repeat split.
        + left. exists t, ws. repeat split. exact Sg.
        + intros t' ws' E _ _ Hs _. injection E as <-. rewrite Sg in Hs.
          now injection Hs as <-.
      - cbn [fst snd console_warn emit store]. repeat split; [now right|].
        intros t' ws' E _ _ Hs Hne. injection E as <-. rewrite Sg in Hs.
        injection Hs as <-. apply Drafts.truthy_some in Hne. congruence. }
    destruct looked_up as [tok w1]. cbn [fst snd] in Hl.
    destruct Hl as (Hst & Hsrc & Hteam).
    destruct (truthy_str tok) eqn:Tk; cbn [negb].
    2:{ intro E. injection E as <- <- <-. cbn [console_error emit store].
        repeat split; try assumption; try discriminate.
        intros t ws _ Ht Hne He Hs Ha. rewrite (Hteam t ws Ht Hne He Hs Ha) in Tk.
        apply Drafts.truthy_some in Ha. congruence. }
    destruct tok as [tk|]; [|discriminate]. apply Drafts.truthy_some in Tk.
    set (req := mkPost tk channelId body threadTs).
    assert (Hreq : forall r, Some req = Some r ->
              token r <> "" /\ channel r = channelId /\ text r = body
              /\ thread_ts r = threadTs
              /\ ((exists t ws, teamId = Some t
                     /\ single (filter (fun ws => Workspace.team_id ws =? t)
                                       (workspaces (store w))) = Some ws
                     /\ token r = Workspace.access_token ws)
                  \/ SLACK_USER_TOKEN out = Some (token r))).
    { intros r E. injection E as <-. cbn [req token channel text thread_ts].
      repeat split; [assumption|].
      destruct Hsrc as [(t & ws & Ht & Hs & Hk)|Hk].
      - left. exists t, ws. repeat split; try assumption. now injection Hk.
      - right. now symmetry. }
    assert (Hsent : forall t ws, true = true -> teamId = Some t -> t <> "" ->
              workspaceError out t = false ->
              single (filter (fun ws => Workspace.team_id ws =? t)
                             (workspaces (store w))) = Some ws ->
              Workspace.access_token ws <> "" ->
              exists r, Some req = Some r /\ token r = Workspace.access_token ws).
    { intros t ws _ Ht Hne He Hs Ha. exists req. split; [reflexivity|].
      specialize (Hteam t ws Ht Hne He Hs Ha). now injection Hteam. }
    destruct (chat_postMessage out req) as [|st ra [data|]] eqn:P.
    - intro E. injection E as <- <- <-. cbn [console_error emit store].
      repeat split; try assumption; try discriminate; apply Hreq; assumption.
    - destruct (post_ok data) eqn:O; cbn [negb];
        intro E; injection E as <- <- <-; cbn [console_error emit store].
      + split; [assumption|]. split; [|split; assumption].
        intros _. exists req, st, ra, data. repeat split; assumption.
      + split; [assumption|]. split; [discriminate|split; assumption].
    - intro E. injection E as <- <- <-. cbn [console_error emit store].
      split; [assumption|]. split; [discriminate|split; assumption]. }
  intro E. injection E as <- <- <-.
  repeat split; discriminate.
Qed.

Example reply_with_the_team_token :
  sendSlackMessage Sample.env accepting "C1" "on it" None (Some "T1") (Scenario.world_with [])
  = (true, Some (mkPost "xoxp-1" "C1" "on it" None), Scenario.world_with []).
Proof. vm_compute. reflexivity. Qed.

Lemma message_is_sent_with_a_known_token_witness :
  store (Scenario.world_with []) = store (Scenario.world_with [])
  /\ exists req, Some (mkPost "xoxp-1" "C1" "on it" None) = Some req
                 /\ token req = Workspace.access_token Scenario.workspace.
Proof.
  pose proof (message_is_sent_with_a_known_token Sample.env accepting "C1" "on it" None
                (Some "T1") (Scenario.world_with []) _ _ _ eq_refl) as (Hs & _ & _ & Ht).
  split; [exact Hs|].
  apply (Ht "T1" Scenario.workspace); try reflexivity; discriminate.
Defined.

End Send.
